(** * Daily Geological Report analyzer: the extraction engine of [geoapp.py]

    A shallow embedding of the six extraction functions of [src/geoapp.py]
    ([extract_well_info], [extract_depths], [extract_formation_tops],
    [extract_gas_readings], [extract_lithological_description],
    [extract_detailed_gas_readings]) together with the Python and pandas
    primitives they call, followed by the properties of the specification.

    Conventions of the embedding.
    - A [DataFrame] read with [header=None] is a list of rows, a row a list
      of cells; [df.iterrows()] is the list together with its positions.
    - Cell text is a [string] of 8-bit characters; the character classes
      ([isdigit], [isspace], case folding) are the ASCII ones.
    - Python exceptions are explicit: a computation has type [res A] and is
      either [Ok a] or [Raise e]; [try ... except:] is [try_except].
    - Python floats are an interface ([PyFloat]); nothing below depends on how
      the arithmetic rounds.  [DecFloat] is an exact decimal implementation,
      used to run the functions on concrete sheets. *)

From Stdlib Require Import ZArith String Ascii List Bool Lia DecimalString.
From stdpp Require Import base option list gmap strings.

#[local] Open Scope string_scope.
#[local] Open Scope nat_scope.
#[local] Open Scope list_scope.

(** ** Python string primitives *)

Module PyStr.

(** [s.startswith(pat)] *)
Fixpoint startswith (pat s : string) : bool :=
  match pat, s with
  | EmptyString, _ => true
  | String _ _, EmptyString => false
  | String a pat', String b s' => Ascii.eqb a b && startswith pat' s'
  end.

(** [pat in s] *)
Fixpoint contains (pat s : string) : bool :=
  startswith pat s ||
  match s with
  | EmptyString => false
  | String _ s' => contains pat s'
  end.

Definition code (c : ascii) : nat := nat_of_ascii c.

Definition is_upper (c : ascii) : bool := (65 <=? code c) && (code c <=? 90).

Definition lower_char (c : ascii) : ascii :=
  if is_upper c then ascii_of_nat (code c + 32) else c.

(** [s.lower()] *)
Fixpoint lower (s : string) : string :=
  match s with
  | EmptyString => EmptyString
  | String c s' => String (lower_char c) (lower s')
  end.

(** [Series.str.contains(pat, case=False)] for a pattern without regular
    expression metacharacters: a substring test that ignores letter case. *)
Definition icontains (pat s : string) : bool := contains (lower pat) (lower s).

Definition is_digit (c : ascii) : bool := (48 <=? code c) && (code c <=? 57).

Fixpoint all_digits (s : string) : bool :=
  match s with
  | EmptyString => true
  | String c s' => is_digit c && all_digits s'
  end.

(** [s.isdigit()]: at least one character, and all of them digits. *)
Definition isdigit (s : string) : bool :=
  match s with
  | EmptyString => false
  | String _ _ => all_digits s
  end.

(** [s.replace('.', '')] *)
Fixpoint remove_dots (s : string) : string :=
  match s with
  | EmptyString => EmptyString
  | String c s' => if Ascii.eqb c "." then remove_dots s' else String c (remove_dots s')
  end.

(** The numeric test of the source: [s.replace('.', '').isdigit()]. *)
Definition digit_like (s : string) : bool := isdigit (remove_dots s).

(** [c.isspace()]: tab, line feed, vertical tab, form feed, carriage
    return, the four separators 0x1c-0x1f and the space. *)
Definition is_space (c : ascii) : bool :=
  let n := code c in
  ((9 <=? n) && (n <=? 13)) || ((28 <=? n) && (n <=? 32)).

(** [s.lstrip()] *)
Fixpoint lstrip (s : string) : string :=
  match s with
  | EmptyString => EmptyString
  | String c s' => if is_space c then lstrip s' else s
  end.

(** [s.rstrip()] *)
Fixpoint rstrip (s : string) : string :=
  match s with
  | EmptyString => EmptyString
  | String c s' =>
      match rstrip s' with
      | EmptyString => if is_space c then EmptyString else String c EmptyString
      | r => String c r
      end
  end.

(** [s.strip()] *)
Definition strip (s : string) : string := rstrip (lstrip s).

(** [sep.join(l)] *)
Fixpoint join (sep : string) (l : list string) : string :=
  match l with
  | [] => EmptyString
  | [s] => s
  | s :: l' => s +:+ sep +:+ join sep l'
  end.

(** [str(z)] for a Python [int]. *)
Definition repr_Z (z : Z) : string := NilZero.string_of_int (Z.to_int z).

(** Truth value of a string: [bool(s)]. *)
Definition nonempty (s : string) : bool :=
  match s with
  | EmptyString => false
  | String _ _ => true
  end.

End PyStr.

Import PyStr.

(** ** Regular expressions

    The fragment of Python's [re] the program uses, with [re]'s backtracking
    order: a greedy repetition tries the longest run first, a lazy one the
    shortest, and [search] takes the leftmost start at which a match exists. *)

Module Regex.

(** Character classes: [.], [\d], [\s]. *)
Inductive cls : Set := Dot | Digit | Space.

Inductive regex : Set :=
| Lit (s : string)            (* literal text *)
| Star (c : cls)              (* [c*] *)
| LazyStar (c : cls)          (* [c*?] *)
| Plus (c : cls)              (* [c+] *)
| Group (n : nat) (r : regex) (* the [n]-th parenthesis *)
| Seq (r1 r2 : regex)
| EndAnchor.                  (* [$] *)

Definition in_cls (c : cls) (a : ascii) : bool :=
  match c with
  | Dot => negb (code a =? 10)
  | Digit => is_digit a
  | Space => is_space a
  end.

Definition captures := list (nat * string).

Fixpoint drop_prefix (n : nat) (s : string) : string :=
  match n, s with
  | S n', String _ s' => drop_prefix n' s'
  | _, _ => s
  end.

Fixpoint take_prefix (n : nat) (s : string) : string :=
  match n, s with
  | S n', String a s' => String a (take_prefix n' s')
  | _, _ => EmptyString
  end.

Section Matcher.

Context {A : Type}.

Definition or_else (x : option A) (y : option A) : option A :=
  match x with
  | Some _ => x
  | None => y
  end.

Fixpoint star_greedy (p : ascii → bool) (s : string) (k : string → option A) : option A :=
  match s with
  | String a s' => if p a then or_else (star_greedy p s' k) (k s) else k s
  | EmptyString => k s
  end.

Fixpoint star_lazy (p : ascii → bool) (s : string) (k : string → option A) : option A :=
  or_else (k s)
    match s with
    | String a s' => if p a then star_lazy p s' k else None
    | EmptyString => None
    end.

End Matcher.

(** [matches r s caps k]: match [r] at the start of [s], then continue with
    [k] on what is left. *)
Fixpoint matches (r : regex) (s : string) (caps : captures)
    (k : string → captures → option captures) : option captures :=
  match r with
  | Lit t => if startswith t s then k (drop_prefix (String.length t) s) caps else None
  | Star c => star_greedy (in_cls c) s (λ s', k s' caps)
  | LazyStar c => star_lazy (in_cls c) s (λ s', k s' caps)
  | Plus c =>
      match s with
      | String a s' => if in_cls c a then star_greedy (in_cls c) s' (λ s'', k s'' caps) else None
      | EmptyString => None
      end
  | Group n r' =>
      matches r' s caps
        (λ s' caps', k s' ((n, take_prefix (String.length s - String.length s') s) :: caps'))
  | Seq r1 r2 => matches r1 s caps (λ s' caps', matches r2 s' caps' k)
  | EndAnchor =>
      match s with
      | EmptyString => k s caps
      | String a EmptyString => if code a =? 10 then k s caps else None
      | _ => None
      end
  end.

(** [re.search(r, s)]; the result holds the groups of the match. *)
Fixpoint search (r : regex) (s : string) : option captures :=
  or_else (matches r s [] (λ _ caps, Some caps))
    match s with
    | String _ s' => search r s'
    | EmptyString => None
    end.

(** [m.group(n)] *)
Fixpoint group (n : nat) (m : captures) : string :=
  match m with
  | [] => EmptyString
  | (i, t) :: m' => if i =? n then t else group n m'
  end.

Infix "⊙" := Seq (at level 60, right associativity).

(** [r'From.*?(\d+).*?To.*?(\d+)'] *)
Definition depth_re : regex :=
  Lit "From" ⊙ LazyStar Dot ⊙ Group 1 (Plus Digit) ⊙ LazyStar Dot ⊙
  Lit "To" ⊙ LazyStar Dot ⊙ Group 2 (Plus Digit).

(** [r'Lithology:\s*\*\s*(.*?)$'] *)
Definition lithology_re : regex :=
  Lit "Lithology:" ⊙ Star Space ⊙ Lit "*" ⊙ Star Space ⊙
  Group 1 (LazyStar Dot) ⊙ EndAnchor.

End Regex.

(** ** Exceptions *)

Inductive exn : Set :=
| ValueError | TypeError | IndexError | KeyError | UnboundLocalError.

Inductive res (A : Type) : Type :=
| Ok (a : A)
| Raise (e : exn).

Arguments Ok {A} a.
Arguments Raise {A} e.

#[global] Instance res_ret : MRet res := @Ok.

#[global] Instance res_bind : MBind res := λ A B k m,
  match m with
  | Ok a => k a
  | Raise e => Raise e
  end.

(** [try: body  except: handler] with a bare [except]. *)
Definition try_except {A} (body handler : res A) : res A :=
  match body with
  | Ok a => Ok a
  | Raise _ => handler
  end.

(** [a and b] where evaluating an operand may raise: [b] is evaluated only
    when [a] is true. *)
Definition and_then (a b : res bool) : res bool :=
  x ← a; if x : bool then b else mret false.

Infix "&&&" := and_then (at level 40, left associativity).

(** [l[i]] / [row.iloc[i]] / [df.iloc[i]] for a position [i >= 0]. *)
Definition iloc {A} (l : list A) (i : nat) : res A :=
  match l !! i with
  | Some x => Ok x
  | None => Raise IndexError
  end.

(** [d[k]] on a dictionary. *)
Definition dict_get {V} (d : gmap string V) (k : string) : res V :=
  match d !! k with
  | Some v => Ok v
  | None => Raise KeyError
  end.

(** [k in d] *)
Definition dict_in {V} (k : string) (d : gmap string V) : bool :=
  bool_decide (is_Some (d !! k)).

(** ** Loops *)

(** [enumerate(l)], counting from [n]. *)
Fixpoint enumerate_from {A} (n : nat) (l : list A) : list (nat * A) :=
  match l with
  | [] => []
  | x :: l' => (n, x) :: enumerate_from (S n) l'
  end.

Definition enumerate {A} (l : list A) : list (nat * A) := enumerate_from 0 l.

(** [for x in l: s = body(x, s)] *)
Fixpoint for_each {A S} (body : A → S → res S) (l : list A) (s : S) : res S :=
  match l with
  | [] => mret s
  | x :: l' => s' ← body x s; for_each body l' s'
  end.

(** The way one iteration of a loop body ends: it falls through to the next
    iteration, or it executes [break]. *)
Inductive ctl (S : Type) : Type :=
| Next (s : S)
| Break (s : S).

Arguments Next {S} s.
Arguments Break {S} s.

(** [for x in l: ...] whose body may [break]. *)
Fixpoint for_break {A S} (body : A → S → res (ctl S)) (l : list A) (s : S) : res S :=
  match l with
  | [] => mret s
  | x :: l' =>
      r ← body x s;
      match r with
      | Next s' => for_break body l' s'
      | Break s' => mret s'
      end
  end.

(** ** Floats and cells *)

(** The characters [str] of a float is made of: digits, sign, point, the
    exponent mark and the letters of [inf] and [nan]. *)
Definition float_char (c : ascii) : bool :=
  is_digit c || existsb (Ascii.eqb c) (list_ascii_of_string "+-.einfa").

Fixpoint all_chars (p : ascii → bool) (s : string) : bool :=
  match s with
  | EmptyString => true
  | String c s' => p c && all_chars p s'
  end.

(** The operations of Python's [float] that the program uses. *)
Class PyFloat : Type := {
  float : Type;
  (** [float('nan')], the value pandas stores in an empty cell *)
  float_nan : float;
  (** [float(z)] for an [int] *)
  float_of_Z : Z → float;
  (** [float(s)] for a [str]; [None] stands for [ValueError] *)
  float_of_string : string → option float;
  (** [a - b] *)
  float_sub : float → float → float;
  (** [a == b] *)
  float_eqb : float → float → bool;
  (** [str(a)] *)
  float_repr : float → string
}.

(** What the proofs need to know of [str] on floats: the text is not empty
    and has no character outside [float_char]. *)
Class PyFloatLaws (F : PyFloat) : Prop := {
  float_repr_nonempty : ∀ f : float, nonempty (float_repr f) = true;
  float_repr_chars : ∀ f : float, all_chars float_char (float_repr f) = true
}.

(** A cell of a sheet as [pandas.read_excel] delivers it: missing (NaN),
    text, or a number; [fl] is the type of floats. *)
Inductive cell_of {fl : Type} : Type :=
| CNaN
| CStr (s : string)
| CInt (z : Z)
| CFloat (f : fl).

Arguments cell_of : clear implicits.

(** A value stored in a record whose fields have several types. *)
Inductive pyval_of {fl : Type} : Type :=
| VStr (s : string)
| VInt (z : Z)
| VFloat (f : fl).

Arguments pyval_of : clear implicits.

Section Engine.

Context {F : PyFloat}.

(** A row is a list of cells, a sheet a list of rows. *)
#[local] Abbreviation cell := (cell_of float) (only parsing).
#[local] Abbreviation pyval := (pyval_of float) (only parsing).
#[local] Abbreviation row := (list cell) (only parsing).
#[local] Abbreviation grid := (list (list cell)) (only parsing).

(** [str(cell)] *)
Definition str (c : cell) : string :=
  match c with
  | CNaN => "nan"
  | CStr s => s
  | CInt z => repr_Z z
  | CFloat f => float_repr f
  end.

(** [pd.notna(cell)] *)
Definition notna (c : cell) : bool :=
  match c with
  | CNaN => false
  | _ => true
  end.

(** [float(cell)] *)
Definition py_float (c : cell) : res float :=
  match c with
  | CNaN => Ok float_nan
  | CStr s =>
      match float_of_string s with
      | Some f => Ok f
      | None => Raise ValueError
      end
  | CInt z => Ok (float_of_Z z)
  | CFloat f => Ok f
  end.

(** [a == b] on cells. NaN equals nothing; text equals equal text; numbers
    compare by value; text never equals a number. *)
Definition py_eq (a b : cell) : bool :=
  match a, b with
  | CStr s, CStr t => String.eqb s t
  | CInt x, CInt y => Z.eqb x y
  | CInt x, CFloat g => float_eqb (float_of_Z x) g
  | CFloat f, CInt y => float_eqb f (float_of_Z y)
  | CFloat f, CFloat g => float_eqb f g
  | _, _ => false
  end.

(** [l.index(x)]: the position of the first element equal to [x]. *)
Fixpoint list_index (x : cell) (l : list cell) : res nat :=
  match l with
  | [] => Raise ValueError
  | y :: l' => if py_eq y x then Ok 0 else i ← list_index x l'; mret (S i)
  end.

(** [' '.join([str(cell) for cell in row if pd.notna(cell)])] *)
Definition row_str (r : row) : string :=
  join " " (map str (List.filter notna r)).

(** The numeric test on a cell of a row: [pd.notna(row.iloc[j]) and
    str(row.iloc[j]).replace('.', '').isdigit()]. *)
Definition numeric_at (r : row) (j : nat) : res bool :=
  (c ← iloc r j; mret (notna c)) &&&
  (c ← iloc r j; mret (digit_like (str c))).

(** *** [extract_depths] (lines 141-172) *)

(** [try: depths[key] = float(row.iloc[col_idx + 1])  except: pass] *)
Definition set_depth (key : string) (r : row) (col_idx : nat)
    (depths : gmap string float) : res (gmap string float) :=
  try_except
    (c ← iloc r (col_idx + 1); v ← py_float c; mret (<[key := v]> depths))
    (mret depths).

(** The body of the inner loop, lines 148-163. *)
Definition depth_cell (r : row) (ic : nat * cell)
    (depths : gmap string float) : res (gmap string float) :=
  let '(col_idx, c) := ic in
  let cell_str := str c in
  if contains "24:00 Hrs" cell_str && (col_idx + 1 <? length r) then
    set_depth "depth_24hr" r col_idx depths
  else if contains "00:00 Hrs" cell_str && (col_idx + 1 <? length r) then
    set_depth "depth_00hr" r col_idx depths
  else if contains "06:00 Hrs" cell_str && (col_idx + 1 <? length r) then
    set_depth "depth_06hr" r col_idx depths
  else mret depths.

(** One iteration of the outer loop: the scan of one row. *)
Definition depth_row (ir : nat * row)
    (depths : gmap string float) : res (gmap string float) :=
  for_each (depth_cell ir.2) (enumerate ir.2) depths.

(** Lines 166-170: [if a in depths and b in depths: depths[key] =
    depths[a] - depths[b]], where the caller passes the minuend first. *)
Definition set_progress (key minuend subtrahend : string)
    (depths : gmap string float) : res (gmap string float) :=
  if dict_in subtrahend depths && dict_in minuend depths then
    x ← dict_get depths minuend;
    y ← dict_get depths subtrahend;
    mret (<[key := float_sub x y]> depths)
  else mret depths.

Definition extract_depths (df : grid) : res (gmap string float) :=
  depths ← for_each depth_row (enumerate df) ∅;
  depths ← set_progress "progress_24hr" "depth_00hr" "depth_24hr" depths;
  depths ← set_progress "progress_6hr" "depth_06hr" "depth_00hr" depths;
  mret depths.

(** *** [extract_well_info] (lines 56-138) *)

(** [df[df.apply(lambda row: row.astype(str).str.contains(label,
    case=False).any(), axis=1)]]: the rows with a cell whose text contains
    the label, letter case ignored. *)
Definition label_rows (label : string) (df : grid) : grid :=
  List.filter (λ r, existsb (λ c, icontains label (str c)) r) df.

(** [df.empty]: no row or no column. *)
Definition df_empty (df : grid) : bool :=
  match df with
  | [] => true
  | [] :: _ => true
  | _ => false
  end.

(** The test on a label cell: the label alone, or the label and the marker
    [':-'] (lines 75, 85, 105). *)
Definition label_cell (label : string) (marker : bool) (c : cell) : bool :=
  contains label (str c) && (if marker then contains ":-" (str c) else true).

(** The body of the inner loop of a field block, e.g. lines 65-68:
    [if label in str(cell): if col_idx + 1 < len(row): well_info[key] =
    str(row.iloc[col_idx + 1]); break]. *)
Definition field_cell (key label : string) (marker : bool) (r : row)
    (ic : nat * cell) (well_info : gmap string string)
    : res (ctl (gmap string string)) :=
  let '(col_idx, c) := ic in
  if label_cell label marker c then
    if col_idx + 1 <? length r then
      v ← iloc r (col_idx + 1);
      mret (Break (<[key := str v]> well_info))
    else mret (Break well_info)
  else mret (Next well_info).

(** The inner loop over one row. *)
Definition field_row (key label : string) (marker : bool) (r : row)
    (well_info : gmap string string) : res (gmap string string) :=
  for_break (field_cell key label marker r) (enumerate r) well_info.

(** One field block, e.g. lines 61-68: filter the rows, and if any is left
    scan them all. *)
Definition find_field (key label : string) (marker : bool) (df : grid)
    (well_info : gmap string string) : res (gmap string string) :=
  let cells := label_rows label df in
  if negb (df_empty cells) then for_each (field_row key label marker) cells well_info
  else mret well_info.

(** [range(start, stop, -1)] *)
Definition range_down (start stop : Z) : list Z :=
  map (λ k, (start - Z.of_nat k)%Z) (seq 0 (Z.to_nat (start - stop))).

(** [df.iloc[idx]] for an integer that may be negative (counted from the
    end, as pandas does). *)
Definition iloc_Z {A} (l : list A) (idx : Z) : res A :=
  let n := Z.of_nat (length l) in
  if (idx <? 0)%Z then
    if (0 <=? n + idx)%Z then iloc l (Z.to_nat (n + idx)) else Raise IndexError
  else iloc l (Z.to_nat idx).

(** Line 134. *)
Definition has_name (c : cell) : bool :=
  contains "Youssef" (str c) || contains "Mahmoud" (str c) || contains "Soliman" (str c).

(** Lines 132-136: one row of the scan from the bottom. *)
Definition fallback_row (df : grid) (idx : Z)
    (well_info : gmap string string) : res (gmap string string) :=
  r ← iloc_Z df idx;
  for_break
    (λ c wi, if has_name c then mret (Break (<["geologist" := str c]> wi))
             else mret (Next wi))
    r well_info.

(** Lines 121-136. *)
Definition find_geologist (df : grid)
    (well_info : gmap string string) : res (gmap string string) :=
  let geo_cells := label_rows "Geologist" df in
  if negb (df_empty geo_cells) then
    for_each (field_row "geologist" "Geologist" false) geo_cells well_info
  else
    let n := Z.of_nat (length df) in
    for_each (fallback_row df) (range_down (n - 1) (Z.max 0 (n - 10))) well_info.

Definition extract_well_info (df : grid) : res (gmap string string) :=
  well_info ← find_field "concession" "Concession" false df ∅;
  well_info ← find_field "well" "Well" true df well_info;
  well_info ← find_field "date" "Date" true df well_info;
  well_info ← find_field "report_no" "Report No" false df well_info;
  well_info ← find_field "rkb" "RKB" true df well_info;
  well_info ← find_field "spud_date" "Spud Date" false df well_info;
  well_info ← find_geologist df well_info;
  mret well_info.

(** *** Tables under a header row *)

(** The variables of a header-anchored scan: the records collected so far,
    [header_found], and [header_row], unbound until a header is seen. *)
Record table_state : Type := {
  records : list (gmap string pyval);
  header_found : bool;
  header_row : option nat
}.

Definition table_init : table_state :=
  {| records := []; header_found := false; header_row := None |}.

Definition see_header (idx : nat) (st : table_state) : table_state :=
  {| records := records st; header_found := true; header_row := Some idx |}.

Definition add_record (d : gmap string pyval) (st : table_state) : table_state :=
  {| records := records st ++ [d];
     header_found := header_found st;
     header_row := header_row st |}.

(** Reading a local variable that may not have been assigned. *)
Definition read_local {A} (v : option A) : res A :=
  match v with
  | Some x => Ok x
  | None => Raise UnboundLocalError
  end.

(** [header_found and idx > header_row] *)
Definition below_header (idx : nat) (st : table_state) : res bool :=
  mret (header_found st) &&& (h ← read_local (header_row st); mret (h <? idx)).

(** *** [extract_formation_tops] (lines 175-214) *)

Definition name_denylist : list string :=
  [""; " "; "DABAA"; "APOLLONIA"; "KHOMAN"; "ABU ROASH"; "BAHARIYA"; "KHARITA"; "T.D."].

(** [c in l] for a list of strings. *)
Definition cell_in (c : cell) (l : list string) : bool :=
  existsb (λ e, py_eq (CStr e) c) l.

(** Lines 198-202 and 205-209: [if len(row) > j and pd.notna(row.iloc[j])
    and str(row.iloc[j]).replace('.', '').isdigit(): try:
    formation_data[key] = float(row.iloc[j])  except: pass]. *)
Definition md_field (key : string) (j : nat) (r : row)
    (formation_data : gmap string pyval) : res (gmap string pyval) :=
  ok ← mret (j <? length r) &&& numeric_at r j;
  if ok : bool then
    try_except
      (c ← iloc r j; v ← py_float c; mret (<[key := VFloat v]> formation_data))
      (mret formation_data)
  else mret formation_data.

(** Lines 191-212: a row below the header. *)
Definition formation_data_row (r : row) (st : table_state) : res table_state :=
  let formation_data : gmap string pyval := ∅ in
  named ← mret (2 <? length r)
           &&& (c ← iloc r 2; mret (notna c))
           &&& (c ← iloc r 2; mret (negb (cell_in c name_denylist)));
  if named : bool then
    c ← iloc r 2;
    let formation_data := <["name" := VStr (str c)]> formation_data in
    formation_data ← md_field "prognosed_md" 7 r formation_data;
    formation_data ← md_field "actual_md" 9 r formation_data;
    if bool_decide (formation_data ≠ ∅) then mret (add_record formation_data st)
    else mret st
  else mret st.

(** The body of the loop, lines 182-212. *)
Definition formation_row (ir : nat * row) (st : table_state) : res table_state :=
  let '(idx, r) := ir in
  let rs := row_str r in
  if contains "Formation Name" rs && contains "Prognosed" rs
     && contains "Actual Drilled" rs then
    mret (see_header idx st)
  else
    go ← below_header idx st;
    if go : bool then formation_data_row r st else mret st.

Definition extract_formation_tops (df : grid) : res (list (gmap string pyval)) :=
  st ← for_each formation_row (enumerate df) table_init;
  mret (records st).

(** *** [extract_gas_readings] (lines 217-247) *)

(** The variables of the scan: [gas_data] and [current_formation]. *)
Record gas_state : Type := {
  gas_data : gmap string (gmap string float);
  current_formation : option string
}.

(** Truth value of a variable that is [None] or a string. *)
Definition truthy (o : option string) : bool :=
  match o with
  | Some s => nonempty s
  | None => false
  end.

(** Lines 239-245: one row of the look-ahead. *)
Definition tg_row (df : grid) (formation : string) (next_idx : nat)
    (gd : gmap string (gmap string float))
    : res (ctl (gmap string (gmap string float))) :=
  next_row ← iloc df next_idx;
  ok ← mret (3 <? length next_row) &&& numeric_at next_row 3;
  if ok : bool then
    try_except
      (c ← iloc next_row 3;
       v ← py_float c;
       entry ← dict_get gd formation;
       mret (Break (<[formation := <["TG" := v]> entry]> gd)))
      (mret (Next gd))
  else mret (Next gd).

(** Line 238: [for next_idx in range(idx + 1, min(idx + 5, len(df)))]. *)
Definition tg_lookahead (df : grid) (formation : string) (idx : nat)
    (gd : gmap string (gmap string float))
    : res (gmap string (gmap string float)) :=
  for_break (tg_row df formation)
    (seq (idx + 1) (Nat.min (idx + 5) (length df) - (idx + 1))) gd.

(** The body of the inner loop, lines 225-245. *)
Definition gas_cell (df : grid) (idx : nat) (r : row) (c : cell)
    (st : gas_state) : res gas_state :=
  let cell_str := str c in
  if contains "Max. Gas Reading at:" cell_str then
    cell_idx ← list_index c r;
    ok ← mret (cell_idx + 1 <? length r) &&& (n ← iloc r (cell_idx + 1); mret (notna n));
    if ok : bool then
      n ← iloc r (cell_idx + 1);
      let formation := str n in
      mret {| gas_data := <[formation := ∅]> (gas_data st);
              current_formation := Some formation |}
    else mret st
  else if contains "T.G" cell_str && truthy (current_formation st) then
    match current_formation st with
    | Some formation =>
        gd ← tg_lookahead df formation idx (gas_data st);
        mret {| gas_data := gd; current_formation := current_formation st |}
    | None => mret st
    end
  else mret st.

Definition gas_row (df : grid) (ir : nat * row) (st : gas_state) : res gas_state :=
  for_each (gas_cell df ir.1 ir.2) ir.2 st.

Definition gas_init : gas_state := {| gas_data := ∅; current_formation := None |}.

Definition extract_gas_readings (df : grid) : res (gmap string (gmap string float)) :=
  st ← for_each (gas_row df) (enumerate df) gas_init;
  mret (gas_data st).

(** *** [extract_lithological_description] (lines 250-297) *)

(** The variables of the scan. *)
Record litho_state : Type := {
  descriptions : list (gmap string string);
  current_depth : option string;
  current_lithology : option string;
  current_description : list string
}.

Definition litho_init : litho_state :=
  {| descriptions := []; current_depth := None;
     current_lithology := None; current_description := [] |}.

(** Lines 264-269 and 290-295: [if current_depth and current_lithology and
    current_description: descriptions.append({...})]. *)
Definition flush (st : litho_state) : list (gmap string string) :=
  match current_depth st, current_lithology st with
  | Some depth, Some lithology =>
      if nonempty depth && nonempty lithology
         && bool_decide (current_description st ≠ []) then
        descriptions st ++
          [ <["depth" := depth]> (<["lithology" := lithology]>
              (<["description" := join " " (current_description st)]> ∅)) ]
      else descriptions st
  | _, _ => descriptions st
  end.

Definition boilerplate : list string :=
  ["North Bahariya"; "Well"; "Date"; "Lithological Description"].

(** The body of the loop, lines 259-287. *)
Definition litho_row (r : row) (st : litho_state) : litho_state :=
  let rs := row_str r in
  if contains "Depth:" rs then
    {| descriptions := flush st;
       current_depth :=
         match Regex.search Regex.depth_re rs with
         | Some m => Some (Regex.group 1 m +:+ " - " +:+ Regex.group 2 m)
         | None => current_depth st
         end;
       current_lithology := current_lithology st;
       current_description := [] |}
  else if contains "Lithology:" rs then
    match Regex.search Regex.lithology_re rs with
    | Some m =>
        {| descriptions := descriptions st;
           current_depth := current_depth st;
           current_lithology := Some (strip (Regex.group 1 m));
           current_description := current_description st |}
    | None => st
    end
  else if nonempty (strip rs) && negb (existsb (λ keyword, contains keyword rs) boilerplate) then
    {| descriptions := descriptions st;
       current_depth := current_depth st;
       current_lithology := current_lithology st;
       current_description := current_description st ++ [strip rs] |}
  else st.

(** No operation of this function can raise: the loop is a plain fold. *)
Definition extract_lithological_description (df : grid) : res (list (gmap string string)) :=
  mret (flush (fold_left (λ st r, litho_row r st) df litho_init)).

(** *** [extract_detailed_gas_readings] (lines 300-334) *)

(** Lines 322-328, one line per column. *)
Definition gas_columns : list (nat * string) :=
  [(7, "TG"); (8, "C1"); (9, "C2"); (10, "C3"); (11, "C4I"); (12, "C4N"); (13, "C5")].

(** [if len(row) > j: reading[key] = float(row.iloc[j]) if
    pd.notna(row.iloc[j]) and str(row.iloc[j]).replace('.', '').isdigit()
    else 0] *)
Definition gas_field (r : row) (jk : nat * string)
    (reading : gmap string pyval) : res (gmap string pyval) :=
  let '(j, key) := jk in
  if j <? length r then
    ok ← numeric_at r j;
    v ← (if ok : bool then c ← iloc r j; f ← py_float c; mret (VFloat f)
         else mret (VInt 0));
    mret (<[key := v]> reading)
  else mret reading.

(** Lines 316-332: a row below the header. *)
Definition reading_data_row (r : row) (st : table_state) : res table_state :=
  is_data ← mret (0 <? length r) &&& numeric_at r 0;
  if is_data : bool then
    try_except
      (c ← iloc r 0;
       depth ← py_float c;
       reading ← for_each (gas_field r) gas_columns {["DEPTH" := VFloat depth]};
       mret (add_record reading st))
      (mret st)
  else mret st.

(** The body of the loop, lines 307-332. *)
Definition reading_row (ir : nat * row) (st : table_state) : res table_state :=
  let '(idx, r) := ir in
  let rs := row_str r in
  if contains "DEPTH" rs && contains "TG" rs && contains "C1" rs then
    mret (see_header idx st)
  else
    go ← below_header idx st;
    if go : bool then reading_data_row r st else mret st.

Definition extract_detailed_gas_readings (df : grid) : res (list (gmap string pyval)) :=
  st ← for_each reading_row (enumerate df) table_init;
  mret (records st).

End Engine.

Abbreviation cell := (cell_of float) (only parsing).
Abbreviation pyval := (pyval_of float) (only parsing).
Abbreviation row := (list cell) (only parsing).
Abbreviation grid := (list (list cell)) (only parsing).

(** ** An implementation of the float interface

    Exact decimal arithmetic: a finite value is [m * 10^e], kept with [m] not
    a multiple of ten (so equal values have equal representations).  It reads
    the numerals [float()] reads and prints as [repr] does; on integers below
    [2^53], the depths and gas readings of a report, it agrees with binary64
    arithmetic. *)

Module DecFloat.

Inductive dec : Set :=
| NaN
| Inf (neg : bool)
| Fin (m e : Z).

(** Remove factors of ten from the mantissa. *)
Fixpoint norm_fuel (fuel : nat) (m e : Z) : dec :=
  match fuel with
  | 0 => Fin m e
  | S fuel' =>
      if (m =? 0)%Z then Fin 0 0
      else if (m mod 10 =? 0)%Z then norm_fuel fuel' (m / 10)%Z (e + 1)%Z
      else Fin m e
  end.

Definition norm (m e : Z) : dec := norm_fuel (S (Z.to_nat (Z.log2 (Z.abs m)))) m e.

Definition of_Z (z : Z) : dec := norm z 0.

Definition sub (a b : dec) : dec :=
  match a, b with
  | NaN, _ | _, NaN => NaN
  | Inf x, Inf y => if Bool.eqb x y then NaN else Inf x
  | Inf x, Fin _ _ => Inf x
  | Fin _ _, Inf y => Inf (negb y)
  | Fin m1 e1, Fin m2 e2 =>
      let e := Z.min e1 e2 in
      norm (m1 * 10 ^ (e1 - e) - m2 * 10 ^ (e2 - e))%Z e
  end.

Definition eqb (a b : dec) : bool :=
  match a, b with
  | Inf x, Inf y => Bool.eqb x y
  | Fin m1 e1, Fin m2 e2 => (m1 =? m2)%Z && (e1 =? e2)%Z
  | _, _ => false
  end.

(** *** Reading a numeral *)

(** [digit (["_"] digit)*]: the digits read and the rest of the text. *)
Fixpoint digitpart (s : string) : string * string :=
  match s with
  | String a s' =>
      if is_digit a then
        match s' with
        | String u t =>
            if Ascii.eqb u "_" && match t with String b _ => is_digit b | EmptyString => false end
            then let '(d, r) := digitpart t in (String a d, r)
            else let '(d, r) := digitpart s' in (String a d, r)
        | EmptyString => (String a EmptyString, EmptyString)
        end
      else (EmptyString, s)
  | EmptyString => (EmptyString, EmptyString)
  end.

Fixpoint digits_value (acc : Z) (s : string) : Z :=
  match s with
  | EmptyString => acc
  | String a s' => digits_value (acc * 10 + Z.of_nat (code a - 48))%Z s'
  end.

(** An optional sign: whether it is [-], and the rest. *)
Definition sign (s : string) : bool * string :=
  match s with
  | String a t =>
      if Ascii.eqb a "-" then (true, t)
      else if Ascii.eqb a "+" then (false, t)
      else (false, s)
  | EmptyString => (false, s)
  end.

(** The exponent part: nothing, or [e], a sign and digits up to the end. *)
Definition exponent (s : string) : option Z :=
  match s with
  | EmptyString => Some 0%Z
  | String a t =>
      if Ascii.eqb a "e" then
        let '(neg, t) := sign t in
        let '(d, r) := digitpart t in
        if nonempty d && negb (nonempty r) then
          Some (if neg : bool then (- digits_value 0 d)%Z else digits_value 0 d)
        else None
      else None
  end.

Definition of_string (s0 : string) : option dec :=
  let '(neg, s) := sign (lower (strip s0)) in
  if String.eqb s "inf" || String.eqb s "infinity" then Some (Inf neg)
  else if String.eqb s "nan" then Some NaN
  else
    let '(ip, s) := digitpart s in
    let '(fp, s) :=
      match s with
      | String a t => if Ascii.eqb a "." then digitpart t else (EmptyString, s)
      | EmptyString => (EmptyString, s)
      end in
    if nonempty ip || nonempty fp then
      match exponent s with
      | Some x =>
          let m := digits_value 0 (ip +:+ fp) in
          Some (norm (if neg : bool then - m else m)%Z (x - Z.of_nat (String.length fp))%Z)
      | None => None
      end
    else None.

(** *** Printing *)

Fixpoint zeros (n : nat) : string :=
  match n with
  | 0 => EmptyString
  | S n' => String "0" (zeros n')
  end.

(** [repr] of a positive [m * 10^e]: fixed notation when the decimal point
    falls within [-4 < point <= 16], scientific notation otherwise. *)
Definition repr_pos (m e : Z) : string :=
  let digits := repr_Z m in
  let n := Z.of_nat (String.length digits) in
  let point := (n + e)%Z in
  if ((-4 <? point) && (point <=? 16))%Z then
    if (point <=? 0)%Z then "0." +:+ zeros (Z.to_nat (- point)) +:+ digits
    else if (point <? n)%Z then
      Regex.take_prefix (Z.to_nat point) digits +:+ "." +:+
      Regex.drop_prefix (Z.to_nat point) digits
    else digits +:+ zeros (Z.to_nat (point - n)) +:+ ".0"
  else
    let x := (point - 1)%Z in
    Regex.take_prefix 1 digits +:+
    (if (1 <? n)%Z then "." +:+ Regex.drop_prefix 1 digits else EmptyString) +:+
    "e" +:+ (if (x <? 0)%Z then "-" else "+") +:+
    (if (Z.abs x <? 10)%Z then "0" else EmptyString) +:+ repr_Z (Z.abs x).

Definition repr (a : dec) : string :=
  match a with
  | NaN => "nan"
  | Inf neg => if neg then "-inf" else "inf"
  | Fin m e =>
      if (m =? 0)%Z then "0.0"
      else if (m <? 0)%Z then "-" +:+ repr_pos (- m) e
      else repr_pos m e
  end.

End DecFloat.

#[global] Instance dec_float : PyFloat := {|
  float := DecFloat.dec;
  float_nan := DecFloat.NaN;
  float_of_Z := DecFloat.of_Z;
  float_of_string := DecFloat.of_string;
  float_sub := DecFloat.sub;
  float_eqb := DecFloat.eqb;
  float_repr := DecFloat.repr
|}.

(** ** Vocabulary of the properties

    Functions and predicates in which the properties below are stated and
    proved: what a row gives to a field, what a look-ahead row offers, the
    invariants of the scans. *)

(** [yields x key o]: the computation [x] returns a dictionary, in which
    [key] is bound to [o] (or unbound when [o] is [None]). *)
Definition yields {V} (x : res (gmap string V)) (key : string) (o : option V) : Prop :=
  ∃ m, x = Ok m ∧ m !! key = o.

Section Vocabulary.

Context {F : PyFloat}.

(** The three fields that the scan of [extract_depths] writes. *)
Definition depth_key (k : string) : Prop :=
  k = "depth_24hr" ∨ k = "depth_00hr" ∨ k = "depth_06hr".

(** A dictionary with no other field than these. *)
Definition only_depths (d : gmap string float) : Prop :=
  ∀ k, is_Some (d !! k) → depth_key k.

(** The value a row gives to a field: the text of the cell right of the
    first label cell, if that cell exists. *)
Fixpoint pick (label : string) (marker : bool) (cells : list cell) : option string :=
  match cells with
  | [] => None
  | c :: rest =>
      if label_cell label marker c then
        match rest with
        | n :: _ => Some (str n)
        | [] => None
        end
      else pick label marker rest
  end.

(** [well_info[key] = v] when a row gives [v], nothing otherwise. *)
Definition put (key : string) (o : option string) (wi : gmap string string) :=
  match o with
  | Some v => <[key := v]> wi
  | None => wi
  end.

(** The value of a field after the scan of all rows: the last value a row
    gives. *)
Definition last_pick (label : string) (marker : bool) (df : grid) (init : option string) :=
  fold_left (λ acc r, match pick label marker r with Some v => Some v | None => acc end)
    df init.

(** The value a row gives in the scan from the bottom: the text of its first
    cell that holds one of the names. *)
Definition name_pick (r : row) : option string :=
  match List.find has_name r with
  | Some c => Some (str c)
  | None => None
  end.

(** The rows that the scan from the bottom visits, listed top to bottom:
    those strictly below the position [max(0, len(df) - 10)]. *)
Definition scanned (df : grid) : grid :=
  drop (S (Z.to_nat (Z.max 0 (Z.of_nat (length df) - 10)))) df.

(** The value of the topmost row that gives one. *)
Fixpoint top_name (rows : grid) : option string :=
  match rows with
  | [] => None
  | r :: rest =>
      match name_pick r with
      | Some v => Some v
      | None => top_name rest
      end
  end.

(** The value of [geologist]: by label when some cell holds the label in
    any letter case, by the scan from the bottom otherwise. *)
Definition geologist_of (df : grid) : option string :=
  match label_rows "Geologist" df with
  | [] => top_name (scanned df)
  | _ :: _ => last_pick "Geologist" false df None
  end.

(** What a step adds does not depend on the dictionary it is added to. *)
Definition adds {A} (body : A → gmap string float → res (gmap string float)) (x : A) : Prop :=
  ∃ m, ∀ d, body x d = Ok (m ∪ d).

(** [header_row] is bound whenever [header_found] is set. *)
Definition header_bound (st : table_state) : Prop :=
  header_found st = true → is_Some (header_row st).

(** A formation record has a name, and the name is not on the deny list. *)
Definition named_top (fd : gmap string pyval) : Prop :=
  ∃ n, fd !! "name" = Some (VStr n) ∧ ¬ In n name_denylist.

(** What the record holds for the column at position [j] of its row. *)
Definition field_ok (r : list cell) (j : nat) (o : option pyval) : Prop :=
  match r !! j with
  | None => o = None
  | Some c =>
      if notna c && digit_like (str c)
      then ∃ f, py_float c = Ok f ∧ o = Some (VFloat f)
      else o = Some (VInt 0)
  end.

(** A record of the result: it comes from a row of the sheet whose first
    cell passes the numeric test; [DEPTH] is that cell as a float, and each
    gas field is as [field_ok] says. *)
Definition reading_of (df : grid) (rd : gmap string pyval) : Prop :=
  ∃ r, In r df ∧
    (∃ c d, r !! 0 = Some c ∧ notna c && digit_like (str c) = true ∧
            py_float c = Ok d ∧ rd !! "DEPTH" = Some (VFloat d)) ∧
    ∀ j key, In (j, key) gas_columns → field_ok r j (rd !! key).

(** What the row at position [j] offers to the look-ahead of lines 238-245:
    its cell in column 3 as a float, when the row has the column, the cell
    is not missing, passes the numeric test and [float] accepts it. *)
Definition tg_offer (df : grid) (j : nat) : option float :=
  match df !! j with
  | Some next_row =>
      match next_row !! 3 with
      | Some c =>
          if notna c && digit_like (str c) then
            match py_float c with
            | Ok v => Some v
            | Raise _ => None
            end
          else None
      | None => None
      end
  | None => None
  end.

(** The first offer among the rows at the positions [js], in that order. *)
Fixpoint first_offer (df : grid) (js : list nat) : option float :=
  match js with
  | [] => None
  | j :: js' =>
      match tg_offer df j with
      | Some v => Some v
      | None => first_offer df js'
      end
  end.

(** Every formation that is current has an entry in [gas_data]. *)
Definition formation_known (st : gas_state) : Prop :=
  ∀ f, current_formation st = Some f → is_Some (gas_data st !! f).

(** The loop of [extract_lithological_description] over some rows. *)
Definition scan (rows : grid) (st : litho_state) : litho_state :=
  fold_left (λ st r, litho_row r st) rows st.

(** A row of free text that the scan keeps: not blank, no boilerplate. *)
Definition kept (r : list cell) : bool :=
  nonempty (strip (row_str r))
  && negb (existsb (λ keyword, contains keyword (row_str r)) boilerplate).

End Vocabulary.

(** ** Sheets

    The concrete sheets on which the functions are run below, with the
    decimal floats [dec_float]. *)

Module Sheets.

(** A sheet with a [Spud Date] label that has no [:-]. *)
Definition spud_sheet : grid := [[CStr "Spud Date"; CStr "12-Mar-2024"]].

(** Three rows, the two at the bottom each with a name. *)
Definition names_sheet : grid :=
  [[CStr "Report"]; [CStr "Youssef A."]; [CStr "Mahmoud B."]].

(** A gas table with three columns only. *)
Definition narrow_gas_sheet : grid :=
  [ [CStr "DEPTH"; CStr "TG"; CStr "C1"];
    [CInt 2500; CInt 12; CInt 5] ].

(** A gas summary whose first candidate cell passes the numeric test and
    is not a number. *)
Definition summary_sheet : grid :=
  [ [CStr "Max. Gas Reading at:"; CStr "ABU ROASH"; CNaN; CNaN];
    [CStr "T.G"; CNaN; CNaN; CNaN];
    [CNaN; CNaN; CNaN; CStr "1.2.3"];
    [CNaN; CNaN; CNaN; CInt 45] ].

(** Three rows that give a concession and a depth; the last has its label
    in the last column. *)
Definition repeated_sheet_pre : grid :=
  [[CStr "Concession"; CStr "A"; CStr "24:00 Hrs"; CInt 1000]].

Definition repeated_sheet_row : list cell :=
  [CStr "Concession"; CStr "B"; CStr "24:00 Hrs"; CInt 1050].

Definition repeated_sheet_post : grid :=
  [[CStr "x"; CStr "y"; CStr "24:00 Hrs"; CStr "Concession"]].

(** Two sections, the second without a [Lithology:] row. *)
Definition litho_pre : grid :=
  [ [CStr "Depth: From 100 To 150"];
    [CStr "Lithology: * Sandstone"];
    [CStr "Fine grained, gray"] ].

Definition litho_depth_row : list cell := [CStr "Depth: From 150 To 200"].

Definition litho_body : grid := [[CStr "Coarse grained"]; [CNaN]].

(** A table of formation tops with a deny-listed name, a number and a
    text in column 2. *)
Definition tops_sheet : grid :=
  [ [CNaN; CNaN; CStr "Formation Name"; CNaN; CNaN; CNaN; CNaN;
     CStr "Prognosed"; CNaN; CStr "Actual Drilled"];
    [CNaN; CNaN; CStr "DABAA"; CNaN; CNaN; CNaN; CNaN; CInt 900; CNaN; CInt 905];
    [CNaN; CNaN; CInt 7; CNaN; CNaN; CNaN; CNaN; CStr "n/a"; CNaN; CNaN];
    [CNaN; CNaN; CStr "ASL"; CNaN; CNaN; CNaN; CNaN; CStr "1200"; CNaN; CStr "1195"] ].

End Sheets.

Import Sheets.

(** ** Vocabulary of the further properties *)

Section MoreVocabulary.

Context {F : PyFloat}.

(** The depth field a cell writes, by the [if]/[elif] chain of lines
    149-163: the first of the three markers that the cell's text contains. *)
Definition marker_key (c : cell) : option string :=
  if contains "24:00 Hrs" (str c) then Some "depth_24hr"
  else if contains "00:00 Hrs" (str c) then Some "depth_00hr"
  else if contains "06:00 Hrs" (str c) then Some "depth_06hr"
  else None.

(** Where a depth of the result comes from: a cell of the sheet that writes
    the field, and the cell right of it, which [float] turns into the value. *)
Definition depth_source (df : grid) (key : string) (v : float) : Prop :=
  ∃ r i c n, In r df ∧ r !! i = Some c ∧ marker_key c = Some key ∧
             r !! S i = Some n ∧ py_float n = Ok v.

(** Every depth of the dictionary has a source in the sheet. *)
Definition sourced (df : grid) (d : gmap string float) : Prop :=
  ∀ key v, d !! key = Some v → depth_source df key v.

(** *** Tables under a header row *)

(** The header tests of the two tables, lines 184 and 309. *)
Definition tops_header (r : row) : bool :=
  contains "Formation Name" (row_str r) && contains "Prognosed" (row_str r)
  && contains "Actual Drilled" (row_str r).

Definition readings_header (r : row) : bool :=
  contains "DEPTH" (row_str r) && contains "TG" (row_str r) && contains "C1" (row_str r).

(** The records of a header-anchored scan, when a data row gives the record
    [record_of r] or none: header rows give nothing, and the other rows give
    theirs once a header has been seen. *)
Fixpoint table_records (is_header : row → bool)
    (record_of : row → option (gmap string pyval)) (found : bool) (df : grid)
    : list (gmap string pyval) :=
  match df with
  | [] => []
  | r :: df' =>
      if is_header r then table_records is_header record_of true df'
      else (if found then option_list (record_of r) else [])
           ++ table_records is_header record_of found df'
  end.

(** The state of a scan that has reached position [k]: a header seen lies
    above. *)
Definition header_above (k : nat) (st : table_state) : Prop :=
  header_found st = true → ∃ h, header_row st = Some h ∧ h < k.

(** The row at position [idx] is no header row and lies below one. *)
Definition data_row_at (is_header : row → bool) (df : grid) (idx : nat) (r : row) : Prop :=
  df !! idx = Some r ∧ is_header r = false ∧
  ∃ h hr, h < idx ∧ df !! h = Some hr ∧ is_header hr = true.

(** What a depth column of a formation row gives: the cell as a float when
    it is there, is not missing, passes the numeric test and [float] accepts
    it; nothing otherwise. *)
Definition md_value (r : row) (j : nat) : option pyval :=
  match r !! j with
  | Some c =>
      if notna c && digit_like (str c) then
        match py_float c with
        | Ok v => Some (VFloat v)
        | Raise _ => None
        end
      else None
  | None => None
  end.

Definition with_field (key : string) (o : option pyval) (fd : gmap string pyval) :=
  match o with
  | Some v => <[key := v]> fd
  | None => fd
  end.

(** The record of a formation row, if it gives one. *)
Definition top_record (r : row) : option (gmap string pyval) :=
  match r !! 2 with
  | Some c =>
      if notna c && negb (cell_in c name_denylist) then
        Some (with_field "actual_md" (md_value r 9)
                (with_field "prognosed_md" (md_value r 7)
                   (<["name" := VStr (str c)]> ∅)))
      else None
  | None => None
  end.

(** The record of a row of gas readings, if it gives one: the first cell
    must pass the numeric test, and every [float] of lines 319-328 must
    succeed. *)
Definition reading_record (r : row) : option (gmap string pyval) :=
  match r !! 0 with
  | Some c =>
      if notna c && digit_like (str c) then
        match py_float c with
        | Ok depth =>
            match for_each (gas_field r) gas_columns {["DEPTH" := VFloat depth]} with
            | Ok reading => Some reading
            | Raise _ => None
            end
        | Raise _ => None
        end
      else None
  | None => None
  end.

(** *** Gas summary *)

(** Where a formation of the summary comes from: a text cell with the
    marker, the first cell of its row equal to it, and the cell right of that
    one, which is not missing and whose text is the formation. *)
Definition formation_source (df : grid) (f : string) : Prop :=
  ∃ r i s n, In r df ∧ r !! i = Some (CStr s) ∧
             contains "Max. Gas Reading at:" s = true ∧
             (∀ i' c', i' < i → r !! i' = Some c' → py_eq c' (CStr s) = false) ∧
             r !! S i = Some n ∧ notna n = true ∧ f = str n.

(** Where a total gas of the summary comes from: a row with a [T.G] cell,
    and what one of the four rows below it offers. *)
Definition tg_source (df : grid) (v : float) : Prop :=
  ∃ idx r c j, df !! idx = Some r ∧ In c r ∧ contains "T.G" (str c) = true ∧
               idx < j ≤ idx + 4 ∧ tg_offer df j = Some v.

(** An entry of the summary. *)
Definition summary_entry (df : grid) (f : string) (e : gmap string float) : Prop :=
  formation_source df f ∧ (e = ∅ ∨ ∃ v, tg_source df v ∧ e = {["TG" := v]}).

(** The state of the scan: the current formation has an entry, and every
    entry has its sources in the sheet. *)
Definition summary_inv (df : grid) (st : gas_state) : Prop :=
  formation_known st ∧ ∀ f e, gas_data st !! f = Some e → summary_entry df f e.

(** *** Lithology *)

(** The form of a depth interval: two numerals with [ - ] between. *)
Definition depth_text (d : string) : Prop :=
  ∃ t1 t2, d = t1 +:+ " - " +:+ t2 ∧ isdigit t1 = true ∧ isdigit t2 = true.

(** A record of the lithological description. *)
Definition litho_record (rec : gmap string string) : Prop :=
  ∃ d l t,
    rec = <["depth" := d]> (<["lithology" := l]> (<["description" := t]> ∅)) ∧
    depth_text d ∧ nonempty l = true ∧ nonempty t = true.

(** The state of the scan: the records, the current depth and the lines of
    the buffer are well formed. *)
Definition litho_inv (st : litho_state) : Prop :=
  Forall litho_record (descriptions st) ∧
  (∀ d, current_depth st = Some d → depth_text d) ∧
  Forall (λ t, nonempty t = true) (current_description st).

(** The rows with [Depth:]. *)
Definition depth_rows (df : grid) : grid :=
  List.filter (λ r, contains "Depth:" (row_str r)) df.

(** The records so far are fewer than the [n] rows with [Depth:] seen, and
    there is none before a depth is set. *)
Definition litho_count (st : litho_state) (n : nat) : Prop :=
  match current_depth st with
  | Some _ => length (descriptions st) < n
  | None => descriptions st = []
  end.

(** *** Conversions that fail *)

(** What a cell offers to a depth field: the [float] of its right
    neighbour, when the cell writes the field, has a right neighbour, and
    [float] accepts it; nothing when [float] raises. *)
Definition cell_offer (key : string) (r : row) (ic : nat * cell) : option float :=
  if bool_decide (marker_key ic.2 = Some key) then
    match r !! S ic.1 with
    | Some n =>
        match py_float n with
        | Ok v => Some v
        | Raise _ => None
        end
    | None => None
    end
  else None.

(** The values offered to a depth field, in the order of the scan. *)
Definition depth_offers (key : string) (df : grid) : list float :=
  concat (map (λ r, omap (cell_offer key r) (enumerate r)) df).

(** A later value replaces an earlier one. *)
Definition latest (o : option float) (earlier : option float) : option float :=
  match o with
  | Some v => Some v
  | None => earlier
  end.

(** The formations of [later] include those of [earlier]. *)
Definition keeps_formations (earlier later : gas_state) : Prop :=
  ∀ k, is_Some (gas_data earlier !! k) → is_Some (gas_data later !! k).

(** The formation that the marker cell [c] of the row [r] announces is a
    key of [gas_data]. *)
Definition announced (r : row) (c : cell) (st : gas_state) : Prop :=
  ∀ i s n, c = CStr s → contains "Max. Gas Reading at:" s = true →
    r !! i = Some (CStr s) →
    (∀ i' c', i' < i → r !! i' = Some c' → py_eq c' (CStr s) = false) →
    r !! S i = Some n → notna n = true →
    is_Some (gas_data st !! str n).

End MoreVocabulary.

(** ** The chart of [main] (lines 438-448)

    [pd.DataFrame(detailed_gas)] has one column for each key that some
    record holds, and a missing value where a record lacks the key;
    [set_index] and the selection of a list of columns raise [KeyError] for a
    label that is no column. *)

Section Chart.

Context {F : PyFloat}.

(** [label in pd.DataFrame(records).columns] *)
Definition has_column (records : list (gmap string pyval)) (label : string) : bool :=
  existsb (λ rd, bool_decide (is_Some (rd !! label))) records.

(** [pd.DataFrame(records).empty]: no row, or no column. *)
Definition frame_empty (records : list (gmap string pyval)) : bool :=
  match records with
  | [] => true
  | _ => forallb (λ rd, bool_decide (rd = ∅)) records
  end.

(** [gas_df.set_index('DEPTH')[['TG', 'C1', 'C2', 'C3']]] (line 447): the
    rows of the selection, each with its index. *)
Definition chart_data (records : list (gmap string pyval))
    : res (list (option pyval * list (option pyval))) :=
  if has_column records "DEPTH" then
    if forallb (has_column records) ["TG"; "C1"; "C2"; "C3"] then
      mret (map (λ rd, (rd !! "DEPTH", map (λ label, rd !! label) ["TG"; "C1"; "C2"; "C3"]))
              records)
    else Raise KeyError
  else Raise KeyError.

(** Lines 438-447: [if detailed_gas: gas_df = pd.DataFrame(detailed_gas);
    if not gas_df.empty: ... chart_data = ...]; the result is the data of
    the chart, if one is drawn. *)
Definition main_chart (detailed_gas : list (gmap string pyval))
    : res (option (list (option pyval * list (option pyval)))) :=
  if bool_decide (detailed_gas ≠ []) then
    if negb (frame_empty detailed_gas) then
      chart ← chart_data detailed_gas; mret (Some chart)
    else mret None
  else mret None.

End Chart.

(** ** Further sheets *)

Module MoreSheets.

(** A label whose right neighbour is an empty cell. *)
Definition empty_value_row : list cell := [CStr "Concession"; CNaN].

(** A sheet with the label [GEOLOGIST] in capitals and a name at the bottom. *)
Definition capitals_sheet : grid :=
  [[CStr "GEOLOGIST"; CStr "Mahmoud B."]; [CStr "Youssef A."; CNaN]].

(** A sheet of one row, which holds a name. *)
Definition one_name_sheet : grid := [[CStr "Youssef A."]].

(** A row with the label of the spud date, marked with [:-]. *)
Definition spud_row : list cell := [CStr "Spud Date :-"; CStr "12-Mar-2024"].

(** A row of gas readings whose [TG] passes the numeric test and is not a
    number. *)
Definition dotted_row : list cell :=
  [CInt 2500; CNaN; CNaN; CNaN; CNaN; CNaN; CNaN; CStr "1.2.3"].

(** Three rows with depths; the second has a text that is no number right
    of its marker. *)
Definition failed_depth_sheet : grid :=
  [ [CStr "24:00 Hrs"; CInt 1000];
    [CStr "24:00 Hrs"; CStr "n/a"];
    [CStr "00:00 Hrs"; CInt 1050] ].

End MoreSheets.

Import MoreSheets.

(** * Properties *)

(** ** Strings *)

Lemma all_chars_app p s t : all_chars p (s +:+ t) = all_chars p s && all_chars p t.
Proof. induction s as [|a s IH]; simpl; [done|]. by rewrite IH, andb_assoc. Qed.

Lemma all_chars_weaken (p q : ascii → bool) s :
  (∀ c, p c = true → q c = true) → all_chars p s = true → all_chars q s = true.
Proof.
  intros Hpq. induction s as [|a s IH]; simpl; [done|].
  intros [Ha Hs]%andb_true_iff. rewrite (Hpq a Ha). simpl. auto.
Qed.

Lemma all_chars_take p n s : all_chars p s = true → all_chars p (Regex.take_prefix n s) = true.
Proof.
  revert s. induction n as [|n IH]; intros [|a s]; simpl; try done.
  intros [Ha Hs]%andb_true_iff. rewrite Ha. simpl. auto.
Qed.

Lemma all_chars_drop p n s : all_chars p s = true → all_chars p (Regex.drop_prefix n s) = true.
Proof.
  revert s. induction n as [|n IH]; intros [|a s]; simpl; try done.
  intros [Ha Hs]%andb_true_iff. auto.
Qed.

Lemma startswith_all_chars p pat s :
  startswith pat s = true → all_chars p s = true → all_chars p pat = true.
Proof.
  revert s. induction pat as [|a pat IH]; intros [|b s]; simpl; try done.
  intros [Hab Hs]%andb_true_iff [Hb Hs']%andb_true_iff.
  apply Ascii.eqb_eq in Hab as ->. rewrite Hb. simpl. eauto.
Qed.

(** A text contained in another has only characters of the other. *)
Lemma contains_all_chars p pat s :
  contains pat s = true → all_chars p s = true → all_chars p pat = true.
Proof.
  induction s as [|b s IH].
  - simpl. rewrite orb_false_r. intros H _. destruct pat; [done | discriminate].
  - cbn [contains]. intros [H|H]%orb_true_iff Hs.
    + by eapply startswith_all_chars.
    + simpl in Hs. apply andb_true_iff in Hs as [_ Hs]. auto.
Qed.

Lemma digits_of_uint d : all_chars is_digit (NilEmpty.string_of_uint d) = true.
Proof. induction d; simpl; auto. Qed.

Lemma digits_of_uint_nz d : all_chars is_digit (NilZero.string_of_uint d) = true.
Proof. destruct d; try apply (digits_of_uint (_ _)); reflexivity. Qed.

Lemma nonempty_of_uint_nz d : nonempty (NilZero.string_of_uint d) = true.
Proof. destruct d; reflexivity. Qed.

Lemma is_digit_float_char c : is_digit c = true → float_char c = true.
Proof. unfold float_char. by intros ->. Qed.

Lemma repr_Z_chars z : all_chars float_char (repr_Z z) = true.
Proof.
  unfold repr_Z. destruct z as [|q|q]; simpl; [done| |];
    apply (all_chars_weaken is_digit), digits_of_uint_nz; apply is_digit_float_char.
Qed.

Lemma repr_Z_nonempty z : nonempty (repr_Z z) = true.
Proof. unfold repr_Z. destruct z as [|q|q]; simpl; try done. apply nonempty_of_uint_nz. Qed.

Lemma nonempty_app_l s t : nonempty s = true → nonempty (s +:+ t) = true.
Proof. by destruct s. Qed.

Lemma nonempty_app_r s t : nonempty t = true → nonempty (s +:+ t) = true.
Proof. destruct s; simpl; auto. Qed.

Lemma startswith_lower pat s :
  startswith pat s = true → startswith (lower pat) (lower s) = true.
Proof.
  revert s. induction pat as [|a pat IH]; intros [|b s]; simpl; try done.
  intros [Hab Hs]%andb_true_iff. apply Ascii.eqb_eq in Hab as ->.
  rewrite Ascii.eqb_refl. simpl. auto.
Qed.

(** A substring is also a substring when letter case is ignored. *)
Lemma contains_icontains pat s : contains pat s = true → icontains pat s = true.
Proof.
  unfold icontains. induction s as [|b s IH].
  - simpl. rewrite !orb_false_r. apply startswith_lower.
  - cbn [contains lower]. intros [H|H]%orb_true_iff; apply orb_true_iff.
    + left. by apply (startswith_lower pat (String b s)).
    + right. auto.
Qed.

(** ** The decimal floats satisfy the interface *)

Module DecFloatFacts.

Import DecFloat.

Lemma zeros_chars n : all_chars float_char (zeros n) = true.
Proof. induction n; simpl; auto. Qed.

Lemma repr_pos_chars m e : all_chars float_char (repr_pos m e) = true.
Proof.
  unfold repr_pos.
  repeat case_match;
    rewrite ?all_chars_app, ?andb_true_iff; repeat split;
    auto using repr_Z_chars, zeros_chars, all_chars_take, all_chars_drop.
Qed.

Lemma repr_pos_nonempty m e : nonempty (repr_pos m e) = true.
Proof.
  unfold repr_pos.
  repeat case_match;
    repeat first [ reflexivity
                 | apply nonempty_app_l, repr_Z_nonempty
                 | apply nonempty_app_r ].
Qed.

Lemma repr_chars a : all_chars float_char (repr a) = true.
Proof.
  destruct a as [|[]|m e]; try reflexivity.
  unfold repr. repeat case_match; try reflexivity; auto using repr_pos_chars.
  rewrite all_chars_app. by rewrite repr_pos_chars.
Qed.

Lemma repr_nonempty a : nonempty (repr a) = true.
Proof.
  destruct a as [|[]|m e]; try reflexivity.
  unfold repr. repeat case_match; try reflexivity; auto using repr_pos_nonempty.
Qed.

End DecFloatFacts.

#[global] Instance dec_float_laws : PyFloatLaws dec_float.
Proof.
  split; [apply DecFloatFacts.repr_nonempty | apply DecFloatFacts.repr_chars].
Qed.

(** ** Exceptions and loops *)

(** Runs the binds whose first computation is a value. *)
Ltac run := cbn [mbind mret res_bind res_ret].

Lemma iloc_ok {A} (l : list A) i :
  i < length l → ∃ x, l !! i = Some x ∧ iloc l i = Ok x.
Proof.
  intros Hi. destruct (lookup_lt_is_Some_2 l i Hi) as [x Hx].
  exists x. unfold iloc. rewrite Hx. done.
Qed.

Lemma iloc_lookup {A} (l : list A) i x : l !! i = Some x → iloc l i = Ok x.
Proof. intros H. unfold iloc. by rewrite H. Qed.

(** A loop whose body keeps an invariant and never raises ends normally, in
    a state that satisfies the invariant. *)
Lemma for_each_inv {A S} (P : S → Prop) (body : A → S → res S) l s :
  (∀ x s, In x l → P s → ∃ s', body x s = Ok s' ∧ P s') →
  P s → ∃ s', for_each body l s = Ok s' ∧ P s'.
Proof.
  revert s. induction l as [|x l IH]; intros s Hbody Hs; simpl.
  - eauto.
  - destruct (Hbody x s) as (s1 & E1 & H1); [by left | done |].
    rewrite E1. simpl. apply IH; [|done].
    intros y t Hy. apply Hbody. by right.
Qed.

Lemma for_each_app {A S} (body : A → S → res S) l1 l2 s :
  for_each body (l1 ++ l2) s = for_each body l1 s ≫= for_each body l2.
Proof.
  revert s. induction l1 as [|x l1 IH]; intros s; simpl; [done|].
  destruct (body x s) as [s1|e]; simpl; [apply IH | done].
Qed.

(** [yields] by evaluation. *)
Lemma yields_run {V} (x : res (gmap string V)) key o :
  (m ← x; mret (m !! key)) = Ok o → yields x key o.
Proof. destruct x as [m|e]; [|done]. intros [= <-]. by exists m. Qed.

Lemma in_enumerate_from {A} (l : list A) n i x :
  In (i, x) (enumerate_from n l) → n ≤ i ∧ l !! (i - n) = Some x.
Proof.
  revert n. induction l as [|y l IH]; intros n; simpl; [done|].
  intros [[= <- <-]|H].
  - split; [lia|]. by rewrite Nat.sub_diag.
  - apply IH in H as [H1 H2]. split; [lia|].
    replace (i - n) with (S (i - S n)) by lia. done.
Qed.

Lemma in_enumerate {A} (l : list A) i x : In (i, x) (enumerate l) → l !! i = Some x.
Proof.
  intros H. apply in_enumerate_from in H as [_ H]. by rewrite Nat.sub_0_r in H.
Qed.

Lemma enumerate_from_app {A} (l1 l2 : list A) n :
  enumerate_from n (l1 ++ l2) = enumerate_from n l1 ++ enumerate_from (n + length l1) l2.
Proof.
  revert n. induction l1 as [|x l1 IH]; intros n; simpl.
  - by rewrite Nat.add_0_r.
  - rewrite IH. do 3 f_equal. lia.
Qed.

(** ** Depths *)

Section Depths.

Context {F : PyFloat}.

Lemma set_depth_ok key r i (d : gmap string float) :
  ∃ d', set_depth key r i d = Ok d' ∧ (d' = d ∨ ∃ v, d' = <[key := v]> d).
Proof.
  unfold set_depth.
  destruct (iloc r (i + 1)) as [c|e]; simpl; [|eauto].
  destruct (py_float c) as [v|e]; simpl; eauto.
Qed.

Lemma only_depths_insert k v d :
  depth_key k → only_depths d → only_depths (<[k := v]> d).
Proof.
  intros Hk Hd k' H. destruct (decide (k = k')) as [<-|Hne]; [done|].
  rewrite lookup_insert_ne in H by done. by apply Hd.
Qed.

Lemma depth_cell_ok r ic (d : gmap string float) :
  only_depths d → ∃ d', depth_cell r ic d = Ok d' ∧ only_depths d'.
Proof.
  intros Hd. destruct ic as [i c]. unfold depth_cell.
  repeat case_match;
    try (match goal with
         | |- context [set_depth ?k r i d] =>
             destruct (set_depth_ok k r i d) as (d' & -> & Hd');
             eexists; split; [reflexivity|];
             destruct Hd' as [->|[v ->]];
             [done | apply only_depths_insert; [unfold depth_key; auto | done]]
         end).
  eexists; split; [reflexivity | done].
Qed.

Lemma depth_scan_ok (df : grid) :
  ∃ d, for_each depth_row (enumerate df) ∅ = Ok d ∧ only_depths d.
Proof.
  apply (for_each_inv only_depths).
  - intros [i r] d _ Hd. unfold depth_row.
    apply (for_each_inv only_depths); [|done].
    intros ic d0 _ Hd0. by apply depth_cell_ok.
  - intros k [v H]. by rewrite lookup_empty in H.
Qed.

(** What [set_progress] returns, by cases on the two operands. *)
Lemma set_progress_spec key a b (d : gmap string float) :
  ∃ d', set_progress key a b d = Ok d' ∧
    ((∃ x y, d !! a = Some x ∧ d !! b = Some y ∧ d' = <[key := float_sub x y]> d)
     ∨ ((d !! a = None ∨ d !! b = None) ∧ d' = d)).
Proof.
  unfold set_progress, dict_in, dict_get.
  destruct (d !! b) as [y|] eqn:Eb, (d !! a) as [x|] eqn:Ea; simpl;
    repeat case_bool_decide; simpl;
    try (exfalso; match goal with H : ¬ is_Some _ |- _ => apply H; eauto end);
    try (exfalso; match goal with H : is_Some None |- _ => by destruct H end);
    eexists; (split; [reflexivity|]); eauto 10.
Qed.

End Depths.

(** C2. For every grid, [extract_depths] returns a dictionary that contains
    [progress_24hr] exactly when it contains both [depth_24hr] and
    [depth_00hr], and then [progress_24hr] is [depth_00hr - depth_24hr];
    likewise [progress_6hr] is present exactly when [depth_00hr] and
    [depth_06hr] are, and is [depth_06hr - depth_00hr]. *)
Theorem C2_progress_iff_operands {F : PyFloat} (df : grid) :
  ∃ d, extract_depths df = Ok d ∧
    (is_Some (d !! "progress_24hr") ↔
       is_Some (d !! "depth_24hr") ∧ is_Some (d !! "depth_00hr")) ∧
    (∀ p, d !! "progress_24hr" = Some p →
       ∃ x y, d !! "depth_00hr" = Some x ∧ d !! "depth_24hr" = Some y ∧
              p = float_sub x y) ∧
    (is_Some (d !! "progress_6hr") ↔
       is_Some (d !! "depth_00hr") ∧ is_Some (d !! "depth_06hr")) ∧
    (∀ p, d !! "progress_6hr" = Some p →
       ∃ x y, d !! "depth_06hr" = Some x ∧ d !! "depth_00hr" = Some y ∧
              p = float_sub x y).
Proof.
  unfold extract_depths.
  destruct (depth_scan_ok df) as (d & -> & Hd). simpl.
  assert (d !! "progress_24hr" = None) as N24.
  { destruct (d !! "progress_24hr") eqn:E; [|done].
    destruct (Hd "progress_24hr") as [?|[?|?]]; [eauto | done..]. }
  assert (d !! "progress_6hr" = None) as N6.
  { destruct (d !! "progress_6hr") eqn:E; [|done].
    destruct (Hd "progress_6hr") as [?|[?|?]]; [eauto | done..]. }
  destruct (set_progress_spec "progress_24hr" "depth_00hr" "depth_24hr" d)
    as (d1 & -> & H1). simpl.
  destruct (set_progress_spec "progress_6hr" "depth_06hr" "depth_00hr" d1)
    as (d2 & -> & H2). simpl.
  exists d2. split; [done|].
  destruct H1 as [(x & y & Ex & Ey & ->)|[Hn ->]];
    destruct H2 as [(x' & y' & Ex' & Ey' & ->)|[Hn' ->]];
    simplify_map_eq; unfold is_Some;
    repeat split;
    try (intros; repeat match goal with
                        | H : _ ∧ _ |- _ => destruct H
                        | H : ∃ _, _ |- _ => destruct H
                        | H : _ ∨ _ |- _ => destruct H
                        end; simplify_eq; eauto 10).
Qed.

(** ** Cells *)

Section Cells.

Context {F : PyFloat} {L : PyFloatLaws F}.

(** The text of a cell that is not a string is made of [float_char]s. *)
Lemma str_chars (c : cell) :
  (∀ s, c ≠ CStr s) → all_chars float_char (str c) = true ∧ nonempty (str c) = true.
Proof.
  destruct c as [|s|z|f]; simpl; intros H.
  - done.
  - by destruct (H s).
  - split; [apply repr_Z_chars | apply repr_Z_nonempty].
  - split; [apply float_repr_chars | apply float_repr_nonempty].
Qed.

(** Only a text cell can contain a text with a character that no number
    is printed with. *)
Lemma text_of_marker pat (c : cell) :
  all_chars float_char pat = false → contains pat (str c) = true → ∃ s, c = CStr s.
Proof.
  intros Hpat Hc. destruct c as [|s|z|f]; [| by eauto | |];
    exfalso; apply (contains_all_chars float_char) in Hc;
    first [ congruence | apply str_chars; done | reflexivity ].
Qed.

Lemma py_eq_text s : py_eq (CStr s) (CStr s) = true.
Proof. simpl. apply String.eqb_refl. Qed.

(** [l.index(x)] finds a text cell that is in the list. *)
Lemma list_index_text s (l : list cell) :
  In (CStr s) l → ∃ i, list_index (CStr s) l = Ok i ∧ i < length l.
Proof.
  induction l as [|y l IH]; simpl; [done|].
  intros H. destruct (py_eq y (CStr s)) eqn:E.
  - exists 0. split; [done | lia].
  - destruct H as [->|H]; [by rewrite py_eq_text in E|].
    destruct (IH H) as (i & -> & Hi). exists (S i). split; [done | lia].
Qed.

Lemma numeric_at_ok (r : row) j :
  j < length r →
  ∃ c, r !! j = Some c ∧ numeric_at r j = Ok (notna c && digit_like (str c)).
Proof.
  intros Hj. destruct (iloc_ok r j Hj) as (c & Hc & E).
  exists c. split; [done|]. unfold numeric_at, and_then. rewrite E. simpl.
  by destruct (notna c).
Qed.

(** A length test in front of the numeric test keeps it from raising. *)
Lemma guarded_numeric_ok (r : row) j :
  mret (j <? length r) &&& numeric_at r j =
  Ok (match r !! j with
      | Some c => notna c && digit_like (str c)
      | None => false
      end).
Proof.
  unfold and_then at 1. simpl. destruct (j <? length r) eqn:E.
  - apply Nat.ltb_lt in E. destruct (numeric_at_ok r j E) as (c & -> & ->). done.
  - apply Nat.ltb_ge in E. by rewrite (lookup_ge_None_2 r j E).
Qed.

End Cells.

Lemma for_each_pure {A S} (f : S → A → S) (body : A → S → res S) l s :
  (∀ x s, In x l → body x s = Ok (f s x)) → for_each body l s = Ok (fold_left f l s).
Proof.
  revert s. induction l as [|x l IH]; intros s H; simpl; [done|].
  rewrite H by (by left). simpl. apply IH. intros y t Hy. apply H. by right.
Qed.

(** Elements on which the step does nothing can be filtered out first. *)
Lemma fold_left_filter {A S} (f : S → A → S) (p : A → bool) l s :
  (∀ x s, p x = false → f s x = s) → fold_left f (List.filter p l) s = fold_left f l s.
Proof.
  intros H. revert s. induction l as [|x l IH]; intros s; simpl; [done|].
  destruct (p x) eqn:E; simpl; [done|]. by rewrite (H x s E).
Qed.

(** ** Well information *)

Section WellInfo.

Context {F : PyFloat}.

Lemma field_cell_eq key label marker (r : row) i c wi :
  field_cell key label marker r (i, c) wi =
  if label_cell label marker c then
    if i + 1 <? length r then
      v ← iloc r (i + 1); mret (Break (<[key := str v]> wi))
    else mret (Break wi)
  else mret (Next wi).
Proof. reflexivity. Qed.

Lemma field_scan_pick key label marker (pre cells : list cell) wi :
  for_break (field_cell key label marker (pre ++ cells))
    (enumerate_from (length pre) cells) wi
  = Ok (put key (pick label marker cells) wi).
Proof.
  revert pre. induction cells as [|c rest IH]; intros pre; [done|].
  cbn [enumerate_from for_break pick]. rewrite field_cell_eq.
  destruct (label_cell label marker c) eqn:E.
  - rewrite length_app. cbn [length].
    destruct rest as [|n rest'].
    + destruct (_ <? _) eqn:L; [apply Nat.ltb_lt in L; simpl in L; lia | done].
    + destruct (_ <? _) eqn:L; [|apply Nat.ltb_ge in L; simpl in L; lia].
      rewrite (iloc_lookup _ _ n); [reflexivity|].
      rewrite lookup_app_r by lia.
      replace (length pre + 1 - length pre) with 1 by lia. done.
  - specialize (IH (pre ++ [c])).
    rewrite <- app_assoc, length_app in IH. simpl in IH.
    rewrite Nat.add_1_r in IH. apply IH.
Qed.

Lemma field_row_pick key label marker (r : row) wi :
  field_row key label marker r wi = Ok (put key (pick label marker r) wi).
Proof. apply (field_scan_pick key label marker [] r). Qed.

Lemma pick_in_label_rows label marker (r : row) :
  existsb (λ c, icontains label (str c)) r = false → pick label marker r = None.
Proof.
  induction r as [|c r IH]; simpl; [done|].
  intros [Hc Hr]%orb_false_iff. unfold label_cell.
  destruct (contains label (str c)) eqn:E.
  - apply contains_icontains in E. congruence.
  - simpl. auto.
Qed.

Lemma find_field_fold key label marker (df : grid) wi :
  find_field key label marker df wi
  = Ok (fold_left (λ wi r, put key (pick label marker r) wi) df wi).
Proof.
  unfold find_field.
  rewrite <- (fold_left_filter _ (λ r, existsb (λ c, icontains label (str c)) r) df)
    by (intros r s Hr; by rewrite pick_in_label_rows).
  fold (label_rows label df).
  destruct (df_empty (label_rows label df)) eqn:E; simpl.
  - destruct (label_rows label df) as [|[|c r] rows] eqn:El; [done| |done].
    assert (In [] (label_rows label df)) as Hin by (rewrite El; by left).
    apply filter_In in Hin as [_ Hin]. discriminate.
  - apply for_each_pure. intros r s _. apply field_row_pick.
Qed.

Lemma fold_put_lookup key label marker (df : grid) (wi : gmap string string) :
  fold_left (λ wi r, put key (pick label marker r) wi) df wi !! key
    = last_pick label marker df (wi !! key)
  ∧ ∀ k, k ≠ key →
      fold_left (λ wi r, put key (pick label marker r) wi) df wi !! k = wi !! k.
Proof.
  unfold last_pick. revert wi. induction df as [|r df IH]; intros wi; simpl; [done|].
  destruct (IH (put key (pick label marker r) wi)) as [IH1 IH2]. split.
  - rewrite IH1. f_equal. destruct (pick label marker r); simpl; [|done].
    by rewrite lookup_insert_eq.
  - intros k Hk. rewrite IH2 by done.
    destruct (pick label marker r); simpl; [|done]. by rewrite lookup_insert_ne.
Qed.

Lemma find_field_spec key label marker (df : grid) wi :
  ∃ wi', find_field key label marker df wi = Ok wi' ∧
    wi' !! key = last_pick label marker df (wi !! key) ∧
    ∀ k, k ≠ key → wi' !! k = wi !! k.
Proof.
  eexists. split; [apply find_field_fold|]. apply fold_put_lookup.
Qed.

End WellInfo.

Section Geologist.

Context {F : PyFloat}.

Lemma name_scan (r : row) (wi : gmap string string) :
  for_break
    (λ c wi, if has_name c then mret (Break (<["geologist" := str c]> wi))
             else mret (Next wi)) r wi
  = Ok (put "geologist" (name_pick r) wi).
Proof.
  unfold name_pick. induction r as [|c r IH]; [done|].
  cbn [for_break List.find]. destruct (has_name c); [done|]. apply IH.
Qed.

Lemma iloc_Z_nat {A} (l : list A) (i : nat) : iloc_Z l (Z.of_nat i) = iloc l i.
Proof.
  unfold iloc_Z. destruct (Z.ltb_spec (Z.of_nat i) 0); [lia|].
  by rewrite Nat2Z.id.
Qed.

Lemma fallback_rows (df : grid) k wi :
  k ≤ length df →
  for_each (fallback_row df)
    (map (λ j, (Z.of_nat (length df) - 1 - Z.of_nat j)%Z) (seq 0 k)) wi
  = Ok (fold_left (λ wi r, put "geologist" (name_pick r) wi)
          (reverse (drop (length df - k) df)) wi).
Proof.
  induction k as [|k IH]; intros Hk.
  - rewrite Nat.sub_0_r, drop_all. done.
  - rewrite seq_S, map_app, for_each_app, IH by lia. simpl.
    destruct (lookup_lt_is_Some_2 df (length df - S k)) as [x Hx]; [lia|].
    replace (Z.of_nat (length df) - 1 - Z.of_nat k)%Z
      with (Z.of_nat (length df - S k)) by lia.
    unfold fallback_row. rewrite iloc_Z_nat, (iloc_lookup _ _ _ Hx). simpl.
    rewrite name_scan. simpl.
    rewrite (drop_S _ _ _ Hx), reverse_cons, fold_left_app.
    replace (S (length df - S k)) with (length df - k) by lia. done.
Qed.

Lemma fallback_scan (df : grid) wi :
  for_each (fallback_row df)
    (range_down (Z.of_nat (length df) - 1) (Z.max 0 (Z.of_nat (length df) - 10))) wi
  = Ok (fold_left (λ wi r, put "geologist" (name_pick r) wi) (reverse (scanned df)) wi).
Proof.
  unfold range_down, scanned.
  set (n := length df).
  set (k := Z.to_nat (Z.of_nat n - 1 - Z.max 0 (Z.of_nat n - 10))).
  destruct (decide (n = 0)) as [Hn|Hn].
  - subst k. rewrite Hn. simpl. destruct df; [done | discriminate].
  - rewrite (fallback_rows df k) by (subst k n; lia).
    assert (length df - k = S (Z.to_nat (Z.max 0 (Z.of_nat n - 10)))) as ->
      by (subst k n; lia).
    done.
Qed.

Lemma fold_names_lookup (rows : grid) (wi : gmap string string) :
  fold_left (λ wi r, put "geologist" (name_pick r) wi) (reverse rows) wi !! "geologist"
    = match top_name rows with
      | Some v => Some v
      | None => wi !! "geologist"
      end
  ∧ ∀ k, k ≠ "geologist" →
      fold_left (λ wi r, put "geologist" (name_pick r) wi) (reverse rows) wi !! k = wi !! k.
Proof.
  induction rows as [|r rows [IH1 IH2]]; [done|].
  rewrite reverse_cons, fold_left_app. cbn [fold_left top_name]. split.
  - destruct (name_pick r); simpl; [by rewrite lookup_insert_eq | done].
  - intros k Hk. destruct (name_pick r); simpl; [rewrite lookup_insert_ne by done|]; auto.
Qed.

Lemma find_geologist_spec (df : grid) (wi : gmap string string) :
  wi !! "geologist" = None →
  ∃ wi', find_geologist df wi = Ok wi' ∧
    wi' !! "geologist" = geologist_of df ∧
    ∀ k, k ≠ "geologist" → wi' !! k = wi !! k.
Proof.
  intros Hwi. unfold geologist_of.
  destruct (label_rows "Geologist" df) as [|r0 rows] eqn:E.
  - unfold find_geologist. rewrite E. simpl. rewrite fallback_scan.
    eexists. split; [done|]. destruct (fold_names_lookup (scanned df) wi) as [H1 H2].
    split; [|done]. rewrite H1, Hwi. by destruct (top_name _).
  - destruct (find_field_spec "geologist" "Geologist" false df wi) as (wi' & E' & H1 & H2).
    exists wi'. split; [|by rewrite H1, Hwi].
    rewrite <- E'. unfold find_geologist, find_field. rewrite E.
    destruct r0 as [|c r0]; [|reflexivity].
    assert (In [] (label_rows "Geologist" df)) as Hin by (rewrite E; by left).
    apply filter_In in Hin as [_ Hin]. discriminate.
Qed.

(** What [extract_well_info] returns, field by field. *)
Lemma well_info_spec (df : grid) :
  ∃ wi, extract_well_info df = Ok wi ∧
    wi !! "concession" = last_pick "Concession" false df None ∧
    wi !! "well" = last_pick "Well" true df None ∧
    wi !! "date" = last_pick "Date" true df None ∧
    wi !! "report_no" = last_pick "Report No" false df None ∧
    wi !! "rkb" = last_pick "RKB" true df None ∧
    wi !! "spud_date" = last_pick "Spud Date" false df None ∧
    wi !! "geologist" = geologist_of df.
Proof.
  unfold extract_well_info.
  destruct (find_field_spec "concession" "Concession" false df ∅) as (w1 & -> & A1 & B1).
  destruct (find_field_spec "well" "Well" true df w1) as (w2 & E2 & A2 & B2).
  destruct (find_field_spec "date" "Date" true df w2) as (w3 & E3 & A3 & B3).
  destruct (find_field_spec "report_no" "Report No" false df w3) as (w4 & E4 & A4 & B4).
  destruct (find_field_spec "rkb" "RKB" true df w4) as (w5 & E5 & A5 & B5).
  destruct (find_field_spec "spud_date" "Spud Date" false df w5) as (w6 & E6 & A6 & B6).
  destruct (find_geologist_spec df w6) as (w7 & E7 & A7 & B7).
  { rewrite B6, B5, B4, B3, B2, B1 by done. apply lookup_empty. }
  cbn [mbind res_bind]. rewrite E2. cbn [mbind res_bind]. rewrite E3.
  cbn [mbind res_bind]. rewrite E4. cbn [mbind res_bind]. rewrite E5.
  cbn [mbind res_bind]. rewrite E6. cbn [mbind res_bind]. rewrite E7.
  exists w7. split; [done|].
  rewrite lookup_empty in A1.
  repeat split.
  - by rewrite B7, B6, B5, B4, B3, B2, A1.
  - by rewrite B7, B6, B5, B4, B3, A2, B1, lookup_empty.
  - by rewrite B7, B6, B5, B4, A3, B2, B1, lookup_empty.
  - by rewrite B7, B6, B5, A4, B3, B2, B1, lookup_empty.
  - by rewrite B7, B6, A5, B4, B3, B2, B1, lookup_empty.
  - by rewrite B7, A6, B5, B4, B3, B2, B1, lookup_empty.
  - done.
Qed.

End Geologist.

Section Picks.

Context {F : PyFloat}.

(** A value picked in a row is the text right of a label cell. *)
Lemma pick_Some_inv label marker (r : row) v :
  pick label marker r = Some v →
  ∃ i c n, r !! i = Some c ∧ label_cell label marker c = true ∧
           r !! S i = Some n ∧ v = str n.
Proof.
  induction r as [|c r IH]; simpl; [done|].
  destruct (label_cell label marker c) eqn:E.
  - destruct r as [|n r']; [done|]. intros [= <-]. by exists 0, c, n.
  - intros H. destruct (IH H) as (i & c' & n & ? & ? & ? & ?).
    by exists (S i), c', n.
Qed.

(** The first label cell of a row decides what the row gives. *)
Lemma pick_first label marker (r : row) i c :
  r !! i = Some c → label_cell label marker c = true →
  (∀ j c', j < i → r !! j = Some c' → label_cell label marker c' = false) →
  pick label marker r = match r !! S i with Some n => Some (str n) | None => None end.
Proof.
  revert i. induction r as [|c0 r IH]; intros i Hi Hc Hfirst; [done|].
  destruct i as [|i]; simpl in *.
  - injection Hi as ->. rewrite Hc. by destruct r.
  - rewrite (Hfirst 0 c0) by (done || lia).
    apply IH; [done..|]. intros j c' Hj Hc'. apply (Hfirst (S j) c'); [lia | done].
Qed.

Lemma last_pick_app label marker (l1 l2 : grid) init :
  last_pick label marker (l1 ++ l2) init
  = last_pick label marker l2 (last_pick label marker l1 init).
Proof. unfold last_pick. apply fold_left_app. Qed.

Lemma last_pick_silent label marker (rows : grid) init :
  (∀ r, In r rows → pick label marker r = None) →
  last_pick label marker rows init = init.
Proof.
  unfold last_pick. revert init. induction rows as [|r rows IH]; intros init H; [done|].
  simpl. rewrite (H r) by (by left). apply IH. intros r' Hr'. apply H. by right.
Qed.

(** The last row that gives a value decides the field. *)
Lemma last_pick_last label marker (pre post : grid) r v init :
  pick label marker r = Some v →
  (∀ r', In r' post → pick label marker r' = None) →
  last_pick label marker (pre ++ r :: post) init = Some v.
Proof.
  intros Hr Hpost. rewrite last_pick_app.
  change (r :: post) with ([r] ++ post). rewrite last_pick_app.
  rewrite last_pick_silent by done. unfold last_pick. simpl. by rewrite Hr.
Qed.

Lemma last_pick_Some_inv label marker (df : grid) v :
  last_pick label marker df None = Some v → ∃ r, In r df ∧ pick label marker r = Some v.
Proof.
  induction df as [|r df IH] using rev_ind; [done|].
  rewrite last_pick_app. unfold last_pick at 1. simpl.
  destruct (pick label marker r) as [w|] eqn:E.
  - intros [= <-]. exists r. split; [|done]. apply in_or_app. right. by left.
  - intros H. destruct (IH H) as (r' & Hin & Hr'). exists r'.
    split; [|done]. apply in_or_app. by left.
Qed.

Lemma last_pick_is_Some label marker (df : grid) r init :
  In r df → is_Some (pick label marker r) → is_Some (last_pick label marker df init).
Proof.
  revert init. induction df as [|r0 df IH] using rev_ind; intros init Hin Hr; [done|].
  rewrite last_pick_app. unfold last_pick at 1. simpl.
  apply in_app_or in Hin as [Hin|[->|[]]].
  - destruct (pick label marker r0); [eauto|]. by apply IH.
  - destruct Hr as [v ->]. eauto.
Qed.

(** What a row alone gives to a field is what [pick] says. *)
Lemma field_row_alone key label marker (r : row) m :
  field_row key label marker r ∅ = Ok m → m !! key = pick label marker r.
Proof.
  rewrite field_row_pick. intros [= <-].
  destruct (pick label marker r); simpl; [apply lookup_insert_eq | apply lookup_empty].
Qed.

Lemma label_rows_nil (df : grid) label :
  (∀ r c, In r df → In c r → icontains label (str c) = false) →
  label_rows label df = [].
Proof.
  intros H. unfold label_rows. induction df as [|r df IH]; [done|]. simpl.
  replace (existsb (λ c, icontains label (str c)) r) with false.
  - apply IH. intros r' c Hr'. apply H. by right.
  - symmetry. apply not_true_is_false. intros (c & Hc & E)%existsb_exists.
    rewrite (H r c) in E; [done | by left | done].
Qed.

Lemma label_rows_cons (df : grid) label marker r :
  In r df → is_Some (pick label marker r) → label_rows label df ≠ [].
Proof.
  intros Hin [v Hv] E.
  assert (In r (label_rows label df)) as Hr; [|by rewrite E in Hr].
  apply filter_In. split; [done|].
  destruct (existsb _ r) eqn:Ex; [done|].
  by rewrite (pick_in_label_rows label marker r Ex) in Hv.
Qed.

Lemma top_name_first (rows : grid) i r c :
  rows !! i = Some r → List.find has_name r = Some c →
  (∀ j r', j < i → rows !! j = Some r' → List.find has_name r' = None) →
  top_name rows = Some (str c).
Proof.
  revert i. induction rows as [|r0 rows IH]; intros i Hi Hc Hfirst; [done|].
  destruct i as [|i]; simpl in *.
  - injection Hi as ->. unfold name_pick. by rewrite Hc.
  - unfold name_pick. rewrite (Hfirst 0 r0) by (done || lia).
    apply (IH i); [done..|]. intros j r' Hj Hr'. apply (Hfirst (S j) r'); [lia | done].
Qed.

Lemma top_name_none (rows : grid) :
  (∀ j r', rows !! j = Some r' → List.find has_name r' = None) → top_name rows = None.
Proof.
  induction rows as [|r0 rows IH]; intros H; [done|]. simpl.
  unfold name_pick. rewrite (H 0 r0) by done.
  apply IH. intros j r' Hr'. by apply (H (S j) r').
Qed.

End Picks.

Section DepthRows.

Context {F : PyFloat}.

Lemma set_depth_adds key (r : row) i : adds (λ _ : unit, set_depth key r i) ().
Proof.
  unfold adds, set_depth.
  destruct (iloc r (i + 1)) as [c|e]; simpl.
  - destruct (py_float c) as [v|e]; simpl.
    + exists {[key := v]}. intros d. by rewrite insert_union_singleton_l.
    + exists ∅. intros d. by rewrite (left_id_L ∅ (∪)).
  - exists ∅. intros d. by rewrite (left_id_L ∅ (∪)).
Qed.

Lemma depth_cell_adds (r : row) ic : adds (depth_cell r) ic.
Proof.
  destruct ic as [i c]. unfold adds, depth_cell.
  repeat case_match;
    try (match goal with
         | |- context [set_depth ?k r i _] => apply (set_depth_adds k r i)
         end).
  exists ∅. intros d. by rewrite (left_id_L ∅ (∪)).
Qed.

Lemma for_each_adds {A} (body : A → gmap string float → res (gmap string float)) l :
  (∀ x, In x l → adds body x) → adds (λ _ : unit, for_each body l) ().
Proof.
  induction l as [|x l IH]; intros H.
  - exists ∅. intros d. simpl. by rewrite (left_id_L ∅ (∪)).
  - destruct (H x) as [m1 H1]; [by left|].
    destruct IH as [m2 H2]; [intros y Hy; apply H; by right|].
    exists (m2 ∪ m1). intros d. simpl. rewrite H1. simpl.
    rewrite H2. by rewrite (assoc_L (∪)).
Qed.

Lemma depth_row_adds ir : adds depth_row ir.
Proof.
  destruct (for_each_adds (depth_cell ir.2) (enumerate ir.2)) as [m Hm].
  - intros ic _. apply depth_cell_adds.
  - by exists m.
Qed.

(** The scan of a row adds to the dictionary what the row alone gives. *)
Lemma depth_row_alone ir m d :
  depth_row ir ∅ = Ok m → depth_row ir d = Ok (m ∪ d).
Proof.
  destruct (depth_row_adds ir) as [m' H]. rewrite (H ∅), (right_id_L ∅ (∪)).
  intros [= <-]. apply H.
Qed.

Lemma depth_rows_silent (rows : list (nat * list cell)) key d :
  (∀ ir, In ir rows → ∃ m, depth_row ir ∅ = Ok m ∧ m !! key = None) →
  ∃ d', for_each depth_row rows d = Ok d' ∧ d' !! key = d !! key.
Proof.
  revert d. induction rows as [|ir rows IH]; intros d H; simpl; [eauto|].
  destruct (H ir) as (m & Hm & Hk); [by left|].
  rewrite (depth_row_alone ir m d Hm). simpl.
  destruct (IH (m ∪ d)) as (d' & -> & Hd'); [intros ? ?; apply H; by right|].
  exists d'. split; [done|]. rewrite Hd'. by rewrite lookup_union_r.
Qed.

Lemma depth_rows_total (rows : list (nat * list cell)) d :
  ∃ d', for_each depth_row rows d = Ok d'.
Proof.
  destruct (for_each_adds depth_row rows) as [m Hm]; [intros; apply depth_row_adds|].
  eauto.
Qed.

Lemma set_progress_other key a b (d : gmap string float) k :
  k ≠ key → ∃ d', set_progress key a b d = Ok d' ∧ d' !! k = d !! k.
Proof.
  intros Hk. destruct (set_progress_spec key a b d) as (d' & -> & H).
  exists d'. split; [done|].
  destruct H as [(x & y & _ & _ & ->)|[_ ->]]; [by rewrite lookup_insert_ne | done].
Qed.

(** The last row that gives a depth decides it. *)
Lemma depths_last (pre post : grid) (r : row) key v :
  key ≠ "progress_24hr" → key ≠ "progress_6hr" →
  (∃ m, depth_row (length pre, r) ∅ = Ok m ∧ m !! key = Some v) →
  (∀ i r', In r' post → ∃ m, depth_row (i, r') ∅ = Ok m ∧ m !! key = None) →
  ∃ d, extract_depths (pre ++ r :: post) = Ok d ∧ d !! key = Some v.
Proof.
  intros K1 K2 (m & Hm & Hv) Hpost. unfold extract_depths, enumerate.
  rewrite enumerate_from_app. simpl. rewrite for_each_app.
  destruct (depth_rows_total (enumerate_from 0 pre) ∅) as [d1 ->]. simpl.
  rewrite (depth_row_alone _ m d1 Hm). simpl.
  destruct (depth_rows_silent (enumerate_from (S (length pre)) post) key (m ∪ d1))
    as (d2 & -> & H2).
  { intros [i r'] Hin. apply Hpost.
    apply in_enumerate_from in Hin as [_ Hin].
    apply list_elem_of_In. by eapply list_elem_of_lookup_2. }
  simpl.
  destruct (set_progress_other "progress_24hr" "depth_00hr" "depth_24hr" d2 key)
    as (d3 & -> & H3); [done|]. simpl.
  destruct (set_progress_other "progress_6hr" "depth_06hr" "depth_00hr" d3 key)
    as (d4 & -> & H4); [done|]. simpl.
  exists d4. split; [done|].
  rewrite H4, H3, H2. by apply lookup_union_Some_l.
Qed.

End DepthRows.

(** ** The claims on well information and depths *)

(** C3 (as amended). In [extract_well_info], each of [well], [date] and
    [rkb] is set only from a row with a cell that contains the label
    ([Well], [Date], [RKB]) and also the marker [:-]; the value is the text
    of the next cell.  [concession], [report_no] and [spud_date] are matched
    by the label alone: their value is the text right of a cell that contains
    the label, and a row whose first cell with the label has a right
    neighbour is enough for the field to be set, with or without [:-]. *)
Theorem C3_marker_fields {F : PyFloat} (df : grid) :
  ∃ wi, extract_well_info df = Ok wi ∧
    (∀ key label v,
       In (key, label) [("well", "Well"); ("date", "Date"); ("rkb", "RKB")] →
       wi !! key = Some v →
       ∃ r i c n, In r df ∧ r !! i = Some c ∧
         contains label (str c) = true ∧ contains ":-" (str c) = true ∧
         r !! S i = Some n ∧ v = str n) ∧
    (∀ key label,
       In (key, label) [("concession", "Concession"); ("report_no", "Report No");
                        ("spud_date", "Spud Date")] →
       (∀ v, wi !! key = Some v →
          ∃ r i c n, In r df ∧ r !! i = Some c ∧
            contains label (str c) = true ∧ r !! S i = Some n ∧ v = str n) ∧
       (∀ r i c n, In r df → r !! i = Some c →
          contains label (str c) = true →
          (∀ j c', j < i → r !! j = Some c' → contains label (str c') = false) →
          r !! S i = Some n →
          is_Some (wi !! key))).
Proof.
  destruct (well_info_spec df) as (wi & E & Hc & Hw & Hd & Hn & Hr & Hs & _).
  exists wi. split; [done|]. split.
  - intros key label v Hin Hv.
    assert (last_pick label true df None = Some v) as Hl.
    { destruct Hin as [[= <- <-]|[[= <- <-]|[[= <- <-]|[]]]]; congruence. }
    apply last_pick_Some_inv in Hl as (r & Hr' & Hp).
    apply pick_Some_inv in Hp as (i & c & n & Hi & Hc' & Hn' & ->).
    unfold label_cell in Hc'. apply andb_true_iff in Hc' as [? ?].
    by exists r, i, c, n.
  - intros key label Hin.
    assert (wi !! key = last_pick label false df None) as Hl.
    { destruct Hin as [[= <- <-]|[[= <- <-]|[[= <- <-]|[]]]]; congruence. }
    rewrite Hl. split.
    + intros v Hv. apply last_pick_Some_inv in Hv as (r & Hr' & Hp).
      apply pick_Some_inv in Hp as (i & c & n & Hi & Hc' & Hn' & ->).
      unfold label_cell in Hc'. rewrite andb_true_r in Hc'.
      by exists r, i, c, n.
    + intros r i c n Hr' Hi Hc' Hfirst Hn'.
      apply (last_pick_is_Some _ _ _ r); [done|].
      rewrite (pick_first label false r i c Hi).
      * rewrite Hn'. eauto.
      * unfold label_cell. by rewrite Hc'.
      * intros j c' Hj Hc''. unfold label_cell. by rewrite (Hfirst j c' Hj Hc'').
Qed.

(** C6. When several rows give a value to a well-information field or to a
    depth, the value returned is the one of the last such row in row order:
    if the scan of a row alone yields [v] for the field and the scan of each
    later row alone yields nothing for it, the field is [v] whatever the
    earlier rows hold. *)
Theorem C6_last_matching_row_wins {F : PyFloat} (pre post : grid) (r : row) :
  (∀ key label marker v,
     In (key, label, marker)
        [("concession", "Concession", false); ("well", "Well", true);
         ("date", "Date", true); ("report_no", "Report No", false);
         ("rkb", "RKB", true); ("spud_date", "Spud Date", false);
         ("geologist", "Geologist", false)] →
     yields (field_row key label marker r ∅) key (Some v) →
     (∀ r', In r' post → yields (field_row key label marker r' ∅) key None) →
     yields (extract_well_info (pre ++ r :: post)) key (Some v)) ∧
  (∀ key v,
     In key ["depth_24hr"; "depth_00hr"; "depth_06hr"] →
     yields (depth_row (length pre, r) ∅) key (Some v) →
     (∀ i r', In r' post → yields (depth_row (i, r') ∅) key None) →
     yields (extract_depths (pre ++ r :: post)) key (Some v)).
Proof.
  split.
  - intros key label marker v Hin (m & Hm & Hv) Hpost.
    assert (pick label marker r = Some v) as Hr
      by (by rewrite <- (field_row_alone key label marker r m Hm)).
    assert (∀ r', In r' post → pick label marker r' = None) as Hp.
    { intros r' Hr'. destruct (Hpost r' Hr') as (m' & Hm' & Hv').
      by rewrite <- (field_row_alone key label marker r' m' Hm'). }
    pose proof (last_pick_last label marker pre post r v None Hr Hp) as Hl.
    destruct (well_info_spec (pre ++ r :: post))
      as (wi & E & Hc & Hw & Hd & Hn & Hk & Hs & Hg).
    exists wi. split; [done|].
    destruct Hin as [[= <- <- <-]|[[= <- <- <-]|[[= <- <- <-]|[[= <- <- <-]|
                    [[= <- <- <-]|[[= <- <- <-]|[[= <- <- <-]|[]]]]]]]]; try congruence.
    rewrite Hg. unfold geologist_of.
    destruct (label_rows "Geologist" (pre ++ r :: post)) eqn:El; [|done].
    exfalso. apply (label_rows_cons (pre ++ r :: post) "Geologist" false r); [|eauto|done].
    apply in_or_app. right. by left.
  - intros key v Hin. apply depths_last;
      destruct Hin as [<-|[<-|[<-|[]]]]; done.
Qed.

(** What the scan of lines 129-136 returns.  In a grid in which no cell
    contains [Geologist] in any letter case, each row strictly below position
    [max(0, len(df) - 10)] that holds one of the names [Youssef], [Mahmoud],
    [Soliman] overwrites the value with the text of its first such cell: the
    [break] leaves the loop over the cells only, so the value returned is
    that of the topmost such row.  With no name in those rows and in the row
    at that position the field is absent. *)
Lemma fallback_returns_topmost_name {F : PyFloat} (df : grid) :
  (∀ r c, In r df → In c r → icontains "Geologist" (str c) = false) →
  ∃ wi, extract_well_info df = Ok wi ∧
    (∀ i r c,
       df !! i = Some r → 0 < i → length df < i + 10 →
       List.find has_name r = Some c →
       (∀ j r', length df ≤ j + 10 → j < i → df !! j = Some r' →
                List.find has_name r' = None) →
       wi !! "geologist" = Some (str c)) ∧
    ((∀ j r', length df ≤ j + 10 → df !! j = Some r' → List.find has_name r' = None) →
     wi !! "geologist" = None).
Proof.
  intros Hno.
  destruct (well_info_spec df) as (wi & E & _ & _ & _ & _ & _ & _ & Hg).
  exists wi. split; [done|].
  rewrite Hg. unfold geologist_of. rewrite (label_rows_nil df "Geologist" Hno).
  unfold scanned.
  set (m := Z.to_nat (Z.max 0 (Z.of_nat (length df) - 10))).
  split.
  - intros i r c Hi Hpos Hwin Hc Habove.
    apply (top_name_first _ (i - S m) r c).
    + rewrite lookup_drop. replace (S m + (i - S m)) with i by (subst m; lia). done.
    + done.
    + intros j r' Hj. rewrite lookup_drop. apply Habove; subst m; lia.
  - intros Hnone. apply top_name_none.
    intros j r'. rewrite lookup_drop. apply Hnone. subst m. lia.
Qed.

(** ** Tables under a header row *)

Section Tables.

Context {F : PyFloat} {L : PyFloatLaws F}.

Lemma below_header_ok idx st :
  header_bound st → ∃ b, below_header idx st = Ok b.
Proof.
  intros H. unfold below_header, and_then. simpl.
  destruct (header_found st) eqn:E; [|eauto].
  destruct (H E) as [h ->]. simpl. eauto.
Qed.

(** A scan under a header keeps an invariant of the collected records when
    the step for a data row does, and it never raises when that step does
    not. *)
Lemma table_scan_inv (P : gmap string pyval → Prop)
    (is_header : string → bool)
    (data_row : list cell → table_state → res table_state) (df : grid) :
  (∀ r st, In r df → Forall P (records st) →
     ∃ st', data_row r st = Ok st' ∧
            header_found st' = header_found st ∧ header_row st' = header_row st ∧
            Forall P (records st')) →
  ∃ st,
    for_each
      (λ (ir : nat * list cell) st,
         let '(idx, r) := ir in
         if is_header (row_str r) then mret (see_header idx st)
         else go ← below_header idx st;
              if go : bool then data_row r st else mret st)
      (enumerate df) table_init = Ok st
    ∧ Forall P (records st).
Proof.
  intros Hdata.
  match goal with
  | |- ∃ st, ?run = Ok st ∧ _ =>
      enough (∃ st, run = Ok st ∧ header_bound st ∧ Forall P (records st))
        as (st & E & _ & HP) by eauto
  end.
  apply (for_each_inv (λ st, header_bound st ∧ Forall P (records st))).
  - intros [idx r] st Hin [Hb HP].
    apply in_enumerate in Hin. apply list_elem_of_lookup_2, list_elem_of_In in Hin.
    destruct (is_header (row_str r)).
    + eexists. split; [done|]. split; [|done]. intros _. simpl. eauto.
    + destruct (below_header_ok idx st Hb) as [[|] ->]; simpl.
      * destruct (Hdata r st Hin HP) as (st' & -> & E1 & E2 & HP').
        exists st'. split; [done|]. split; [|done].
        unfold header_bound. by rewrite E1, E2.
      * eauto.
  - split; [|by constructor]. intros H. discriminate.
Qed.

(** *** Formation tops *)

Lemma md_field_spec key j (r : list cell) (fd : gmap string pyval) :
  ∃ fd', md_field key j r fd = Ok fd' ∧ (fd' = fd ∨ ∃ v, fd' = <[key := VFloat v]> fd).
Proof.
  unfold md_field. rewrite guarded_numeric_ok. simpl.
  case_match; [|eauto].
  destruct (iloc r j) as [c|e]; simpl; [|eauto].
  destruct (py_float c) as [v|e]; simpl; eauto.
Qed.

Lemma named_ok (r : list cell) :
  mret (2 <? length r)
    &&& (c ← iloc r 2; mret (notna c))
    &&& (c ← iloc r 2; mret (negb (cell_in c name_denylist)))
  = Ok (match r !! 2 with
        | Some c => notna c && negb (cell_in c name_denylist)
        | None => false
        end).
Proof.
  unfold and_then. simpl. destruct (2 <? length r) eqn:E.
  - apply Nat.ltb_lt in E. destruct (iloc_ok r 2 E) as (c & -> & ->). simpl.
    by destruct (notna c).
  - apply Nat.ltb_ge in E. by rewrite (lookup_ge_None_2 r 2 E).
Qed.

(** No text made of [float_char]s is on the deny list. *)
Lemma number_text_allowed s :
  all_chars float_char s = true → nonempty s = true → ¬ In s name_denylist.
Proof.
  intros Hc Hn Hin. unfold name_denylist in Hin.
  repeat (destruct Hin as [<-|Hin]; [discriminate|]). done.
Qed.

Lemma allowed_name (c : cell) :
  cell_in c name_denylist = false → ¬ In (str c) name_denylist.
Proof.
  intros H. destruct c as [|s|z|f].
  - apply number_text_allowed; reflexivity.
  - simpl. intros Hin. apply not_true_iff_false in H. apply H.
    unfold cell_in. apply existsb_exists. exists s. split; [done|].
    apply py_eq_text.
  - apply number_text_allowed; apply str_chars; done.
  - apply number_text_allowed; apply str_chars; done.
Qed.

Lemma formation_data_row_ok (r : list cell) st :
  Forall named_top (records st) →
  ∃ st', formation_data_row r st = Ok st' ∧
         header_found st' = header_found st ∧ header_row st' = header_row st ∧
         Forall named_top (records st').
Proof.
  intros HP. unfold formation_data_row. rewrite named_ok. run.
  destruct (r !! 2) as [c|] eqn:Ec; [|eauto].
  destruct (notna c && negb (cell_in c name_denylist)) eqn:En; [|eauto].
  rewrite (iloc_lookup _ _ _ Ec). run.
  destruct (md_field_spec "prognosed_md" 7 r (<["name" := VStr (str c)]> ∅))
    as (fd1 & -> & H1). run.
  destruct (md_field_spec "actual_md" 9 r fd1) as (fd2 & -> & H2). run.
  assert (fd2 !! "name" = Some (VStr (str c))) as Hname.
  { destruct H2 as [->|[v2 ->]]; destruct H1 as [->|[v1 ->]]; by simplify_map_eq. }
  case_bool_decide; [|eauto].
  eexists. split; [done|]. repeat split. cbn [add_record records].
  apply Forall_app. split; [done|]. constructor; [|done].
  exists (str c). split; [done|]. apply allowed_name.
  apply andb_true_iff in En as [_ En]. by apply negb_true_iff in En.
Qed.

Lemma formation_tops_ok (df : grid) :
  ∃ fs, extract_formation_tops df = Ok fs ∧ Forall named_top fs.
Proof.
  unfold extract_formation_tops.
  destruct (table_scan_inv named_top
              (λ rs, contains "Formation Name" rs && contains "Prognosed" rs
                     && contains "Actual Drilled" rs)
              formation_data_row df) as (st & E & HP).
  - intros r st _. apply formation_data_row_ok.
  - unfold formation_row. rewrite E. simpl. eauto.
Qed.

End Tables.

(** C5. For every grid, every record returned by [extract_formation_tops]
    has a name, and the name is none of the deny-list tokens. *)
Theorem C5_denylist_never_a_name {F : PyFloat} {L : PyFloatLaws F} (df : grid) :
  ∃ fs, extract_formation_tops df = Ok fs ∧
    ∀ fd, In fd fs →
      ∃ n, fd !! "name" = Some (VStr n) ∧
           ¬ In n [""; " "; "DABAA"; "APOLLONIA"; "KHOMAN"; "ABU ROASH";
                   "BAHARIYA"; "KHARITA"; "T.D."].
Proof.
  destruct (formation_tops_ok df) as (fs & E & H).
  exists fs. split; [done|]. intros fd Hin.
  rewrite Forall_forall in H. apply (H fd). by apply list_elem_of_In.
Qed.

(** ** Detailed gas readings *)

Section Readings.

Context {F : PyFloat}.

Lemma gas_field_spec (r : list cell) j key (rd rd' : gmap string pyval) :
  rd !! key = None →
  gas_field r (j, key) rd = Ok rd' →
  field_ok r j (rd' !! key) ∧ ∀ k, k ≠ key → rd' !! k = rd !! k.
Proof.
  intros Hfresh. unfold gas_field, field_ok.
  destruct (j <? length r) eqn:E.
  - apply Nat.ltb_lt in E. destruct (numeric_at_ok r j E) as (c & Hc & ->). run.
    rewrite Hc. destruct (notna c && digit_like (str c)).
    + rewrite (iloc_lookup _ _ _ Hc). run.
      destruct (py_float c) as [f|e]; run; [|done].
      intros [= <-]. split; [|by intros; rewrite lookup_insert_ne].
      exists f. by rewrite lookup_insert_eq.
    + run. intros [= <-]. split; [|by intros; rewrite lookup_insert_ne].
      by rewrite lookup_insert_eq.
  - apply Nat.ltb_ge in E. rewrite (lookup_ge_None_2 r j E).
    intros [= <-]. done.
Qed.

Lemma gas_fields_spec (r : list cell) (cols : list (nat * string))
    (rd rd' : gmap string pyval) :
  NoDup (map snd cols) →
  (∀ jk, In jk cols → rd !! jk.2 = None) →
  for_each (gas_field r) cols rd = Ok rd' →
  (∀ j key, In (j, key) cols → field_ok r j (rd' !! key)) ∧
  (∀ k, ¬ In k (map snd cols) → rd' !! k = rd !! k).
Proof.
  revert rd. induction cols as [|[j key] cols IH]; intros rd Hnd Hfresh.
  - intros [= <-]. split; [by intros ? ? [] | done].
  - cbn [for_each]. destruct (gas_field r (j, key) rd) as [rd1|e] eqn:E1; run; [|done].
    intros Hrest. apply NoDup_cons in Hnd as [Hnotin Hnd].
    rewrite list_elem_of_In in Hnotin.
    destruct (gas_field_spec r j key rd rd1) as [Hkey Hother];
      [apply (Hfresh (j, key)); by left | done |].
    destruct (IH rd1 Hnd) as [IH1 IH2]; [|done|].
    { intros [j' key'] Hin. cbn [snd]. rewrite Hother; [apply (Hfresh (j', key')); by right|].
      intros ->. apply Hnotin. apply in_map_iff. by exists (j', key). }
    split.
    + intros j' key' [[= <- <-]|Hin]; [|by apply IH1].
      by rewrite IH2.
    + intros k Hk. simpl in Hk. rewrite IH2 by tauto. apply Hother.
      intros ->. tauto.
Qed.

Lemma reading_data_row_ok (df : grid) (r : list cell) st :
  In r df → Forall (reading_of df) (records st) →
  ∃ st', reading_data_row r st = Ok st' ∧
         header_found st' = header_found st ∧ header_row st' = header_row st ∧
         Forall (reading_of df) (records st').
Proof.
  intros Hin HP. unfold reading_data_row. rewrite guarded_numeric_ok. run.
  destruct (r !! 0) as [c|] eqn:Ec; [|eauto].
  destruct (notna c && digit_like (str c)) eqn:En; [|eauto].
  rewrite (iloc_lookup _ _ _ Ec). run.
  destruct (py_float c) as [d|e] eqn:Ed; run; [|eauto].
  destruct (for_each (gas_field r) gas_columns {["DEPTH" := VFloat d]})
    as [rd|e] eqn:Er; run; [|eauto].
  eexists. split; [done|]. repeat split. cbn [add_record records].
  apply Forall_app. split; [done|]. constructor; [|done].
  destruct (gas_fields_spec r gas_columns {["DEPTH" := VFloat d]} rd) as [H1 H2];
    [| |exact Er|].
  { apply (bool_decide_unpack _). by vm_compute. }
  { intros jk Hjk. unfold gas_columns in Hjk.
    repeat (destruct Hjk as [<-|Hjk]; [done|]). done. }
  exists r. split; [done|]. split; [|done].
  exists c, d. repeat split; [done..|].
  rewrite H2; [done|]. unfold gas_columns. simpl. intuition discriminate.
Qed.

Lemma detailed_gas_ok (df : grid) :
  ∃ rs, extract_detailed_gas_readings df = Ok rs ∧ Forall (reading_of df) rs.
Proof.
  unfold extract_detailed_gas_readings.
  destruct (table_scan_inv (reading_of df)
              (λ rs, contains "DEPTH" rs && contains "TG" rs && contains "C1" rs)
              reading_data_row df) as (st & E & HP).
  - intros r st. apply reading_data_row_ok.
  - unfold reading_row. rewrite E. run. eauto.
Qed.

End Readings.

(** C4 (as amended). For every record returned by
    [extract_detailed_gas_readings], taken from a row of the sheet, and each
    of the fields [TG], [C1], [C2], [C3], [C4I], [C4N], [C5] with its column
    7 to 13: when the row has no such column the field is absent from the
    record; when the column is there and its cell is missing or fails the
    numeric test, the field is the integer 0; otherwise the field is the cell
    converted to a float. *)
Theorem C4_gas_fields {F : PyFloat} (df : grid) :
  ∃ rs, extract_detailed_gas_readings df = Ok rs ∧
    ∀ rd, In rd rs →
      ∃ r, In r df ∧
        ∀ j key,
          In (j, key) [(7, "TG"); (8, "C1"); (9, "C2"); (10, "C3");
                       (11, "C4I"); (12, "C4N"); (13, "C5")] →
          match r !! j with
          | None => rd !! key = None
          | Some c =>
              if notna c && digit_like (str c)
              then ∃ f, py_float c = Ok f ∧ rd !! key = Some (VFloat f)
              else rd !! key = Some (VInt 0)
          end.
Proof.
  destruct (detailed_gas_ok df) as (rs & E & H).
  exists rs. split; [done|]. intros rd Hin.
  rewrite Forall_forall in H.
  destruct (H rd) as (r & Hr & _ & Hf); [by apply list_elem_of_In|].
  exists r. split; [done|]. intros j key Hjk. apply (Hf j key Hjk).
Qed.

(** ** Gas reading summary *)

Section GasSummary.

Context {F : PyFloat} {L : PyFloatLaws F}.

Lemma tg_row_spec (df : grid) f j (gd : gmap string (gmap string float)) :
  j < length df →
  tg_row df f j gd =
  Ok (match tg_offer df j, gd !! f with
      | Some v, Some e => Break (<[f := <["TG" := v]> e]> gd)
      | _, _ => Next gd
      end).
Proof.
  intros Hj. unfold tg_row, tg_offer.
  destruct (iloc_ok df j Hj) as (next_row & -> & ->). run.
  rewrite guarded_numeric_ok. run.
  destruct (next_row !! 3) as [c|] eqn:Ec; [|done].
  destruct (notna c && digit_like (str c)); [|done].
  rewrite (iloc_lookup _ _ _ Ec). run.
  destruct (py_float c) as [v|e]; run; [|done].
  unfold dict_get. by destruct (gd !! f).
Qed.

Lemma tg_scan_spec (df : grid) f e js (gd : gmap string (gmap string float)) :
  (∀ j, In j js → j < length df) → gd !! f = Some e →
  for_break (tg_row df f) js gd =
  Ok (match first_offer df js with
      | Some v => <[f := <["TG" := v]> e]> gd
      | None => gd
      end).
Proof.
  intros Hjs Hf. induction js as [|j js IH]; [done|].
  cbn [for_break first_offer]. rewrite tg_row_spec by (apply Hjs; by left).
  rewrite Hf. destruct (tg_offer df j); run; [done|].
  apply IH. intros j' Hj'. apply Hjs. by right.
Qed.

(** The look-ahead never raises and keeps the formations of [gas_data]. *)
Lemma tg_scan_total (df : grid) f js (gd : gmap string (gmap string float)) :
  (∀ j, In j js → j < length df) →
  ∃ gd', for_break (tg_row df f) js gd = Ok gd' ∧
         ∀ k, is_Some (gd !! k) → is_Some (gd' !! k).
Proof.
  intros Hjs. destruct (gd !! f) as [e|] eqn:Ef.
  - rewrite (tg_scan_spec df f e js gd Hjs Ef).
    eexists. split; [done|]. intros k Hk.
    destruct (first_offer df js); [|done].
    destruct (decide (f = k)) as [<-|Hne];
      [rewrite lookup_insert_eq; eauto | by rewrite lookup_insert_ne].
  - exists gd. split; [|done].
    induction js as [|j js IH]; [done|].
    cbn [for_break]. rewrite tg_row_spec by (apply Hjs; by left).
    rewrite Ef. destruct (tg_offer df j); run; apply IH; intros; apply Hjs; by right.
Qed.

Lemma lookahead_range (df : grid) idx j :
  In j (seq (idx + 1) (Nat.min (idx + 5) (length df) - (idx + 1))) → j < length df.
Proof. rewrite in_seq. lia. Qed.

Lemma first_offer_seq_some (df : grid) a n k v :
  k < n → tg_offer df (a + k) = Some v →
  (∀ k', k' < k → tg_offer df (a + k') = None) →
  first_offer df (seq a n) = Some v.
Proof.
  revert a k. induction n as [|n IH]; intros a k Hk Hv Hnone; [lia|].
  cbn [seq first_offer]. destruct k as [|k].
  - rewrite Nat.add_0_r in Hv. by rewrite Hv.
  - assert (tg_offer df a = None) as ->
      by (specialize (Hnone 0); rewrite Nat.add_0_r in Hnone; apply Hnone; lia).
    apply (IH (S a) k); [lia | by replace (S a + k) with (a + S k) by lia |].
    intros k' Hk'. replace (S a + k') with (a + S k') by lia. apply Hnone. lia.
Qed.

Lemma first_offer_seq_none (df : grid) a n :
  (∀ k, k < n → tg_offer df (a + k) = None) → first_offer df (seq a n) = None.
Proof.
  revert a. induction n as [|n IH]; intros a Hnone; [done|].
  cbn [seq first_offer].
  assert (tg_offer df a = None) as ->
    by (specialize (Hnone 0); rewrite Nat.add_0_r in Hnone; apply Hnone; lia).
  apply IH. intros k Hk. replace (S a + k) with (a + S k) by lia. apply Hnone. lia.
Qed.

Lemma tg_offer_in_range (df : grid) j v : tg_offer df j = Some v → j < length df.
Proof.
  unfold tg_offer. destruct (df !! j) eqn:E; [|done].
  intros _. by eapply lookup_lt_Some.
Qed.

Lemma gas_cell_ok (df : grid) idx (r : list cell) (c : cell) st :
  In c r → formation_known st →
  ∃ st', gas_cell df idx r c st = Ok st' ∧ formation_known st'.
Proof.
  intros Hin Hst. unfold gas_cell.
  destruct (contains "Max. Gas Reading at:" (str c)) eqn:Em.
  - destruct (text_of_marker "Max. Gas Reading at:" c) as [s ->]; [reflexivity | done |].
    destruct (list_index_text s r Hin) as (i & -> & Hi). run.
    unfold and_then. run. destruct (i + 1 <? length r) eqn:El; [|eauto].
    apply Nat.ltb_lt in El. destruct (iloc_ok r (i + 1) El) as (n & _ & ->). run.
    destruct (notna n); [|eauto].
    eexists. split; [done|]. intros f [= <-]. cbn [gas_data].
    rewrite lookup_insert_eq. eauto.
  - destruct (contains "T.G" (str c) && truthy (current_formation st)); [|eauto].
    destruct (current_formation st) as [f|] eqn:Ef; [|eauto].
    unfold tg_lookahead.
    destruct (tg_scan_total df f _ (gas_data st) (lookahead_range df idx))
      as (gd' & -> & Hkeep). run.
    eexists. split; [done|]. intros f' Hf'. cbn [gas_data current_formation] in *.
    apply Hkeep, Hst. congruence.
Qed.

Lemma gas_readings_ok (df : grid) : ∃ gd, extract_gas_readings df = Ok gd.
Proof.
  unfold extract_gas_readings.
  destruct (for_each_inv formation_known (gas_row df) (enumerate df) gas_init)
    as (st & -> & _); [| |run; eauto].
  - intros [idx r] st _ Hst. unfold gas_row.
    apply (for_each_inv formation_known); [|done].
    intros c st0 Hc Hst0. by apply gas_cell_ok.
  - intros f Hf. discriminate.
Qed.

(** Without a [Max. Gas Reading at:] cell the scan changes nothing. *)
Lemma gas_readings_no_formation (df : grid) :
  (∀ r c, In r df → In c r → contains "Max. Gas Reading at:" (str c) = false) →
  extract_gas_readings df = Ok ∅.
Proof.
  intros Hno. unfold extract_gas_readings.
  destruct (for_each_inv (λ st, st = gas_init) (gas_row df) (enumerate df) gas_init)
    as (st & -> & ->); [|done|done].
  intros [idx r] st Hin ->. unfold gas_row.
  apply in_enumerate in Hin. apply list_elem_of_lookup_2, list_elem_of_In in Hin.
  apply (for_each_inv (λ st, st = gas_init)); [|done].
  intros c st0 Hc ->. unfold gas_cell. rewrite (Hno r c Hin Hc).
  cbn [gas_init current_formation truthy]. rewrite andb_false_r. eauto.
Qed.

End GasSummary.

(** C8 (as amended). In [extract_gas_readings], at a cell that contains
    [T.G] (and is not itself a [Max. Gas Reading at:] cell): with no current
    formation, or an empty one, the cell changes nothing; with a current
    formation the value assigned to its [TG] comes from the first of the next
    four rows, as far as the sheet goes, whose column 3 is present, passes
    the numeric test and is accepted by [float] -- a cell that passes the
    test but that [float] rejects is passed over --, and with no such row
    nothing is assigned.  On a sheet without a [Max. Gas Reading at:] cell the
    result is empty. *)
Theorem C8_tg_needs_formation {F : PyFloat}
    (df : grid) (idx : nat) (r : list cell) (c : cell) (st : gas_state) :
  contains "Max. Gas Reading at:" (str c) = false →
  contains "T.G" (str c) = true →
  (truthy (current_formation st) = false → gas_cell df idx r c st = Ok st) ∧
  (∀ f e,
     current_formation st = Some f → nonempty f = true →
     gas_data st !! f = Some e →
     (∀ k v,
        1 ≤ k ≤ 4 → tg_offer df (idx + k) = Some v →
        (∀ k', 1 ≤ k' < k → tg_offer df (idx + k') = None) →
        gas_cell df idx r c st =
        Ok {| gas_data := <[f := <["TG" := v]> e]> (gas_data st);
              current_formation := Some f |}) ∧
     ((∀ k, 1 ≤ k ≤ 4 → tg_offer df (idx + k) = None) →
      gas_cell df idx r c st = Ok st)) ∧
  ((∀ r' c', In r' df → In c' r' → contains "Max. Gas Reading at:" (str c') = false) →
   extract_gas_readings df = Ok ∅).
Proof.
  intros Hm Ht. split; [|split].
  - intros Hf. unfold gas_cell. by rewrite Hm, Ht, Hf.
  - intros f e Hf Hne He.
    assert (gas_cell df idx r c st =
            Ok {| gas_data :=
                    match first_offer df (seq (idx + 1)
                            (Nat.min (idx + 5) (length df) - (idx + 1))) with
                    | Some v => <[f := <["TG" := v]> e]> (gas_data st)
                    | None => gas_data st
                    end;
                  current_formation := Some f |}) as ->.
    { unfold gas_cell. rewrite Hm, Ht, Hf. cbn [truthy]. rewrite Hne. cbn [andb].
      unfold tg_lookahead.
      rewrite (tg_scan_spec df f e _ (gas_data st) (lookahead_range df idx) He).
      done. }
    split.
    + intros k v Hk Hv Hfirst.
      pose proof (tg_offer_in_range df _ v Hv) as Hlen.
      rewrite (first_offer_seq_some df (idx + 1) _ (k - 1) v); [done|lia| |].
      * by replace (idx + 1 + (k - 1)) with (idx + k) by lia.
      * intros k' Hk'. replace (idx + 1 + k') with (idx + (k' + 1)) by lia.
        apply Hfirst. lia.
    + intros Hnone. rewrite first_offer_seq_none.
      * destruct st as [gd cf]. cbn in *. by rewrite Hf.
      * intros k Hk. replace (idx + 1 + k) with (idx + (k + 1)) by lia.
        apply Hnone. lia.
  - apply gas_readings_no_formation.
Qed.

(** ** Lithological descriptions *)

Section Lithology.

Context {F : PyFloat}.

(** Rows without a marker only add their text to the buffer. *)
Lemma scan_body (body : grid) st :
  (∀ r, In r body →
     contains "Depth:" (row_str r) = false ∧ contains "Lithology:" (row_str r) = false) →
  scan body st =
  {| descriptions := descriptions st;
     current_depth := current_depth st;
     current_lithology := current_lithology st;
     current_description :=
       current_description st ++ map (λ r, strip (row_str r)) (List.filter kept body) |}.
Proof.
  revert st. induction body as [|r body IH]; intros st Hbody.
  - simpl. rewrite app_nil_r. by destruct st.
  - destruct (Hbody r) as [Hd Hl]; [by left|].
    cbn [scan fold_left List.filter]. fold (scan body (litho_row r st)).
    rewrite IH by (intros r' Hr'; apply Hbody; by right).
    unfold litho_row. rewrite Hd, Hl. fold (kept r).
    destruct (kept r); cbn [descriptions current_depth current_lithology
                            current_description map]; [|done].
    by rewrite <- app_assoc.
Qed.

Lemma flush_grows st : ∃ more, flush st = descriptions st ++ more.
Proof.
  unfold flush. repeat case_match; eauto; exists []; by rewrite app_nil_r.
Qed.

Lemma litho_row_grows (r : list cell) st :
  ∃ more, descriptions (litho_row r st) = descriptions st ++ more.
Proof.
  unfold litho_row. repeat case_match; cbn [descriptions];
    try apply flush_grows; exists []; by rewrite app_nil_r.
Qed.

(** Records once emitted stay in the result, in their place. *)
Lemma scan_grows (rows : grid) st :
  ∃ more, descriptions (scan rows st) = descriptions st ++ more.
Proof.
  revert st. induction rows as [|r rows IH]; intros st.
  - exists []. by rewrite app_nil_r.
  - cbn [scan fold_left]. fold (scan rows (litho_row r st)).
    destruct (IH (litho_row r st)) as [m2 ->].
    destruct (litho_row_grows r st) as [m1 ->].
    exists (m1 ++ m2). by rewrite app_assoc.
Qed.

Lemma scan_app (l1 l2 : grid) st : scan (l1 ++ l2) st = scan l2 (scan l1 st).
Proof. apply fold_left_app. Qed.

End Lithology.

(** C9. For the three-row grid [Depth: From 100 To 150], [Lithology: *
    Sandstone], [Fine grained, gray], [extract_lithological_description]
    returns exactly one record, with depth [100 - 150], lithology [Sandstone]
    and description [Fine grained, gray]. *)
Theorem C9_sandstone_scenario {F : PyFloat} :
  extract_lithological_description
    [ [CStr "Depth: From 100 To 150"];
      [CStr "Lithology: * Sandstone"];
      [CStr "Fine grained, gray"] ]
  = Ok [ <["depth" := "100 - 150"]>
           (<["lithology" := "Sandstone"]>
              (<["description" := "Fine grained, gray"]> ∅)) ].
Proof. cbv -[insert empty]. reflexivity. Qed.

(** C10. The current lithology is not reset when a [Depth:] row flushes a
    section.  Let the scan reach a [Depth:] row with current lithology [l],
    let the rows of the section that follows hold neither [Depth:] nor
    [Lithology:], let a depth be set and the rows leave at least one line of
    text; then at the end of the section (the end of the grid or the next
    [Depth:] row) a record is emitted for it, right after the records emitted
    before, and it carries the inherited lithology [l]. *)
Theorem C10_lithology_inherited {F : PyFloat}
    (pre body post : grid) (d : list cell) (l dep : string) :
  let st := fold_left (λ st r, litho_row r st) pre litho_init in
  let lines :=
    map (λ r, strip (row_str r))
      (List.filter
         (λ r, nonempty (strip (row_str r))
               && negb (existsb (λ keyword, contains keyword (row_str r)) boilerplate))
         body) in
  current_lithology st = Some l → nonempty l = true →
  contains "Depth:" (row_str d) = true →
  current_depth (litho_row d st) = Some dep → nonempty dep = true →
  (∀ r, In r body →
     contains "Depth:" (row_str r) = false ∧ contains "Lithology:" (row_str r) = false) →
  lines ≠ [] →
  (post = [] ∨ ∃ d' post', post = d' :: post' ∧ contains "Depth:" (row_str d') = true) →
  ∃ rest,
    extract_lithological_description (pre ++ d :: body ++ post)
    = Ok (flush st ++
          [ <["depth" := dep]>
              (<["lithology" := l]> (<["description" := join " " lines]> ∅)) ]
          ++ rest).
Proof.
  intros st lines Hl Hln Hd Hdep Hdn Hbody Hlines Hpost.
  unfold extract_lithological_description.
  change (fold_left (λ st r, litho_row r st) (pre ++ d :: body ++ post) litho_init)
    with (scan (pre ++ d :: body ++ post) litho_init).
  rewrite scan_app. change (d :: body ++ post) with ([d] ++ body ++ post).
  rewrite scan_app, scan_app.
  change (scan pre litho_init) with st.
  change (scan [d] st) with (litho_row d st).
  rewrite (scan_body body (litho_row d st) Hbody).
  assert (descriptions (litho_row d st) = flush st
          ∧ current_lithology (litho_row d st) = Some l
          ∧ current_description (litho_row d st) = []) as (E1 & E2 & E3).
  { unfold litho_row. rewrite Hd. done. }
  rewrite E1, E2, E3, Hdep. cbn [app].
  change (map (λ r, strip (row_str r)) (List.filter kept body)) with lines.
  set (st2 := {| descriptions := flush st; current_depth := Some dep;
                 current_lithology := Some l; current_description := lines |}).
  assert (flush st2 =
          flush st ++ [ <["depth" := dep]>
                          (<["lithology" := l]> (<["description" := join " " lines]> ∅)) ])
    as Hflush.
  { unfold flush, st2. cbn [current_depth current_lithology current_description descriptions].
    rewrite Hdn, Hln. cbn [andb]. by rewrite bool_decide_eq_true_2. }
  destruct Hpost as [->|(d' & post' & -> & Hd')].
  - exists []. change (scan [] st2) with st2. by rewrite Hflush.
  - change (scan (d' :: post') st2) with (scan post' (litho_row d' st2)).
    destruct (flush_grows (scan post' (litho_row d' st2))) as [m2 ->].
    destruct (scan_grows post' (litho_row d' st2)) as [m1 ->].
    assert (descriptions (litho_row d' st2) = flush st2) as ->
      by (unfold litho_row; by rewrite Hd').
    rewrite Hflush. exists (m1 ++ m2).
    by rewrite <- !app_assoc.
Qed.

(** ** No extraction function raises *)

Lemma extract_depths_total {F : PyFloat} (df : grid) : ∃ d, extract_depths df = Ok d.
Proof.
  unfold extract_depths.
  destruct (depth_scan_ok df) as (d & -> & _). run.
  destruct (set_progress_spec "progress_24hr" "depth_00hr" "depth_24hr" d) as (d1 & -> & _).
  run.
  destruct (set_progress_spec "progress_6hr" "depth_06hr" "depth_00hr" d1) as (d2 & -> & _).
  run. eauto.
Qed.

(** ** The functions on concrete sheets *)

Module Scenarios.

Import DecFloat.

(** The scenarios of the specification. *)

Example concession_scenario :
  yields (extract_well_info [[CStr "Concession"; CStr "Nile Delta"]])
    "concession" (Some "Nile Delta").
Proof. apply yields_run. vm_compute. reflexivity. Qed.

Example depth_scenario :
  (d ← extract_depths [[CStr "24:00 Hrs"; CInt 1000]; [CStr "00:00 Hrs"; CInt 1050]];
   mret (d !! "depth_24hr", d !! "depth_00hr", d !! "progress_24hr"))
  = Ok (Some (of_Z 1000), Some (of_Z 1050), Some (of_Z 50)).
Proof. vm_compute. reflexivity. Qed.

Example formation_scenario :
  (fs ← extract_formation_tops
          [ [CNaN; CNaN; CStr "Formation Name"; CNaN; CNaN; CNaN; CNaN;
             CStr "Prognosed"; CNaN; CStr "Actual Drilled"];
            [CNaN; CNaN; CStr "ASL"; CNaN; CNaN; CNaN; CNaN;
             CStr "1200"; CNaN; CStr "1195"] ];
   mret (map (λ fd, (fd !! "name", fd !! "prognosed_md", fd !! "actual_md")) fs))
  = Ok [ (Some (VStr "ASL"), Some (VFloat (of_Z 1200)), Some (VFloat (of_Z 1195))) ].
Proof. vm_compute. reflexivity. Qed.

Example gas_reading_scenario :
  (rs ← extract_detailed_gas_readings
          [ [CStr "DEPTH"; CNaN; CNaN; CNaN; CNaN; CNaN; CNaN; CStr "TG"; CStr "C1"];
            [CInt 2500; CNaN; CNaN; CNaN; CNaN; CNaN; CNaN; CInt 12; CInt 5] ];
   mret (map (λ rd, (rd !! "DEPTH", rd !! "TG", rd !! "C1", rd !! "C2")) rs))
  = Ok [ (Some (VFloat (of_Z 2500)), Some (VFloat (of_Z 12)), Some (VFloat (of_Z 5)), None) ].
Proof. vm_compute. reflexivity. Qed.

Example tops_scenario :
  (fs ← extract_formation_tops tops_sheet;
   mret (map (λ fd, (fd !! "name", fd !! "prognosed_md", fd !! "actual_md")) fs))
  = Ok [ (Some (VStr "7"), None, None);
         (Some (VStr "ASL"), Some (VFloat (of_Z 1200)), Some (VFloat (of_Z 1195))) ].
Proof. vm_compute. reflexivity. Qed.

(** A depth that [float] rejects leaves the field absent; an empty cell
    right of the marker is read as [nan]. *)
Example depth_not_a_number :
  (d ← extract_depths [[CStr "24:00 Hrs"; CStr "n/a"]; [CStr "00:00 Hrs"; CNaN]];
   mret (d !! "depth_24hr", d !! "depth_00hr"))
  = Ok (None, Some NaN).
Proof. vm_compute. reflexivity. Qed.

End Scenarios.

Lemma C5_witness :
  ∃ fs, extract_formation_tops tops_sheet = Ok fs ∧
    ∀ fd, In fd fs →
      ∃ n, fd !! "name" = Some (VStr n) ∧
           ¬ In n [""; " "; "DABAA"; "APOLLONIA"; "KHOMAN"; "ABU ROASH";
                   "BAHARIYA"; "KHARITA"; "T.D."].
Proof. exact (C5_denylist_never_a_name tops_sheet). Defined.

(** C3, the claim as stated fails: the cell [Spud Date] has no [:-], and the
    row still sets [spud_date]. *)
Lemma C3_counterexample :
  forallb (λ r, forallb (λ c, negb (contains ":-" (str c))) r) spud_sheet = true ∧
  yields (extract_well_info spud_sheet) "spud_date" (Some "12-Mar-2024").
Proof. split; [|apply yields_run]; vm_compute; reflexivity. Qed.

Lemma C3_witness :
  ∃ wi, extract_well_info spud_sheet = Ok wi ∧ is_Some (wi !! "spud_date").
Proof.
  destruct (C3_marker_fields spud_sheet) as (wi & E & _ & H).
  exists wi. split; [exact E|].
  destruct (H "spud_date" "Spud Date") as [_ H2]; [simpl; tauto|].
  apply (H2 [CStr "Spud Date"; CStr "12-Mar-2024"] 0 (CStr "Spud Date") (CStr "12-Mar-2024"));
    [by left | reflexivity | reflexivity | intros; lia | reflexivity].
Defined.

(** C4, the claim as stated fails: the rows have no column 7, and the one
    record returned has a [DEPTH] and no [TG], rather than a [TG] of 0. *)
Lemma C4_counterexample :
  forallb (λ r : list cell, length r <=? 7) narrow_gas_sheet = true ∧
  (rs ← extract_detailed_gas_readings narrow_gas_sheet;
   mret (map (λ rd, (rd !! "DEPTH", rd !! "TG")) rs))
  = Ok [ (Some (VFloat (DecFloat.of_Z 2500)), None) ].
Proof. split; vm_compute; reflexivity. Qed.

Lemma C6_witness :
  yields (extract_well_info (repeated_sheet_pre ++ repeated_sheet_row :: repeated_sheet_post))
    "concession" (Some "B") ∧
  yields (extract_depths (repeated_sheet_pre ++ repeated_sheet_row :: repeated_sheet_post))
    "depth_24hr" (Some (DecFloat.of_Z 1050)).
Proof.
  destruct (C6_last_matching_row_wins repeated_sheet_pre repeated_sheet_post
              repeated_sheet_row) as [Hw Hd].
  split.
  - apply (Hw "concession" "Concession" false "B"); [simpl; tauto | |].
    + apply yields_run. vm_compute. reflexivity.
    + intros r' [<-|[]]. apply yields_run. vm_compute. reflexivity.
  - apply (Hd "depth_24hr" (DecFloat.of_Z 1050)); [simpl; tauto | |].
    + apply yields_run. vm_compute. reflexivity.
    + intros i r' [<-|[]]. apply yields_run. vm_compute. reflexivity.
Defined.

(** C7. The code on the sheet [names_sheet], in which no cell contains
    [Geologist]: the first name met from the bottom is [Mahmoud B.], in the
    last row, and the value returned is [Youssef A.], of the row above.  The
    [break] of line 136 leaves only the loop over the cells, and the scan
    goes on upwards and overwrites. *)
Lemma C7_fallback_scan_goes_on :
  forallb (λ r, forallb (λ c, negb (icontains "Geologist" (str c))) r) names_sheet = true ∧
  last names_sheet = Some [CStr "Mahmoud B."] ∧
  has_name (CStr "Mahmoud B.") = true ∧
  yields (extract_well_info names_sheet) "geologist" (Some "Youssef A.").
Proof. repeat split; [..|apply yields_run]; vm_compute; reflexivity. Qed.

(** C8, the claim as stated fails: the first of the next rows whose column
    3 is present and passes the numeric test holds [1.2.3], which [float]
    rejects, and the value assigned is taken from the row after it. *)
Lemma C8_counterexample :
  summary_sheet !! 2 = Some [CNaN; CNaN; CNaN; CStr "1.2.3"] ∧
  notna (CStr "1.2.3") && digit_like (str (CStr "1.2.3")) = true ∧
  py_float (CStr "1.2.3") = Raise ValueError ∧
  (gd ← extract_gas_readings summary_sheet;
   mret ((λ entry : gmap string float, entry !! "TG") <$> gd !! "ABU ROASH"))
  = Ok (Some (Some (DecFloat.of_Z 45))).
Proof. repeat split; vm_compute; reflexivity. Qed.

Lemma C8_witness :
  gas_cell summary_sheet 1 [CStr "T.G"; CNaN; CNaN; CNaN] (CStr "T.G")
    {| gas_data := {["ABU ROASH" := ∅]}; current_formation := Some "ABU ROASH" |}
  = Ok {| gas_data := <["ABU ROASH" := <["TG" := DecFloat.of_Z 45]> ∅]> {["ABU ROASH" := ∅]};
          current_formation := Some "ABU ROASH" |}.
Proof.
  destruct (C8_tg_needs_formation summary_sheet 1 [CStr "T.G"; CNaN; CNaN; CNaN] (CStr "T.G")
              {| gas_data := {["ABU ROASH" := ∅]}; current_formation := Some "ABU ROASH" |})
    as (_ & H & _); [reflexivity | reflexivity |].
  destruct (H "ABU ROASH" ∅) as [H1 _]; [reflexivity | reflexivity | apply lookup_singleton_eq |].
  apply (H1 2 (DecFloat.of_Z 45)); [lia | vm_compute; reflexivity |].
  intros k' Hk'. assert (k' = 1) as -> by lia. vm_compute. reflexivity.
Defined.

Lemma C10_witness :
  ∃ rest,
    extract_lithological_description (litho_pre ++ litho_depth_row :: litho_body ++ [])
    = Ok ([ <["depth" := "100 - 150"]>
              (<["lithology" := "Sandstone"]> (<["description" := "Fine grained, gray"]> ∅)) ]
          ++ [ <["depth" := "150 - 200"]>
                 (<["lithology" := "Sandstone"]> (<["description" := "Coarse grained"]> ∅)) ]
          ++ rest).
Proof.
  apply (C10_lithology_inherited (F := dec_float) litho_pre litho_body [] litho_depth_row
           "Sandstone" "150 - 200");
    try (vm_compute; reflexivity).
  - intros r [<-|[<-|[]]]; split; vm_compute; reflexivity.
  - vm_compute. discriminate.
  - by left.
Defined.

(** * Further properties of the extraction functions *)

(** ** Substrings *)

Lemma append_assoc' (a b c : string) : (a +:+ b) +:+ c = a +:+ (b +:+ c).
Proof.
  induction a as [|x a IH]; [reflexivity|].
  change (String x ((a +:+ b) +:+ c) = String x (a +:+ (b +:+ c))). by f_equal.
Qed.

Lemma startswith_split pat s : startswith pat s = true → ∃ rest, s = pat +:+ rest.
Proof.
  revert s. induction pat as [|a pat IH]; intros [|b s]; simpl; try done; eauto.
  intros [Hab Hs]%andb_true_iff. apply Ascii.eqb_eq in Hab as ->.
  destruct (IH s Hs) as [rest ->]. eauto.
Qed.

Lemma startswith_app pat rest : startswith pat (pat +:+ rest) = true.
Proof.
  induction pat as [|a pat IH]; simpl; [by destruct rest|].
  by rewrite Ascii.eqb_refl.
Qed.

Lemma contains_split pat s :
  contains pat s = true → ∃ pre rest, s = pre +:+ pat +:+ rest.
Proof.
  induction s as [|b s IH]; cbn [contains].
  - rewrite orb_false_r. intros [rest ->]%startswith_split. by exists EmptyString, rest.
  - intros [[rest ->]%startswith_split|H]%orb_true_iff.
    + by exists EmptyString, rest.
    + destruct (IH H) as (pre & rest & ->). by exists (String b pre), rest.
Qed.

Lemma contains_startswith pat s : startswith pat s = true → contains pat s = true.
Proof. intros H. destruct s; cbn [contains]; by rewrite H. Qed.

Lemma contains_intro pat pre rest : contains pat (pre +:+ pat +:+ rest) = true.
Proof.
  induction pre as [|b pre IH].
  - change (EmptyString +:+ pat +:+ rest) with (pat +:+ rest).
    apply contains_startswith, startswith_app.
  - change (String b pre +:+ pat +:+ rest) with (String b (pre +:+ pat +:+ rest)).
    cbn [contains]. rewrite IH. apply orb_true_r.
Qed.

(** [a in b] and [b in s] give [a in s]. *)
Lemma contains_trans a b s :
  contains a b = true → contains b s = true → contains a s = true.
Proof.
  intros (p1 & r1 & ->)%contains_split (p2 & r2 & ->)%contains_split.
  rewrite !append_assoc', <- (append_assoc' p2 p1). apply contains_intro.
Qed.

(** ** Well information *)

Section MoreWellInfo.

Context {F : PyFloat}.

(** A value picked in a row is the text right of the first label cell. *)
Lemma pick_Some_first label marker (r : row) v :
  pick label marker r = Some v →
  ∃ i c n, r !! i = Some c ∧ label_cell label marker c = true ∧
           (∀ j c', j < i → r !! j = Some c' → label_cell label marker c' = false) ∧
           r !! S i = Some n ∧ v = str n.
Proof.
  induction r as [|c r IH]; simpl; [done|].
  destruct (label_cell label marker c) eqn:E.
  - destruct r as [|n r']; [done|]. intros [= <-]. exists 0, c, n.
    repeat split; try done. intros j c' Hj. lia.
  - intros H. destruct (IH H) as (i & c' & n & Hi & Hc & Hfirst & Hn & ->).
    exists (S i), c', n. repeat split; try done.
    intros [|j] c'' Hj Hc''; simpl in Hc''; [congruence|].
    apply (Hfirst j c''); [lia | done].
Qed.

Lemma pick_none label marker (r : row) :
  (∀ c, In c r → label_cell label marker c = false) → pick label marker r = None.
Proof.
  induction r as [|c r IH]; intros H; simpl; [done|].
  rewrite (H c) by (by left). apply IH. intros c' Hc'. apply H. by right.
Qed.

(** The fields that [extract_well_info] leaves unset. *)
Lemma well_info_other_keys (df : grid) :
  ∃ wi, extract_well_info df = Ok wi ∧
    ∀ k, ¬ In k ["concession"; "well"; "date"; "report_no"; "rkb"; "spud_date"; "geologist"] →
         wi !! k = None.
Proof.
  unfold extract_well_info.
  destruct (find_field_spec "concession" "Concession" false df ∅) as (w1 & -> & A1 & B1).
  destruct (find_field_spec "well" "Well" true df w1) as (w2 & E2 & A2 & B2).
  destruct (find_field_spec "date" "Date" true df w2) as (w3 & E3 & A3 & B3).
  destruct (find_field_spec "report_no" "Report No" false df w3) as (w4 & E4 & A4 & B4).
  destruct (find_field_spec "rkb" "RKB" true df w4) as (w5 & E5 & A5 & B5).
  destruct (find_field_spec "spud_date" "Spud Date" false df w5) as (w6 & E6 & A6 & B6).
  destruct (find_geologist_spec df w6) as (w7 & E7 & A7 & B7).
  { rewrite B6, B5, B4, B3, B2, B1 by done. apply lookup_empty. }
  run. rewrite E2. run. rewrite E3. run. rewrite E4. run. rewrite E5. run.
  rewrite E6. run. rewrite E7.
  exists w7. split; [done|]. intros k Hk. simpl in Hk.
  rewrite B7, B6, B5, B4, B3, B2, B1 by (intros ->; tauto). apply lookup_empty.
Qed.

End MoreWellInfo.

(** X1. The dictionary returned by [extract_well_info] has no other key
    than [concession], [well], [date], [report_no], [rkb], [spud_date] and
    [geologist]. *)
Theorem X1_well_info_keys {F : PyFloat} (df : grid) :
  ∃ wi, extract_well_info df = Ok wi ∧
    ∀ k, is_Some (wi !! k) →
         In k ["concession"; "well"; "date"; "report_no"; "rkb"; "spud_date"; "geologist"].
Proof.
  destruct (well_info_other_keys df) as (wi & E & H).
  exists wi. split; [done|]. intros k [v Hv].
  destruct (In_dec string_dec k
              ["concession"; "well"; "date"; "report_no"; "rkb"; "spud_date"; "geologist"])
    as [Hin|Hout]; [done|].
  rewrite (H k Hout) in Hv. discriminate.
Qed.

(** X2. Each of the six labelled fields is present in the result exactly
    when some row has a cell that passes the test of the field (the label,
    and [:-] too for [well], [date] and [rkb]), no cell before it in the row
    passes the test, and the row has a cell right of it: only the first such
    cell of a row counts, and a label in the last column gives nothing. *)
Theorem X2_field_present_iff {F : PyFloat} (df : grid) :
  ∃ wi, extract_well_info df = Ok wi ∧
    ∀ key label marker,
      In (key, label, marker)
         [("concession", "Concession", false); ("well", "Well", true);
          ("date", "Date", true); ("report_no", "Report No", false);
          ("rkb", "RKB", true); ("spud_date", "Spud Date", false)] →
      (is_Some (wi !! key) ↔
       ∃ r i c n, In r df ∧ r !! i = Some c ∧ label_cell label marker c = true ∧
         (∀ j c', j < i → r !! j = Some c' → label_cell label marker c' = false) ∧
         r !! S i = Some n).
Proof.
  destruct (well_info_spec df) as (wi & E & Hc & Hw & Hd & Hn & Hr & Hs & _).
  exists wi. split; [done|]. intros key label marker Hin.
  assert (wi !! key = last_pick label marker df None) as ->.
  { destruct Hin as [[= <- <- <-]|[[= <- <- <-]|[[= <- <- <-]|[[= <- <- <-]|
                    [[= <- <- <-]|[[= <- <- <-]|[]]]]]]]; done. }
  split.
  - intros [v Hv]. apply last_pick_Some_inv in Hv as (r & Hr' & Hp).
    apply pick_Some_first in Hp as (i & c & n & ? & ? & ? & ? & _).
    by exists r, i, c, n.
  - intros (r & i & c & n & Hr' & Hi & Hc' & Hfirst & Hn').
    apply (last_pick_is_Some _ _ _ r); [done|].
    rewrite (pick_first label marker r i c Hi Hc' Hfirst), Hn'. eauto.
Qed.

(** X3. The value of a field is the text of the cell right of the label,
    whatever that cell is: when the last row that gives a value has an empty
    cell right of its first label cell, the field is the text [nan]. *)
Theorem X3_empty_value_is_nan {F : PyFloat} (pre post : grid) (r : row)
    (key label : string) (marker : bool) (i : nat) (c : cell) :
  In (key, label, marker)
     [("concession", "Concession", false); ("well", "Well", true);
      ("date", "Date", true); ("report_no", "Report No", false);
      ("rkb", "RKB", true); ("spud_date", "Spud Date", false)] →
  r !! i = Some c → label_cell label marker c = true →
  (∀ j c', j < i → r !! j = Some c' → label_cell label marker c' = false) →
  r !! S i = Some CNaN →
  (∀ r', In r' post → yields (field_row key label marker r' ∅) key None) →
  yields (extract_well_info (pre ++ r :: post)) key (Some "nan").
Proof.
  intros Hin Hi Hc Hfirst Hn Hpost.
  assert (pick label marker r = Some "nan") as Hr
    by (by rewrite (pick_first label marker r i c Hi Hc Hfirst), Hn).
  assert (∀ r', In r' post → pick label marker r' = None) as Hp.
  { intros r' Hr'. destruct (Hpost r' Hr') as (m' & Hm' & Hv').
    by rewrite <- (field_row_alone key label marker r' m' Hm'). }
  pose proof (last_pick_last label marker pre post r "nan" None Hr Hp) as Hl.
  destruct (well_info_spec (pre ++ r :: post))
    as (wi & E & Hc' & Hw & Hd & Hn' & Hk & Hs & _).
  exists wi. split; [done|].
  destruct Hin as [[= <- <- <-]|[[= <- <- <-]|[[= <- <- <-]|[[= <- <- <-]|
                  [[= <- <- <-]|[[= <- <- <-]|[]]]]]]]; congruence.
Qed.

(** X4. The scan from the bottom runs only when no cell holds [Geologist]
    in any letter case: when some cell holds the word in another case and no
    cell holds it as written, [geologist] is absent, whatever names the sheet
    holds. *)
Theorem X4_other_case_label_blocks_fallback {F : PyFloat} (df : grid) :
  (∃ r c, In r df ∧ In c r ∧ icontains "Geologist" (str c) = true) →
  (∀ r c, In r df → In c r → contains "Geologist" (str c) = false) →
  yields (extract_well_info df) "geologist" None.
Proof.
  intros (r & c & Hr & Hc & Hi) Hno.
  destruct (well_info_spec df) as (wi & E & _ & _ & _ & _ & _ & _ & Hg).
  exists wi. split; [done|]. rewrite Hg. unfold geologist_of.
  destruct (label_rows "Geologist" df) as [|r0 rows] eqn:El.
  - exfalso. assert (In r (label_rows "Geologist" df)) as Hin; [|by rewrite El in Hin].
    apply filter_In. split; [done|]. apply existsb_exists. by exists c.
  - apply last_pick_silent. intros r' Hr'. apply pick_none.
    intros c' Hc'. unfold label_cell. by rewrite (Hno r' c' Hr' Hc').
Qed.

(** X5. The scan from the bottom stops above the position [max(0, len(df)
    - 10)]: it visits nine rows at most and never the first row of the
    sheet.  When no cell holds [Geologist] and no row strictly below that
    position holds a name, [geologist] is absent, whatever the rows at and
    above that position hold. *)
Theorem X5_fallback_window {F : PyFloat} (df : grid) :
  (∀ r c, In r df → In c r → icontains "Geologist" (str c) = false) →
  (∀ j r, 0 < j → length df < j + 10 → df !! j = Some r → List.find has_name r = None) →
  yields (extract_well_info df) "geologist" None.
Proof.
  intros Hno Hwin.
  destruct (well_info_spec df) as (wi & E & _ & _ & _ & _ & _ & _ & Hg).
  exists wi. split; [done|].
  rewrite Hg. unfold geologist_of. rewrite (label_rows_nil df "Geologist" Hno).
  apply top_name_none. unfold scanned. intros j r. rewrite lookup_drop.
  apply Hwin; lia.
Qed.

(** X6. A cell with [Spud Date] and [:-] passes the test of the [Date]
    block too: when it is the first cell of its row that holds [Date], and
    no later row gives a date or a spud date, [date] and [spud_date] are both
    the text right of it. *)
Theorem X6_spud_date_sets_date {F : PyFloat} (pre post : grid) (r : row)
    (i : nat) (c n : cell) :
  r !! i = Some c →
  contains "Spud Date" (str c) = true → contains ":-" (str c) = true →
  (∀ j c', j < i → r !! j = Some c' → contains "Date" (str c') = false) →
  r !! S i = Some n →
  (∀ r', In r' post →
     yields (field_row "date" "Date" true r' ∅) "date" None ∧
     yields (field_row "spud_date" "Spud Date" false r' ∅) "spud_date" None) →
  yields (extract_well_info (pre ++ r :: post)) "date" (Some (str n)) ∧
  yields (extract_well_info (pre ++ r :: post)) "spud_date" (Some (str n)).
Proof.
  intros Hi Hs Hm Hfirst Hn Hpost.
  assert (∀ s, contains "Spud Date" s = true → contains "Date" s = true) as Hsub
    by (intros s; by apply contains_trans).
  pose proof (Hsub _ Hs) as Hd.
  assert (∀ j c', j < i → r !! j = Some c' → contains "Spud Date" (str c') = false)
    as Hfirst'.
  { intros j c' Hj Hc'. specialize (Hfirst j c' Hj Hc').
    destruct (contains "Spud Date" (str c')) eqn:E; [|done].
    apply Hsub in E. congruence. }
  assert (pick "Date" true r = Some (str n)) as P1.
  { rewrite (pick_first "Date" true r i c Hi), Hn; [done| |].
    - unfold label_cell. by rewrite Hd, Hm.
    - intros j c' Hj Hc'. unfold label_cell. by rewrite (Hfirst j c' Hj Hc'). }
  assert (pick "Spud Date" false r = Some (str n)) as P2.
  { rewrite (pick_first "Spud Date" false r i c Hi), Hn; [done| |].
    - unfold label_cell. by rewrite Hs.
    - intros j c' Hj Hc'. unfold label_cell. by rewrite (Hfirst' j c' Hj Hc'). }
  assert (∀ r', In r' post → pick "Date" true r' = None) as Q1.
  { intros r' Hr'. destruct (Hpost r' Hr') as [(m' & Hm' & Hv') _].
    by rewrite <- (field_row_alone "date" "Date" true r' m' Hm'). }
  assert (∀ r', In r' post → pick "Spud Date" false r' = None) as Q2.
  { intros r' Hr'. destruct (Hpost r' Hr') as [_ (m' & Hm' & Hv')].
    by rewrite <- (field_row_alone "spud_date" "Spud Date" false r' m' Hm'). }
  destruct (well_info_spec (pre ++ r :: post))
    as (wi & E & _ & _ & Hdate & _ & _ & Hspud & _).
  split; exists wi; (split; [done|]).
  - rewrite Hdate. by apply last_pick_last.
  - rewrite Hspud. by apply last_pick_last.
Qed.

(** ** Depths *)

Section MoreDepths.

Context {F : PyFloat}.

(** A cell that writes a field and has a right neighbour runs the
    assignment of that field. *)
Lemma depth_cell_marker (r : row) i c key (d : gmap string float) :
  marker_key c = Some key → i + 1 < length r →
  depth_cell r (i, c) d = set_depth key r i d.
Proof.
  intros Hk Hi. apply Nat.ltb_lt in Hi. unfold depth_cell, marker_key in *.
  rewrite Hi, !andb_true_r.
  destruct (contains "24:00 Hrs" (str c)); [by injection Hk as <-|].
  destruct (contains "00:00 Hrs" (str c)); [by injection Hk as <-|].
  destruct (contains "06:00 Hrs" (str c)); [by injection Hk as <-|done].
Qed.

(** A cell that writes no field, or has no right neighbour, changes
    nothing. *)
Lemma depth_cell_idle (r : row) i c (d : gmap string float) :
  marker_key c = None ∨ length r ≤ i + 1 → depth_cell r (i, c) d = Ok d.
Proof.
  unfold depth_cell, marker_key. intros [Hk|Hi].
  - destruct (contains "24:00 Hrs" (str c)); [done|].
    destruct (contains "00:00 Hrs" (str c)); [done|].
    destruct (contains "06:00 Hrs" (str c)); done.
  - apply Nat.ltb_ge in Hi. by rewrite Hi, !andb_false_r.
Qed.

Lemma marker_key_depth (c : cell) key : marker_key c = Some key → depth_key key.
Proof.
  unfold marker_key, depth_key. repeat case_match; intros [= <-]; auto.
Qed.

Lemma depth_cell_sourced (df : grid) (r : row) i c (d : gmap string float) :
  In r df → r !! i = Some c → sourced df d →
  ∃ d', depth_cell r (i, c) d = Ok d' ∧ sourced df d'.
Proof.
  intros Hr Hc Hd.
  destruct (marker_key c) as [key|] eqn:Hk;
    [|rewrite depth_cell_idle by (by left); eauto].
  destruct (Nat.lt_ge_cases (i + 1) (length r)) as [Hi|Hi];
    [|rewrite depth_cell_idle by (by right); eauto].
  rewrite (depth_cell_marker r i c key d Hk Hi). unfold set_depth.
  destruct (iloc_ok r (i + 1) Hi) as (n & Hn & ->). run.
  destruct (py_float n) as [v|e] eqn:Ev; run; [|eauto].
  eexists. split; [done|]. intros key' v'.
  destruct (decide (key = key')) as [<-|Hne].
  - rewrite lookup_insert_eq. intros [= <-]. exists r, i, c, n.
    rewrite Nat.add_1_r in Hn. done.
  - rewrite lookup_insert_ne by done. apply Hd.
Qed.

Lemma depth_scan_sourced (df : grid) :
  ∃ d, for_each depth_row (enumerate df) ∅ = Ok d ∧ sourced df d ∧ only_depths d.
Proof.
  destruct (for_each_inv (sourced df) depth_row (enumerate df) ∅) as (d & E & Hd).
  - intros [idx r] d Hin Hd. unfold depth_row. cbn [snd].
    apply in_enumerate in Hin. apply list_elem_of_lookup_2, list_elem_of_In in Hin.
    apply (for_each_inv (sourced df)); [|done].
    intros [i c] d0 Hic Hd0. apply in_enumerate in Hic. by apply depth_cell_sourced.
  - intros key v. by rewrite lookup_empty.
  - destruct (depth_scan_ok df) as (d' & E' & Ho).
    exists d. rewrite E in E'. injection E' as <-. done.
Qed.

End MoreDepths.

(** X7. The dictionary returned by [extract_depths] has no other key than
    [depth_24hr], [depth_00hr], [depth_06hr], [progress_24hr] and
    [progress_6hr]. *)
Theorem X7_depth_keys {F : PyFloat} (df : grid) :
  ∃ d, extract_depths df = Ok d ∧
    ∀ k, is_Some (d !! k) →
         In k ["depth_24hr"; "depth_00hr"; "depth_06hr"; "progress_24hr"; "progress_6hr"].
Proof.
  unfold extract_depths.
  destruct (depth_scan_ok df) as (d & -> & Hd). run.
  destruct (set_progress_spec "progress_24hr" "depth_00hr" "depth_24hr" d) as (d1 & -> & H1).
  run.
  destruct (set_progress_spec "progress_6hr" "depth_06hr" "depth_00hr" d1) as (d2 & -> & H2).
  run. exists d2. split; [done|]. intros k Hk.
  assert (is_Some (d !! k) ∨ k = "progress_24hr" ∨ k = "progress_6hr") as [H | [-> | ->]].
  { destruct H2 as [(x & y & _ & _ & ->)|[_ ->]];
      destruct H1 as [(x' & y' & _ & _ & ->)|[_ ->]];
      repeat match goal with
             | H : is_Some (<[?a := _]> _ !! k) |- _ =>
                 destruct (decide (a = k)) as [<-|?];
                 [tauto | rewrite lookup_insert_ne in H by done]
             end; tauto. }
  - destruct (Hd k H) as [-> | [-> | ->]]; simpl; tauto.
  - simpl. tauto.
  - simpl. tauto.
Qed.

(** X8. Every depth of the result is the [float] of the cell right of a
    cell that holds the marker of the field.  The markers are tried in the
    order [24:00 Hrs], [00:00 Hrs], [06:00 Hrs], and a cell writes the field
    of the first marker it holds only: [depth_00hr] never comes from a cell
    that holds [24:00 Hrs]. *)
Theorem X8_depth_source {F : PyFloat} (df : grid) :
  ∃ d, extract_depths df = Ok d ∧
    ∀ key v,
      In key ["depth_24hr"; "depth_00hr"; "depth_06hr"] → d !! key = Some v →
      ∃ r i c n, In r df ∧ r !! i = Some c ∧ marker_key c = Some key ∧
                 r !! S i = Some n ∧ py_float n = Ok v.
Proof.
  unfold extract_depths.
  destruct (depth_scan_sourced df) as (d & -> & Hs & _). run.
  destruct (set_progress_spec "progress_24hr" "depth_00hr" "depth_24hr" d) as (d1 & -> & H1).
  run.
  destruct (set_progress_spec "progress_6hr" "depth_06hr" "depth_00hr" d1) as (d2 & -> & H2).
  run. exists d2. split; [done|]. intros key v Hin Hv. apply Hs.
  assert (key ≠ "progress_24hr" ∧ key ≠ "progress_6hr") as [K1 K2]
    by (destruct Hin as [<-|[<-|[<-|[]]]]; done).
  destruct H2 as [(x & y & _ & _ & ->)|[_ ->]];
    destruct H1 as [(x' & y' & _ & _ & ->)|[_ ->]];
    rewrite ?lookup_insert_ne in Hv by done; done.
Qed.

(** X9. An empty cell right of a marker does not leave the field absent:
    [float] of a missing cell is [nan], and the field is stored with that
    value.  Here the marker cell and the empty cell end the last row. *)
Theorem X9_empty_depth_is_nan {F : PyFloat} (pre : grid) (cells : list cell)
    (c : cell) (key : string) :
  marker_key c = Some key →
  yields (extract_depths (pre ++ [cells ++ [c; CNaN]])) key (Some float_nan).
Proof.
  intros Hk.
  pose proof (marker_key_depth c key Hk) as Hkey.
  apply depths_last; [destruct Hkey as [-> | [-> | ->]]; done..| |by intros ? ? []].
  unfold depth_row, enumerate. cbn [snd].
  rewrite enumerate_from_app, for_each_app. cbn [enumerate_from for_each].
  destruct (for_each_adds (depth_cell (cells ++ [c; CNaN])) (enumerate_from 0 cells))
    as [m Hm]; [intros; apply depth_cell_adds|].
  rewrite Hm. run.
  rewrite (depth_cell_marker _ _ c key) by (done || rewrite length_app; simpl; lia).
  unfold set_depth.
  rewrite (iloc_lookup _ _ CNaN)
    by (rewrite lookup_app_r by lia;
        by replace (0 + length cells + 1 - length cells) with 1 by lia).
  cbn [try_except py_float mbind mret res_bind res_ret].
  rewrite depth_cell_idle by (by left). run.
  eexists. split; [done|]. apply lookup_insert_eq.
Qed.

(** X10. A sheet in which no cell holds one of the three markers gives the
    empty dictionary: no depth and no progress. *)
Theorem X10_no_marker_no_depth {F : PyFloat} (df : grid) :
  (∀ r c, In r df → In c r → marker_key c = None) →
  extract_depths df = Ok ∅.
Proof.
  intros Hno. unfold extract_depths.
  destruct (for_each_inv (λ d, d = ∅) depth_row (enumerate df) ∅) as (d & -> & ->);
    [|done|reflexivity].
  intros [idx r] d Hin ->. unfold depth_row. cbn [snd].
  apply in_enumerate in Hin. apply list_elem_of_lookup_2, list_elem_of_In in Hin.
  apply (for_each_inv (λ d, d = ∅)); [|done].
  intros [i c] d0 Hic ->. apply in_enumerate in Hic.
  apply list_elem_of_lookup_2, list_elem_of_In in Hic.
  rewrite depth_cell_idle by (left; by apply (Hno r c)). eauto.
Qed.

(** ** Tables under a header row *)

Section MoreTables.

Context {F : PyFloat}.

Lemma below_header_above k st :
  header_above k st → below_header k st = Ok (header_found st).
Proof.
  intros Hst. unfold below_header, and_then. run.
  destruct (header_found st) eqn:Ef; [|done].
  destruct (Hst Ef) as (h & -> & Hh). cbn [read_local]. run.
  by apply Nat.ltb_lt in Hh as ->.
Qed.

(** A header-anchored scan whose data rows never raise collects the records
    of [table_records]. *)
Lemma table_scan_spec (is_header : string → bool)
    (data_row : row → table_state → res table_state)
    (record_of : row → option (gmap string pyval)) (df : grid) :
  (∀ r st, data_row r st =
           Ok (match record_of r with Some d => add_record d st | None => st end)) →
  ∀ k st, header_above k st →
  ∃ st',
    for_each
      (λ (ir : nat * row) st,
         let '(idx, r) := ir in
         if is_header (row_str r) then mret (see_header idx st)
         else go ← below_header idx st;
              if go : bool then data_row r st else mret st)
      (enumerate_from k df) st = Ok st'
    ∧ records st' =
      records st ++ table_records (λ r, is_header (row_str r)) record_of (header_found st) df.
Proof.
  intros Hdata. induction df as [|r df IH]; intros k st Hst.
  - exists st. split; [done|]. cbn [table_records]. by rewrite app_nil_r.
  - cbn [enumerate_from for_each table_records].
    destruct (is_header (row_str r)); run.
    + destruct (IH (S k) (see_header k st)) as (st' & -> & E).
      { intros _. exists k. split; [done|lia]. }
      exists st'. split; [done|]. by rewrite E.
    + rewrite (below_header_above k st Hst). run.
      destruct (header_found st) eqn:Ef; run.
      * destruct (Hst Ef) as (h & Eh & Hh). rewrite Hdata. run.
        set (st1 := match record_of r with Some d => add_record d st | None => st end).
        assert (header_found st1 = true ∧ header_row st1 = Some h ∧
                records st1 = records st ++ option_list (record_of r)) as (E1 & E2 & E3).
        { subst st1. destruct (record_of r);
            cbn [add_record header_found header_row records option_list];
            rewrite ?app_nil_r; done. }
        destruct (IH (S k) st1) as (st' & -> & E).
        { intros _. exists h. split; [done|lia]. }
        exists st'. split; [done|]. by rewrite E, E1, E3, app_assoc.
      * destruct (IH (S k) st) as (st' & -> & E).
        { intros H. congruence. }
        exists st'. split; [done|]. by rewrite E, Ef.
Qed.

(** The members of [table_records]. *)
Lemma in_table_records (is_header : row → bool)
    (record_of : row → option (gmap string pyval)) (df : grid) found d :
  In d (table_records is_header record_of found df) ↔
  ∃ idx r, df !! idx = Some r ∧ is_header r = false ∧ record_of r = Some d ∧
           (found = true ∨ ∃ h hr, h < idx ∧ df !! h = Some hr ∧ is_header hr = true).
Proof.
  revert found. induction df as [|r df IH]; intros found.
  - cbn [table_records]. split; [done|]. by intros (idx & r & H & _).
  - cbn [table_records]. destruct (is_header r) eqn:Eh.
    + rewrite IH. split.
      * intros (idx & r' & H1 & H2 & H3 & _). exists (S idx), r'.
        repeat split; try done. right. exists 0, r. repeat split; [lia|done..].
      * intros (idx & r' & H1 & H2 & H3 & H4). destruct idx as [|idx].
        { injection H1 as <-. congruence. }
        exists idx, r'. repeat split; try done. by left.
    + rewrite in_app_iff, IH. split.
      * intros [Hin|(idx & r' & H1 & H2 & H3 & H4)].
        { destruct found; [|done]. destruct (record_of r) as [d'|] eqn:Er; [|done].
          destruct Hin as [<-|[]]. exists 0, r. repeat split; try done. by left. }
        exists (S idx), r'. repeat split; try done.
        destruct H4 as [->|(h & hr & Hh & Hhr & Hx)]; [by left|].
        right. exists (S h), hr. repeat split; [lia|done..].
      * intros (idx & r' & H1 & H2 & H3 & H4). destruct idx as [|idx].
        { injection H1 as <-. left.
          destruct H4 as [->|(h & hr & Hh & _)]; [|lia]. rewrite H3. by left. }
        right. exists idx, r'. repeat split; try done.
        destruct H4 as [->|(h & hr & Hh & Hhr & Hx)]; [by left|].
        destruct h as [|h]; [injection Hhr as <-; congruence|].
        right. exists h, hr. repeat split; [lia|done..].
Qed.

Lemma table_records_no_header (is_header : row → bool)
    (record_of : row → option (gmap string pyval)) (df : grid) :
  (∀ r, In r df → is_header r = false) →
  table_records is_header record_of false df = [].
Proof.
  intros Hno. induction df as [|r df IH]; [done|].
  cbn [table_records]. rewrite (Hno r) by (by left).
  apply IH. intros r' Hr'. apply Hno. by right.
Qed.

End MoreTables.

Lemma table_records_app {F : PyFloat} (is_header : row → bool)
    (record_of : row → option (gmap string pyval)) (l1 l2 : grid) found :
  table_records is_header record_of found (l1 ++ l2) =
  table_records is_header record_of found l1
  ++ table_records is_header record_of (found || existsb is_header l1) l2.
Proof.
  revert found. induction l1 as [|r l1 IH]; intros found.
  - cbn [app table_records existsb]. by rewrite orb_false_r.
  - cbn [app table_records existsb]. destruct (is_header r).
    + rewrite IH. cbn [orb]. by rewrite orb_true_r.
    + rewrite IH, app_assoc. done.
Qed.

(** A row that is no header and gives no record can be taken out of the
    sheet. *)
Lemma table_records_skip {F : PyFloat} (is_header : row → bool)
    (record_of : row → option (gmap string pyval)) (pre post : grid) (r : row) :
  is_header r = false → record_of r = None →
  table_records is_header record_of false (pre ++ r :: post) =
  table_records is_header record_of false (pre ++ post).
Proof.
  intros Hh Hr. rewrite !table_records_app. f_equal.
  cbn [table_records]. rewrite Hh, Hr. by destruct (false || existsb is_header pre).
Qed.

(** ** Formation tops *)

Section MoreTops.

Context {F : PyFloat}.

Lemma md_field_eq key j (r : row) (fd : gmap string pyval) :
  md_field key j r fd = Ok (with_field key (md_value r j) fd).
Proof.
  unfold md_field, md_value. rewrite guarded_numeric_ok. run.
  destruct (r !! j) as [c|] eqn:Ec; [|done].
  destruct (notna c && digit_like (str c)); [|done].
  rewrite (iloc_lookup _ _ _ Ec). run. by destruct (py_float c).
Qed.

Lemma with_field_name key o (fd : gmap string pyval) v :
  key ≠ "name" → fd !! "name" = Some v → with_field key o fd !! "name" = Some v.
Proof. intros Hk Hv. destruct o; cbn [with_field]; by rewrite ?lookup_insert_ne. Qed.

Lemma formation_data_row_eq (r : row) st :
  formation_data_row r st =
  Ok (match top_record r with Some d => add_record d st | None => st end).
Proof.
  unfold formation_data_row, top_record. rewrite named_ok. run.
  destruct (r !! 2) as [c|] eqn:Ec; [|done].
  destruct (notna c && negb (cell_in c name_denylist)); [|done].
  rewrite (iloc_lookup _ _ _ Ec). run. rewrite md_field_eq. run. rewrite md_field_eq. run.
  rewrite bool_decide_true; [done|]. intros H.
  assert (with_field "actual_md" (md_value r 9)
            (with_field "prognosed_md" (md_value r 7)
               (<["name" := VStr (str c)]> (∅ : gmap string pyval))) !! "name"
          = Some (VStr (str c))) as Hn
    by (apply with_field_name; [done|]; apply with_field_name; [done|];
        apply lookup_insert_eq).
  by rewrite H, lookup_empty in Hn.
Qed.

(** The result of [extract_formation_tops], without the loop. *)
Lemma formation_tops_spec (df : grid) :
  extract_formation_tops df = Ok (table_records tops_header top_record false df).
Proof.
  unfold extract_formation_tops, enumerate.
  destruct (table_scan_spec
              (λ rs, contains "Formation Name" rs && contains "Prognosed" rs
                     && contains "Actual Drilled" rs)
              formation_data_row top_record df formation_data_row_eq 0 table_init)
    as (st & E & Hr); [intros H; discriminate|].
  unfold formation_row. rewrite E. run. by rewrite Hr.
Qed.

(** The fields of the record of a row. *)
Lemma top_record_fields (r : row) fd :
  top_record r = Some fd →
  ∃ c, r !! 2 = Some c ∧ notna c = true ∧ cell_in c name_denylist = false ∧
       fd !! "name" = Some (VStr (str c)) ∧
       fd !! "prognosed_md" = md_value r 7 ∧
       fd !! "actual_md" = md_value r 9 ∧
       ∀ k, is_Some (fd !! k) → In k ["name"; "prognosed_md"; "actual_md"].
Proof.
  unfold top_record. destruct (r !! 2) as [c|]; [|done].
  destruct (notna c && negb (cell_in c name_denylist)) eqn:E; [|done].
  apply andb_true_iff in E as [E1 E2]. apply negb_true_iff in E2.
  intros [= <-]. exists c. repeat split; try done.
  - apply with_field_name; [done|]. apply with_field_name; [done|]. apply lookup_insert_eq.
  - destruct (md_value r 9), (md_value r 7); cbn [with_field]; by simplify_map_eq.
  - destruct (md_value r 9), (md_value r 7); cbn [with_field]; by simplify_map_eq.
  - intros k Hk. cbn [In].
    destruct (decide (k = "name")) as [->|K1]; [tauto|].
    destruct (decide (k = "prognosed_md")) as [->|K2]; [tauto|].
    destruct (decide (k = "actual_md")) as [->|K3]; [tauto|].
    exfalso. destruct (md_value r 9), (md_value r 7); cbn [with_field] in Hk;
      rewrite ?lookup_insert_ne, lookup_empty in Hk by done; by destruct Hk.
Qed.

End MoreTops.

(** X11. Without a row that holds [Formation Name], [Prognosed] and [Actual
    Drilled], [extract_formation_tops] returns no record, whatever else the
    sheet holds. *)
Theorem X11_no_header_no_tops {F : PyFloat} (df : grid) :
  (∀ r, In r df →
     contains "Formation Name" (row_str r) && contains "Prognosed" (row_str r)
     && contains "Actual Drilled" (row_str r) = false) →
  extract_formation_tops df = Ok [].
Proof.
  intros Hno. rewrite formation_tops_spec.
  by rewrite (table_records_no_header tops_header top_record df Hno).
Qed.

(** X12. Every record of [extract_formation_tops] comes from a row that is
    no header row and lies below a header row.  Its [name] is the text of the
    cell in column 2, which is not missing; [prognosed_md] and [actual_md]
    are columns 7 and 9 as floats, each present exactly when its cell is
    there, is not missing, passes the numeric test and is accepted by
    [float]; and the record has no other key. *)
Theorem X12_top_record_source {F : PyFloat} (df : grid) :
  ∃ fs, extract_formation_tops df = Ok fs ∧
    ∀ fd, In fd fs →
      ∃ idx r c,
        data_row_at tops_header df idx r ∧
        r !! 2 = Some c ∧ notna c = true ∧
        fd !! "name" = Some (VStr (str c)) ∧
        fd !! "prognosed_md" = md_value r 7 ∧
        fd !! "actual_md" = md_value r 9 ∧
        ∀ k, is_Some (fd !! k) → In k ["name"; "prognosed_md"; "actual_md"].
Proof.
  eexists. split; [apply formation_tops_spec|]. intros fd Hin.
  apply in_table_records in Hin as (idx & r & Hr & Hh & Hrec & [?|Hab]); [done|].
  destruct (top_record_fields r fd Hrec) as (c & Hc & Hn & _ & H1 & H2 & H3 & H4).
  exists idx, r, c. repeat split; done.
Qed.

(** X13. The test [if formation_data] of line 211 never fails: every row
    below a header row that is no header row itself and has a name in column
    2 -- not missing, not on the deny list -- gives a record with that name,
    also when neither depth column holds a number. *)
Theorem X13_named_row_gives_record {F : PyFloat} (df : grid) (idx : nat)
    (r : row) (c : cell) :
  data_row_at tops_header df idx r →
  r !! 2 = Some c → notna c = true → cell_in c name_denylist = false →
  ∃ fs fd, extract_formation_tops df = Ok fs ∧ In fd fs ∧
           fd !! "name" = Some (VStr (str c)) ∧
           fd !! "prognosed_md" = md_value r 7 ∧
           fd !! "actual_md" = md_value r 9.
Proof.
  intros (Hr & Hh & Hab) Hc Hn Hd.
  destruct (top_record r) as [fd|] eqn:Hrec;
    [|unfold top_record in Hrec; by rewrite Hc, Hn, Hd in Hrec].
  destruct (top_record_fields r fd Hrec) as (c' & Hc' & _ & _ & H1 & H2 & H3 & _).
  rewrite Hc in Hc'. injection Hc' as <-.
  eexists _, fd. split; [apply formation_tops_spec|]. split; [|done].
  apply in_table_records. exists idx, r. repeat split; try done. by right.
Qed.

(** ** Detailed gas readings *)

Section MoreReadings.

Context {F : PyFloat}.

Lemma reading_data_row_eq (r : row) st :
  reading_data_row r st =
  Ok (match reading_record r with Some d => add_record d st | None => st end).
Proof.
  unfold reading_data_row, reading_record. rewrite guarded_numeric_ok. run.
  destruct (r !! 0) as [c|] eqn:Ec; [|done].
  destruct (notna c && digit_like (str c)); [|done].
  rewrite (iloc_lookup _ _ _ Ec). run.
  destruct (py_float c) as [d|e]; run; [|done].
  by destruct (for_each (gas_field r) gas_columns {["DEPTH" := VFloat d]}).
Qed.

(** The result of [extract_detailed_gas_readings], without the loop. *)
Lemma detailed_gas_spec (df : grid) :
  extract_detailed_gas_readings df =
  Ok (table_records readings_header reading_record false df).
Proof.
  unfold extract_detailed_gas_readings, enumerate.
  destruct (table_scan_spec
              (λ rs, contains "DEPTH" rs && contains "TG" rs && contains "C1" rs)
              reading_data_row reading_record df reading_data_row_eq 0 table_init)
    as (st & E & Hr); [intros H; discriminate|].
  unfold reading_row. rewrite E. run. by rewrite Hr.
Qed.

Lemma for_each_raises {A S} (body : A → S → res S) (l : list A) (x : A) (s : S) :
  In x l → (∀ s, ∃ e, body x s = Raise e) → ∃ e, for_each body l s = Raise e.
Proof.
  intros Hin Hx. revert s. induction l as [|y l IH]; intros s; [done|].
  cbn [for_each]. destruct Hin as [->|Hin].
  - destruct (Hx s) as [e ->]. run. eauto.
  - destruct (body y s) as [s'|e]; run; eauto.
Qed.

Lemma gas_field_raises (r : row) j key (c : cell) e (rd : gmap string pyval) :
  r !! j = Some c → notna c && digit_like (str c) = true → py_float c = Raise e →
  gas_field r (j, key) rd = Raise e.
Proof.
  intros Hc Hn Hf. unfold gas_field.
  assert (j < length r) as Hj by (by eapply lookup_lt_Some).
  destruct (numeric_at_ok r j Hj) as (c' & Hc' & ->).
  apply Nat.ltb_lt in Hj as ->. run.
  rewrite Hc in Hc'. injection Hc' as <-. rewrite Hn.
  rewrite (iloc_lookup _ _ _ Hc). run. by rewrite Hf.
Qed.

Lemma gas_field_total (r : row) j key (rd : gmap string pyval) :
  (∀ c, r !! j = Some c → notna c && digit_like (str c) = true →
        ∃ v, py_float c = Ok v) →
  ∃ rd', gas_field r (j, key) rd = Ok rd'.
Proof.
  intros Hf. unfold gas_field. destruct (j <? length r) eqn:Ej; [|eauto].
  apply Nat.ltb_lt in Ej. destruct (numeric_at_ok r j Ej) as (c & Hc & ->). run.
  destruct (notna c && digit_like (str c)) eqn:En; run; [|eauto].
  rewrite (iloc_lookup _ _ _ Hc). run.
  destruct (Hf c Hc En) as [v ->]. run. eauto.
Qed.

Lemma gas_fields_total (r : row) (cols : list (nat * string)) (rd : gmap string pyval) :
  (∀ j key c, In (j, key) cols → r !! j = Some c →
              notna c && digit_like (str c) = true → ∃ v, py_float c = Ok v) →
  ∃ rd', for_each (gas_field r) cols rd = Ok rd'.
Proof.
  revert rd. induction cols as [|[j key] cols IH]; intros rd Hf; [by eexists|].
  cbn [for_each].
  destruct (gas_field_total r j key rd) as [rd1 ->];
    [intros c; apply (Hf j key); by left|].
  run. apply IH. intros j' key' c Hin. apply (Hf j' key'). by right.
Qed.

(** The fields of the record of a row. *)
Lemma reading_record_fields (r : row) rd :
  reading_record r = Some rd →
  ∃ c d, r !! 0 = Some c ∧ notna c && digit_like (str c) = true ∧
         py_float c = Ok d ∧ rd !! "DEPTH" = Some (VFloat d) ∧
         (∀ j key, In (j, key) gas_columns → field_ok r j (rd !! key)) ∧
         ∀ k, is_Some (rd !! k) →
              In k ["DEPTH"; "TG"; "C1"; "C2"; "C3"; "C4I"; "C4N"; "C5"].
Proof.
  unfold reading_record. destruct (r !! 0) as [c|] eqn:Ec; [|done].
  destruct (notna c && digit_like (str c)) eqn:En; [|done].
  destruct (py_float c) as [d|e] eqn:Ed; [|done].
  destruct (for_each (gas_field r) gas_columns {["DEPTH" := VFloat d]})
    as [rd'|e] eqn:Er; [|done].
  intros [= <-].
  destruct (gas_fields_spec r gas_columns {["DEPTH" := VFloat d]} rd') as [H1 H2];
    [| |exact Er|].
  { apply (bool_decide_unpack _). by vm_compute. }
  { intros jk Hjk. unfold gas_columns in Hjk.
    repeat (destruct Hjk as [<-|Hjk]; [done|]). done. }
  exists c, d. repeat split; try done.
  - rewrite H2; [done|]. unfold gas_columns. simpl. intuition discriminate.
  - intros k Hk.
    destruct (decide (In k ["DEPTH"; "TG"; "C1"; "C2"; "C3"; "C4I"; "C4N"; "C5"]))
      as [|Hnot]; [done|].
    exfalso. rewrite H2 in Hk.
    + rewrite lookup_singleton_ne in Hk; [by destruct Hk|].
      intros <-. apply Hnot. by left.
    + intros Hin. apply Hnot. right. exact Hin.
Qed.

End MoreReadings.

(** X14. Without a row that holds [DEPTH], [TG] and [C1],
    [extract_detailed_gas_readings] returns no record, whatever else the
    sheet holds. *)
Theorem X14_no_header_no_readings {F : PyFloat} (df : grid) :
  (∀ r, In r df →
     contains "DEPTH" (row_str r) && contains "TG" (row_str r)
     && contains "C1" (row_str r) = false) →
  extract_detailed_gas_readings df = Ok [].
Proof.
  intros Hno. rewrite detailed_gas_spec.
  by rewrite (table_records_no_header readings_header reading_record df Hno).
Qed.

(** X15. Every record of [extract_detailed_gas_readings] comes from a row
    that is no header row and lies below a header row; its [DEPTH] is the
    first cell of the row as a float, a cell that is not missing and passes
    the numeric test; and it has no key other than [DEPTH] and the seven gas
    fields. *)
Theorem X15_reading_source {F : PyFloat} (df : grid) :
  ∃ rs, extract_detailed_gas_readings df = Ok rs ∧
    ∀ rd, In rd rs →
      ∃ idx r c d,
        data_row_at readings_header df idx r ∧
        r !! 0 = Some c ∧ notna c && digit_like (str c) = true ∧
        py_float c = Ok d ∧ rd !! "DEPTH" = Some (VFloat d) ∧
        ∀ k, is_Some (rd !! k) →
             In k ["DEPTH"; "TG"; "C1"; "C2"; "C3"; "C4I"; "C4N"; "C5"].
Proof.
  eexists. split; [apply detailed_gas_spec|]. intros rd Hin.
  apply in_table_records in Hin as (idx & r & Hr & Hh & Hrec & [?|Hab]); [done|].
  destruct (reading_record_fields r rd Hrec) as (c & d & Hc & Hn & Hd & H1 & _ & H3).
  exists idx, r, c, d. repeat split; done.
Qed.

(** X16. One number that [float] rejects costs the whole row: when a cell
    of column 0 or of one of the gas columns 7 to 13 passes the numeric test
    -- digits once the dots are removed -- and [float] raises on it, the
    [except] of line 331 drops the reading, and the result is the one of the
    sheet without that row. *)
Theorem X16_rejected_number_drops_row {F : PyFloat} (pre post : grid) (r : row)
    (j : nat) (c : cell) (e : exn) :
  contains "DEPTH" (row_str r) && contains "TG" (row_str r)
  && contains "C1" (row_str r) = false →
  In j [0; 7; 8; 9; 10; 11; 12; 13] →
  r !! j = Some c → notna c && digit_like (str c) = true → py_float c = Raise e →
  extract_detailed_gas_readings (pre ++ r :: post) =
  extract_detailed_gas_readings (pre ++ post).
Proof.
  intros Hh Hj Hc Hn Hf. rewrite !detailed_gas_spec. f_equal.
  apply table_records_skip; [done|].
  unfold reading_record. destruct (r !! 0) as [c0|] eqn:E0; [|done].
  destruct (notna c0 && digit_like (str c0)) eqn:En0; [|done].
  destruct (py_float c0) as [d|e0] eqn:Ed; [|done].
  destruct Hj as [<-|Hj]; [congruence|].
  assert (∃ key, In (j, key) gas_columns) as [key Hkey].
  { unfold gas_columns. cbn [In] in *.
    destruct Hj as [<-|[<-|[<-|[<-|[<-|[<-|[<-|[]]]]]]]]; eauto 10. }
  destruct (for_each_raises (gas_field r) gas_columns (j, key) {["DEPTH" := VFloat d]} Hkey)
    as [e' ->]; [|done].
  intros rd. exists e. by apply (gas_field_raises r j key c).
Qed.

(** X17. A row below a header row that is no header row itself gives a
    record when its first cell passes the numeric test and every [float] the
    row needs succeeds; the record is in the result with that depth. *)
Theorem X17_numeric_row_gives_record {F : PyFloat} (df : grid) (idx : nat)
    (r : row) (c : cell) (d : float) :
  data_row_at readings_header df idx r →
  r !! 0 = Some c → notna c && digit_like (str c) = true → py_float c = Ok d →
  (∀ j key c', In (j, key) gas_columns → r !! j = Some c' →
               notna c' && digit_like (str c') = true → ∃ v, py_float c' = Ok v) →
  ∃ rs rd, extract_detailed_gas_readings df = Ok rs ∧ In rd rs ∧
           rd !! "DEPTH" = Some (VFloat d) ∧
           ∀ j key, In (j, key) gas_columns → field_ok r j (rd !! key).
Proof.
  intros (Hr & Hh & Hab) Hc Hn Hd Hf.
  destruct (gas_fields_total r gas_columns {["DEPTH" := VFloat d]} Hf) as [rd Er].
  assert (reading_record r = Some rd) as Hrec
    by (unfold reading_record; by rewrite Hc, Hn, Hd, Er).
  destruct (reading_record_fields r rd Hrec) as (c' & d' & Hc' & _ & Hd' & H1 & H2 & _).
  assert (d' = d) as -> by congruence.
  eexists _, rd. split; [apply detailed_gas_spec|]. repeat split; try done.
  apply in_table_records. exists idx, r. repeat split; try done. by right.
Qed.

(** ** Gas summary *)

Section MoreSummary.

Context {F : PyFloat} {L : PyFloatLaws F}.

(** [index] returns the position of the first cell equal to the text. *)
Lemma list_index_first s (l : list cell) i :
  list_index (CStr s) l = Ok i →
  l !! i = Some (CStr s) ∧
  ∀ i' c', i' < i → l !! i' = Some c' → py_eq c' (CStr s) = false.
Proof.
  revert i. induction l as [|y l IH]; intros i; cbn [list_index]; [done|].
  destruct (py_eq y (CStr s)) eqn:E.
  - intros [= <-]. split; [|intros; lia].
    destruct y as [|t|z|f]; try discriminate. cbn [py_eq] in E.
    apply String.eqb_eq in E as ->. done.
  - destruct (list_index (CStr s) l) as [i0|e]; run; [|done].
    intros [= <-]. destruct (IH i0 eq_refl) as [H1 H2]. split; [done|].
    intros [|i'] c' Hi' Hc'; [by injection Hc' as <-|].
    apply (H2 i' c'); [lia|done].
Qed.

Lemma first_offer_in (df : grid) js v :
  first_offer df js = Some v → ∃ j, In j js ∧ tg_offer df j = Some v.
Proof.
  induction js as [|j js IH]; cbn [first_offer]; [done|].
  destruct (tg_offer df j) as [v'|] eqn:E.
  - intros [= <-]. exists j. split; [by left|done].
  - intros H. destruct (IH H) as (j' & Hj' & Hv). exists j'. split; [by right|done].
Qed.

Lemma gas_cell_entries (df : grid) idx (r : row) (c : cell) st :
  df !! idx = Some r → In c r → summary_inv df st →
  ∃ st', gas_cell df idx r c st = Ok st' ∧ summary_inv df st'.
Proof.
  intros Hr Hin [Hk Hst]. unfold gas_cell.
  assert (In r df) as Hrdf by (by apply list_elem_of_In, list_elem_of_lookup_2 with idx).
  destruct (contains "Max. Gas Reading at:" (str c)) eqn:Em.
  - destruct (text_of_marker "Max. Gas Reading at:" c) as [s ->]; [reflexivity | done |].
    destruct (list_index_text s r Hin) as (i & Ei & Hi). rewrite Ei. run.
    destruct (list_index_first s r i Ei) as [Hi1 Hi2].
    unfold and_then. run. destruct (i + 1 <? length r) eqn:El; [|run; by exists st].
    apply Nat.ltb_lt in El. destruct (iloc_ok r (i + 1) El) as (n & Hn & ->). run.
    destruct (notna n) eqn:En; [|run; by exists st].
    eexists. split; [done|]. split.
    + intros f [= <-]. cbn [gas_data]. rewrite lookup_insert_eq. eauto.
    + intros f e. cbn [gas_data]. destruct (decide (str n = f)) as [<-|Hne].
      * rewrite lookup_insert_eq. intros [= <-]. split; [|by left].
        exists r, i, s, n. rewrite Nat.add_1_r in Hn. done.
      * rewrite lookup_insert_ne by done. apply Hst.
  - destruct (contains "T.G" (str c) && truthy (current_formation st)) eqn:Et; [|run; by exists st].
    apply andb_true_iff in Et as [Et _].
    destruct (current_formation st) as [f|] eqn:Ef; [|run; by exists st].
    destruct (Hk f Ef) as [e He].
    unfold tg_lookahead.
    rewrite (tg_scan_spec df f e _ (gas_data st) (lookahead_range df idx) He). run.
    eexists. split; [done|].
    destruct (first_offer df (seq (idx + 1) (Nat.min (idx + 5) (length df) - (idx + 1))))
      as [v|] eqn:Eo.
    + destruct (first_offer_in _ _ _ Eo) as (j & Hj & Hv). apply in_seq in Hj.
      split.
      * intros f' [= <-]. cbn [gas_data]. rewrite lookup_insert_eq. eauto.
      * intros f' e'. cbn [gas_data].
        destruct (decide (f = f')) as [<-|Hne]; [|rewrite lookup_insert_ne by done; apply Hst].
        rewrite lookup_insert_eq. intros [= <-].
        destruct (Hst f e He) as [Hsrc He']. split; [done|]. right. exists v. split.
        { exists idx, r, c, j. repeat split; try done; lia. }
        destruct He' as [->|(v' & _ & ->)];
          [apply insert_empty|apply insert_singleton_eq].
    + split; [|done]. intros f' [= <-]. cbn [gas_data]. eauto.
Qed.

Lemma gas_readings_entries (df : grid) :
  ∃ gd, extract_gas_readings df = Ok gd ∧ ∀ f e, gd !! f = Some e → summary_entry df f e.
Proof.
  unfold extract_gas_readings.
  destruct (for_each_inv (summary_inv df) (gas_row df) (enumerate df) gas_init)
    as (st & -> & _ & Hst); [| |run; eauto].
  - intros [idx r] st Hin Hst. unfold gas_row. cbn [fst snd].
    apply in_enumerate in Hin.
    apply (for_each_inv (summary_inv df)); [|done].
    intros c st0 Hc Hst0. by apply (gas_cell_entries df idx r c st0).
  - split; [intros f Hf; discriminate|]. intros f e. cbn [gas_init gas_data].
    by rewrite lookup_empty.
Qed.

End MoreSummary.

(** X18. Every entry of [extract_gas_readings] has its sources in the
    sheet.  Its key is the text of a cell that is not missing and stands
    right of the first cell of its row equal to a text cell with [Max. Gas
    Reading at:]; the entry is empty, or it holds [TG] and nothing else, and
    that value is what one of the four rows below a row with a [T.G] cell
    offers in column 3. *)
Theorem X18_summary_entries {F : PyFloat} {L : PyFloatLaws F} (df : grid) :
  ∃ gd, extract_gas_readings df = Ok gd ∧
    ∀ f e, gd !! f = Some e →
      (∃ r i s n, In r df ∧ r !! i = Some (CStr s) ∧
                  contains "Max. Gas Reading at:" s = true ∧
                  (∀ i' c', i' < i → r !! i' = Some c' → py_eq c' (CStr s) = false) ∧
                  r !! S i = Some n ∧ notna n = true ∧ f = str n) ∧
      (e = ∅ ∨
       ∃ v, (∃ idx r c j, df !! idx = Some r ∧ In c r ∧ contains "T.G" (str c) = true ∧
                          idx < j ≤ idx + 4 ∧ tg_offer df j = Some v) ∧
            e = {["TG" := v]}).
Proof. exact (gas_readings_entries df). Qed.

(** ** Lithology *)

(** *** The groups of a depth interval *)

Lemma length_app_string (a b : string) :
  String.length (a +:+ b) = String.length a + String.length b.
Proof.
  induction a as [|x a IH]; [done|].
  change (S (String.length (a +:+ b)) = S (String.length a + String.length b)).
  by rewrite IH.
Qed.

Lemma take_prefix_app (d s : string) : Regex.take_prefix (String.length d) (d +:+ s) = d.
Proof.
  induction d as [|x d IH]; [by destruct s|].
  change (String x (Regex.take_prefix (String.length d) (d +:+ s)) = String x d).
  by rewrite IH.
Qed.

Lemma star_lazy_inv {A} p s (k : string → option A) m :
  Regex.star_lazy p s k = Some m → ∃ s', k s' = Some m.
Proof.
  induction s as [|a s IH]; cbn [Regex.star_lazy].
  - destruct (k "") eqn:E; cbn [Regex.or_else]; [intros [= <-]; eauto|done].
  - destruct (k (String a s)) eqn:E; cbn [Regex.or_else]; [intros [= <-]; eauto|].
    destruct (p a); [apply IH|done].
Qed.

Lemma star_greedy_inv {A} p s (k : string → option A) m :
  Regex.star_greedy p s k = Some m →
  ∃ d s', s = d +:+ s' ∧ all_chars p d = true ∧ k s' = Some m.
Proof.
  induction s as [|a s IH]; cbn [Regex.star_greedy].
  - intros H. by exists "", "".
  - destruct (p a) eqn:Ea; [|intros H; by exists "", (String a s)].
    destruct (Regex.star_greedy p s k) as [m'|] eqn:E; cbn [Regex.or_else].
    + intros [= <-]. destruct (IH eq_refl) as (d & s' & -> & Hd & Hk).
      exists (String a d), s'. repeat split; [|done]. cbn [all_chars]. by rewrite Ea, Hd.
    + intros H. by exists "", (String a s).
Qed.

Lemma all_chars_digits d : all_chars is_digit d = all_digits d.
Proof. induction d as [|a d IH]; [done|]. cbn [all_chars all_digits]. by rewrite IH. Qed.

Lemma matches_seq r1 r2 s caps k :
  Regex.matches (Regex.Seq r1 r2) s caps k =
  Regex.matches r1 s caps (λ s' caps', Regex.matches r2 s' caps' k).
Proof. reflexivity. Qed.

Lemma matches_lit_inv t s caps k m :
  Regex.matches (Regex.Lit t) s caps k = Some m → ∃ s', k s' caps = Some m.
Proof. cbn [Regex.matches]. destruct (startswith t s); [eauto|done]. Qed.

Lemma matches_lazy_inv c s caps k m :
  Regex.matches (Regex.LazyStar c) s caps k = Some m → ∃ s', k s' caps = Some m.
Proof. cbn [Regex.matches]. intros H. by apply star_lazy_inv in H. Qed.

(** A group [(\d+)] captures a numeral. *)
Lemma matches_digits_inv n s caps k m :
  Regex.matches (Regex.Group n (Regex.Plus Regex.Digit)) s caps k = Some m →
  ∃ d s', isdigit d = true ∧ k s' ((n, d) :: caps) = Some m.
Proof.
  cbn [Regex.matches]. destruct s as [|a s]; [done|].
  cbn [Regex.in_cls]. destruct (is_digit a) eqn:Ea; [|done].
  intros H. apply star_greedy_inv in H as (d & s' & -> & Hd & Hk).
  exists (String a d), s'. split.
  - cbn [isdigit all_digits]. by rewrite Ea, <- all_chars_digits.
  - replace (String.length (String a (d +:+ s')) - String.length s')
      with (String.length (String a d)) in Hk
      by (cbn [String.length]; rewrite length_app_string; lia).
    change (String a (d +:+ s')) with (String a d +:+ s') in Hk.
    by rewrite (take_prefix_app (String a d) s') in Hk.
Qed.

Lemma search_inv r s m :
  Regex.search r s = Some m → ∃ s', Regex.matches r s' [] (λ _ caps, Some caps) = Some m.
Proof.
  induction s as [|a s IH]; cbn [Regex.search].
  - destruct (Regex.matches r "" [] _) eqn:E; cbn [Regex.or_else]; [|done].
    intros [= <-]. eauto.
  - destruct (Regex.matches r (String a s) [] _) eqn:E; cbn [Regex.or_else]; [|apply IH].
    intros [= <-]. eauto.
Qed.

(** Both groups of a match of the depth pattern are numerals. *)
Lemma depth_groups rs m :
  Regex.search Regex.depth_re rs = Some m →
  isdigit (Regex.group 1 m) = true ∧ isdigit (Regex.group 2 m) = true.
Proof.
  intros H. apply search_inv in H as [s H]. unfold Regex.depth_re in H.
  rewrite matches_seq in H. apply matches_lit_inv in H as [s1 H]. cbn beta in H.
  rewrite matches_seq in H. apply matches_lazy_inv in H as [s2 H]. cbn beta in H.
  rewrite matches_seq in H. apply matches_digits_inv in H as (t1 & s3 & H1 & H). cbn beta in H.
  rewrite matches_seq in H. apply matches_lazy_inv in H as [s4 H]. cbn beta in H.
  rewrite matches_seq in H. apply matches_lit_inv in H as [s5 H]. cbn beta in H.
  rewrite matches_seq in H. apply matches_lazy_inv in H as [s6 H]. cbn beta in H.
  apply matches_digits_inv in H as (t2 & s7 & H2 & H). injection H as <-.
  done.
Qed.

(** *** The records *)

Section MoreLithology.

Context {F : PyFloat}.

Lemma nonempty_join (l : list string) :
  l ≠ [] → Forall (λ t, nonempty t = true) l → nonempty (join " " l) = true.
Proof.
  intros Hl Hall. destruct l as [|t l]; [done|].
  apply Forall_cons in Hall as [Ht _]. cbn [join].
  destruct l; [done|]. by apply nonempty_app_l.
Qed.

Lemma flush_inv st : litho_inv st → Forall litho_record (flush st).
Proof.
  intros (Hd & Hc & Hl). unfold flush.
  destruct (current_depth st) as [d|] eqn:Ed; [|done].
  destruct (current_lithology st) as [l|]; [|done].
  destruct (nonempty d && nonempty l) eqn:E; [|done].
  apply andb_true_iff in E as [_ El].
  case_bool_decide as Hne; cbn [andb]; [|done].
  apply Forall_app. split; [done|]. constructor; [|done].
  exists d, l, (join " " (current_description st)).
  repeat split; [by apply Hc|done|by apply nonempty_join].
Qed.

Lemma litho_row_inv (r : row) st : litho_inv st → litho_inv (litho_row r st).
Proof.
  intros Hst. pose proof (flush_inv st Hst) as Hf. destruct Hst as (Hd & Hc & Hl).
  unfold litho_row.
  destruct (contains "Depth:" (row_str r)).
  { split; [done|]. split; [|by constructor]. cbn [current_depth].
    destruct (Regex.search Regex.depth_re (row_str r)) as [m|] eqn:Em; [|done].
    intros d [= <-]. destruct (depth_groups _ _ Em) as [H1 H2].
    by exists (Regex.group 1 m), (Regex.group 2 m). }
  destruct (contains "Lithology:" (row_str r)).
  { by destruct (Regex.search Regex.lithology_re (row_str r)). }
  destruct (nonempty (strip (row_str r))
            && negb (existsb (λ keyword, contains keyword (row_str r)) boilerplate)) eqn:E;
    [|done].
  apply andb_true_iff in E as [E _].
  split; [done|]. split; [done|]. cbn [current_description].
  apply Forall_app. split; [done|]. by constructor.
Qed.

Lemma scan_inv (rows : grid) st : litho_inv st → litho_inv (scan rows st).
Proof.
  revert st. induction rows as [|r rows IH]; intros st Hst; [done|].
  cbn [scan fold_left]. apply IH. by apply litho_row_inv.
Qed.

Lemma litho_init_inv : litho_inv litho_init.
Proof. split; [by constructor|]. split; [done|by constructor]. Qed.

Lemma flush_length st : length (flush st) ≤ length (descriptions st) + 1.
Proof.
  unfold flush. repeat case_match; rewrite ?length_app; cbn [length]; lia.
Qed.

Lemma flush_no_depth st : current_depth st = None → flush st = descriptions st.
Proof. intros H. unfold flush. by rewrite H. Qed.

Lemma flush_no_lithology st : current_lithology st = None → flush st = descriptions st.
Proof. intros H. unfold flush. rewrite H. by destruct (current_depth st). Qed.

Lemma scan_count (rows : grid) st n :
  litho_count st n → litho_count (scan rows st) (n + length (depth_rows rows)).
Proof.
  revert st n. induction rows as [|r rows IH]; intros st n Hst.
  - cbn [scan fold_left depth_rows List.filter length]. by rewrite Nat.add_0_r.
  - cbn [scan fold_left depth_rows List.filter].
    fold (scan rows (litho_row r st)). fold (depth_rows rows).
    unfold litho_row at 1. unfold litho_count in Hst.
    destruct (contains "Depth:" (row_str r)) eqn:Ed.
    + cbn [length]. replace (n + S (length (depth_rows rows)))
        with (S n + length (depth_rows rows)) by lia.
      apply IH. unfold litho_count. cbn [current_depth descriptions].
      pose proof (flush_length st) as Hl.
      destruct (current_depth st) as [d|] eqn:Ec.
      * destruct (Regex.search Regex.depth_re (row_str r)); lia.
      * rewrite (flush_no_depth st Ec), Hst.
        destruct (Regex.search Regex.depth_re (row_str r)); [cbn [length]; lia|done].
    + apply IH. unfold litho_count.
      destruct (contains "Lithology:" (row_str r)).
      { by destruct (Regex.search Regex.lithology_re (row_str r)). }
      by destruct (nonempty (strip (row_str r))
                   && negb (existsb (λ keyword, contains keyword (row_str r)) boilerplate)).
Qed.

End MoreLithology.

(** X19. Every record of [extract_lithological_description] holds the three
    keys [depth], [lithology] and [description] and no other; none of the
    three texts is empty, and the depth has the form of two numerals with
    [ - ] between. *)
Theorem X19_litho_record_shape {F : PyFloat} (df : grid) :
  ∃ ds, extract_lithological_description df = Ok ds ∧
    ∀ rec, In rec ds →
      ∃ d l t,
        rec = <["depth" := d]> (<["lithology" := l]> (<["description" := t]> ∅)) ∧
        (∃ t1 t2, d = t1 +:+ " - " +:+ t2 ∧ isdigit t1 = true ∧ isdigit t2 = true) ∧
        nonempty l = true ∧ nonempty t = true.
Proof.
  eexists. split; [reflexivity|]. intros rec Hin.
  pose proof (flush_inv _ (scan_inv df litho_init litho_init_inv)) as H.
  rewrite Forall_forall in H. apply (H rec). by apply list_elem_of_In.
Qed.

(** X20. A record needs both markers.  When no row with [Depth:] has a
    [From ... To ...] interval the pattern finds, or when no row gives a
    lithology -- a row with [Lithology:] and without [Depth:] that its
    pattern matches --, the result is empty. *)
Theorem X20_both_markers_needed {F : PyFloat} (df : grid) :
  (∀ r, In r df → contains "Depth:" (row_str r) = true →
        Regex.search Regex.depth_re (row_str r) = None) ∨
  (∀ r, In r df → contains "Depth:" (row_str r) = false →
        contains "Lithology:" (row_str r) = true →
        Regex.search Regex.lithology_re (row_str r) = None) →
  extract_lithological_description df = Ok [].
Proof.
  intros H. unfold extract_lithological_description. cbn [mret res_ret]. f_equal.
  fold (scan df litho_init). destruct H as [H|H].
  - enough (current_depth (scan df litho_init) = None ∧
            descriptions (scan df litho_init) = []) as [E1 E2]
      by (by rewrite flush_no_depth).
    assert (current_depth litho_init = None ∧ descriptions litho_init = []) as Hi by done.
    revert Hi. generalize litho_init. induction df as [|r df IH]; intros st Hst; [done|].
    cbn [scan fold_left]. apply IH; [intros r' Hr'; apply H; by right|].
    destruct Hst as [E1 E2]. unfold litho_row.
    destruct (contains "Depth:" (row_str r)) eqn:Ed.
    { rewrite (H r) by (by left || done). cbn [current_depth descriptions].
      by rewrite flush_no_depth. }
    destruct (contains "Lithology:" (row_str r)).
    { by destruct (Regex.search Regex.lithology_re (row_str r)). }
    by destruct (nonempty (strip (row_str r))
                 && negb (existsb (λ keyword, contains keyword (row_str r)) boilerplate)).
  - enough (current_lithology (scan df litho_init) = None ∧
            descriptions (scan df litho_init) = []) as [E1 E2]
      by (by rewrite flush_no_lithology).
    assert (current_lithology litho_init = None ∧ descriptions litho_init = []) as Hi by done.
    revert Hi. generalize litho_init. induction df as [|r df IH]; intros st Hst; [done|].
    cbn [scan fold_left]. apply IH; [intros r' Hr'; apply H; by right|].
    destruct Hst as [E1 E2]. unfold litho_row.
    destruct (contains "Depth:" (row_str r)) eqn:Ed.
    { cbn [current_lithology descriptions]. by rewrite flush_no_lithology. }
    destruct (contains "Lithology:" (row_str r)) eqn:El.
    { by rewrite (H r) by (by left || done). }
    by destruct (nonempty (strip (row_str r))
                 && negb (existsb (λ keyword, contains keyword (row_str r)) boilerplate)).
Qed.

(** X21. There is at most one record for each row with [Depth:]. *)
Theorem X21_one_record_per_depth_row {F : PyFloat} (df : grid) :
  ∃ ds, extract_lithological_description df = Ok ds ∧
        length ds ≤ length (List.filter (λ r, contains "Depth:" (row_str r)) df).
Proof.
  eexists. split; [reflexivity|]. fold (scan df litho_init). fold (depth_rows df).
  pose proof (scan_count df litho_init 0 eq_refl) as H. unfold litho_count in H.
  pose proof (flush_length (scan df litho_init)) as Hl.
  destruct (current_depth (scan df litho_init)) eqn:E; [lia|].
  rewrite (flush_no_depth _ E), H. cbn [length]. lia.
Qed.

(** X22. Text above the first row with [Depth:] reaches no record: rows
    without [Depth:] and without [Lithology:] in front of a row with [Depth:]
    can be taken away. *)
Theorem X22_text_above_first_depth_row {F : PyFloat} (pre post : grid) (d : row) :
  (∀ r, In r pre →
     contains "Depth:" (row_str r) = false ∧ contains "Lithology:" (row_str r) = false) →
  contains "Depth:" (row_str d) = true →
  extract_lithological_description (pre ++ d :: post) =
  extract_lithological_description (d :: post).
Proof.
  intros Hpre Hd. unfold extract_lithological_description. cbn [mret res_ret]. f_equal.
  f_equal. rewrite fold_left_app. cbn [fold_left]. f_equal.
  fold (scan pre litho_init). rewrite (scan_body pre litho_init Hpre).
  unfold litho_row. rewrite Hd. reflexivity.
Qed.

(** X23. Rows above the first header row do not reach the result of a
    table: in front of any sheet, rows that are no header rows of the
    formation table leave [extract_formation_tops] as it is, and rows that
    are no header rows of the gas table leave [extract_detailed_gas_readings]
    as it is. *)
Theorem X23_rows_above_header {F : PyFloat} (pre df : grid) :
  ((∀ r, In r pre →
      contains "Formation Name" (row_str r) && contains "Prognosed" (row_str r)
      && contains "Actual Drilled" (row_str r) = false) →
   extract_formation_tops (pre ++ df) = extract_formation_tops df) ∧
  ((∀ r, In r pre →
      contains "DEPTH" (row_str r) && contains "TG" (row_str r)
      && contains "C1" (row_str r) = false) →
   extract_detailed_gas_readings (pre ++ df) = extract_detailed_gas_readings df).
Proof.
  assert (∀ (is_header : row → bool) record_of,
            (∀ r, In r pre → is_header r = false) →
            table_records is_header record_of false (pre ++ df) =
            table_records is_header record_of false df) as Hskip.
  { intros is_header record_of Hno. rewrite table_records_app.
    rewrite (table_records_no_header is_header record_of pre Hno).
    assert (existsb is_header pre = false) as ->; [|done].
    apply not_true_iff_false. intros (r & Hr & Hh)%existsb_exists.
    by rewrite (Hno r Hr) in Hh. }
  split; intros Hno.
  - rewrite !formation_tops_spec. f_equal. by apply (Hskip tops_header).
  - rewrite !detailed_gas_spec. f_equal. by apply (Hskip readings_header).
Qed.

(** ** The further properties at work *)

Lemma X3_witness :
  yields (extract_well_info ([] ++ empty_value_row :: [])) "concession" (Some "nan").
Proof.
  apply (X3_empty_value_is_nan (F := dec_float) [] [] empty_value_row
           "concession" "Concession" false 0 (CStr "Concession"));
    [simpl; tauto | reflexivity | vm_compute; reflexivity | intros; lia | reflexivity
    | intros ? []].
Defined.

Lemma X4_witness : yields (extract_well_info capitals_sheet) "geologist" None.
Proof.
  apply (X4_other_case_label_blocks_fallback (F := dec_float) capitals_sheet).
  - exists [CStr "GEOLOGIST"; CStr "Mahmoud B."], (CStr "GEOLOGIST").
    split; [by left|]. split; [by left|]. vm_compute. reflexivity.
  - intros r c [<-|[<-|[]]] [<-|[<-|[]]]; vm_compute; reflexivity.
Defined.

Lemma X5_witness : yields (extract_well_info one_name_sheet) "geologist" None.
Proof.
  apply (X5_fallback_window (F := dec_float) one_name_sheet).
  - intros r c [<-|[]] [<-|[]]. vm_compute. reflexivity.
  - intros [|j] r Hj _ H; [lia|discriminate].
Defined.

Lemma X6_witness :
  yields (extract_well_info ([] ++ spud_row :: [])) "date" (Some "12-Mar-2024") ∧
  yields (extract_well_info ([] ++ spud_row :: [])) "spud_date" (Some "12-Mar-2024").
Proof.
  apply (X6_spud_date_sets_date (F := dec_float) [] [] spud_row 0
           (CStr "Spud Date :-") (CStr "12-Mar-2024"));
    [reflexivity | vm_compute; reflexivity | vm_compute; reflexivity | intros; lia
    | reflexivity | intros ? []].
Defined.

Lemma X9_witness :
  yields (extract_depths ([] ++ [[] ++ [CStr "24:00 Hrs"; CNaN]])) "depth_24hr"
    (Some DecFloat.NaN).
Proof.
  apply (X9_empty_depth_is_nan (F := dec_float) [] [] (CStr "24:00 Hrs") "depth_24hr").
  vm_compute. reflexivity.
Defined.

Lemma X10_witness : extract_depths one_name_sheet = Ok ∅.
Proof.
  apply (X10_no_marker_no_depth (F := dec_float) one_name_sheet).
  intros r c [<-|[]] [<-|[]]. vm_compute. reflexivity.
Defined.

Lemma X11_witness : extract_formation_tops one_name_sheet = Ok [].
Proof.
  apply (X11_no_header_no_tops (F := dec_float) one_name_sheet).
  intros r [<-|[]]. vm_compute. reflexivity.
Defined.

Lemma X13_witness :
  ∃ fs fd, extract_formation_tops tops_sheet = Ok fs ∧ In fd fs ∧
           fd !! "name" = Some (VStr "7") ∧
           fd !! "prognosed_md" = None ∧ fd !! "actual_md" = None.
Proof.
  apply (X13_named_row_gives_record (F := dec_float) tops_sheet 2
           [CNaN; CNaN; CInt 7; CNaN; CNaN; CNaN; CNaN; CStr "n/a"; CNaN; CNaN] (CInt 7));
    [|reflexivity|reflexivity|vm_compute; reflexivity].
  split; [reflexivity|]. split; [vm_compute; reflexivity|].
  exists 0, [CNaN; CNaN; CStr "Formation Name"; CNaN; CNaN; CNaN; CNaN;
             CStr "Prognosed"; CNaN; CStr "Actual Drilled"].
  split; [lia|]. split; [reflexivity|]. vm_compute. reflexivity.
Defined.

Lemma X14_witness : extract_detailed_gas_readings one_name_sheet = Ok [].
Proof.
  apply (X14_no_header_no_readings (F := dec_float) one_name_sheet).
  intros r [<-|[]]. vm_compute. reflexivity.
Defined.

Lemma X16_witness :
  extract_detailed_gas_readings (narrow_gas_sheet ++ dotted_row :: []) =
  extract_detailed_gas_readings (narrow_gas_sheet ++ []).
Proof.
  apply (X16_rejected_number_drops_row (F := dec_float) narrow_gas_sheet [] dotted_row
           7 (CStr "1.2.3") ValueError);
    [vm_compute; reflexivity | simpl; tauto | reflexivity | vm_compute; reflexivity
    | vm_compute; reflexivity].
Defined.

Lemma X17_witness :
  ∃ rs rd, extract_detailed_gas_readings narrow_gas_sheet = Ok rs ∧ In rd rs ∧
           rd !! "DEPTH" = Some (VFloat (DecFloat.of_Z 2500)) ∧
           ∀ j key, In (j, key) gas_columns →
                    field_ok [CInt 2500; CInt 12; CInt 5] j (rd !! key).
Proof.
  apply (X17_numeric_row_gives_record (F := dec_float) narrow_gas_sheet 1
           [CInt 2500; CInt 12; CInt 5] (CInt 2500) (DecFloat.of_Z 2500));
    [|reflexivity|vm_compute; reflexivity|reflexivity|].
  - split; [reflexivity|]. split; [vm_compute; reflexivity|].
    exists 0, [CStr "DEPTH"; CStr "TG"; CStr "C1"].
    split; [lia|]. split; [reflexivity|]. vm_compute. reflexivity.
  - intros j key c' Hin Hc'. exfalso. unfold gas_columns in Hin.
    repeat (destruct Hin as [[= <- <-]|Hin]; [discriminate|]). destruct Hin.
Defined.

Lemma X18_witness :
  ∃ gd, extract_gas_readings summary_sheet = Ok gd ∧
    ∀ f e, gd !! f = Some e →
      (∃ r i s n, In r summary_sheet ∧ r !! i = Some (CStr s) ∧
                  contains "Max. Gas Reading at:" s = true ∧
                  (∀ i' c', i' < i → r !! i' = Some c' → py_eq c' (CStr s) = false) ∧
                  r !! S i = Some n ∧ notna n = true ∧ f = str n) ∧
      (e = ∅ ∨
       ∃ v, (∃ idx r c j, summary_sheet !! idx = Some r ∧ In c r ∧
                          contains "T.G" (str c) = true ∧
                          idx < j ≤ idx + 4 ∧ tg_offer summary_sheet j = Some v) ∧
            e = {["TG" := v]}).
Proof. exact (X18_summary_entries (F := dec_float) summary_sheet). Defined.

Lemma X20_witness : extract_lithological_description one_name_sheet = Ok [].
Proof.
  apply (X20_both_markers_needed (F := dec_float) one_name_sheet).
  left. intros r [<-|[]] H. vm_compute in H. discriminate.
Defined.

Lemma X22_witness :
  extract_lithological_description (one_name_sheet ++ litho_depth_row :: litho_body) =
  extract_lithological_description (litho_depth_row :: litho_body).
Proof.
  apply (X22_text_above_first_depth_row (F := dec_float) one_name_sheet litho_body
           litho_depth_row).
  - intros r [<-|[]]. split; vm_compute; reflexivity.
  - vm_compute. reflexivity.
Defined.

Lemma X23_witness :
  extract_formation_tops (one_name_sheet ++ tops_sheet) = extract_formation_tops tops_sheet.
Proof.
  apply (X23_rows_above_header (F := dec_float) one_name_sheet tops_sheet).
  intros r [<-|[]]. vm_compute. reflexivity.
Defined.

(** ** The chart of [main] *)

Section MoreChart.

Context {F : PyFloat}.

Lemma field_ok_present (r : row) j (o : option pyval) :
  field_ok r j o → (is_Some o ↔ j < length r).
Proof.
  unfold field_ok. destruct (r !! j) as [c|] eqn:E.
  - apply lookup_lt_Some in E. intros H. split; [done|]. intros _.
    destruct (notna c && digit_like (str c)); [by destruct H as (f & _ & ->)|by rewrite H].
  - apply lookup_ge_None_1 in E. intros ->. split; [by intros []|lia].
Qed.

(** The columns of a record: [DEPTH] always, and with [C3] also [TG], [C1]
    and [C2]. *)
Lemma reading_record_columns (r : row) rd :
  reading_record r = Some rd →
  is_Some (rd !! "DEPTH") ∧
  (is_Some (rd !! "C3") →
   is_Some (rd !! "TG") ∧ is_Some (rd !! "C1") ∧ is_Some (rd !! "C2")).
Proof.
  intros H. destruct (reading_record_fields r rd H) as (c & d & _ & _ & _ & Hd & Hf & _).
  split; [by rewrite Hd|]. intros H3.
  apply (field_ok_present r 10) in H3; [|apply Hf; unfold gas_columns; simpl; tauto].
  repeat split.
  - apply (field_ok_present r 7); [apply Hf; unfold gas_columns; simpl; tauto|lia].
  - apply (field_ok_present r 8); [apply Hf; unfold gas_columns; simpl; tauto|lia].
  - apply (field_ok_present r 9); [apply Hf; unfold gas_columns; simpl; tauto|lia].
Qed.

Lemma has_column_intro (records : list (gmap string pyval)) rd label :
  In rd records → is_Some (rd !! label) → has_column records label = true.
Proof.
  intros Hin Hl. apply existsb_exists. exists rd. split; [done|]. by apply bool_decide_eq_true.
Qed.

Lemma has_column_none (records : list (gmap string pyval)) label :
  (∀ rd, In rd records → rd !! label = None) → has_column records label = false.
Proof.
  intros Hno. apply not_true_iff_false. intros (rd & Hin & H)%existsb_exists.
  apply bool_decide_eq_true in H. rewrite (Hno rd Hin) in H. by destruct H.
Qed.

End MoreChart.

(** X24. The chart of [main] needs a reading from a row of eleven cells.
    When [extract_detailed_gas_readings] returns no record, no chart is
    drawn.  When it returns records and none holds [C3] -- no row that gave
    a record has a column 10 --, the selection of the columns [TG], [C1],
    [C2], [C3] raises [KeyError]; when some record holds [C3], the selection
    succeeds. *)
Theorem X24_chart_needs_column_ten {F : PyFloat} (df : grid) :
  ∃ rs, extract_detailed_gas_readings df = Ok rs ∧
    (rs = [] → main_chart rs = Ok None) ∧
    (rs ≠ [] → (∀ rd, In rd rs → rd !! "C3" = None) → main_chart rs = Raise KeyError) ∧
    ((∃ rd, In rd rs ∧ is_Some (rd !! "C3")) → ∃ chart, main_chart rs = Ok (Some chart)).
Proof.
  eexists. split; [apply detailed_gas_spec|].
  set (rs := table_records readings_header reading_record false df).
  assert (∀ rd, In rd rs → is_Some (rd !! "DEPTH") ∧
                 (is_Some (rd !! "C3") →
                  is_Some (rd !! "TG") ∧ is_Some (rd !! "C1") ∧ is_Some (rd !! "C2")))
    as Hcols.
  { intros rd (idx & r & _ & _ & Hrec & _)%in_table_records.
    by apply (reading_record_columns r). }
  assert (rs ≠ [] → frame_empty rs = false ∧ has_column rs "DEPTH" = true) as Hfull.
  { destruct rs as [|rd rs']; [done|]. intros _.
    destruct (Hcols rd) as [[v Hd] _]; [by left|]. split.
    - cbn [frame_empty forallb]. rewrite bool_decide_false; [done|].
      intros ->. by rewrite lookup_empty in Hd.
    - apply (has_column_intro _ rd); [by left|by rewrite Hd]. }
  split; [by intros ->|]. split.
  - intros Hne Hno. destruct (Hfull Hne) as [He Hd].
    unfold main_chart, chart_data. rewrite bool_decide_true by done.
    rewrite He, Hd. cbn [negb forallb].
    by rewrite (has_column_none rs "C3" Hno), !andb_false_r.
  - intros (rd & Hin & H3).
    assert (rs ≠ []) as Hne by (intros E; by rewrite E in Hin).
    destruct (Hfull Hne) as [He Hd].
    destruct (Hcols rd Hin) as [_ Hall]. destruct (Hall H3) as (H0 & H1 & H2).
    unfold main_chart, chart_data. rewrite bool_decide_true by done.
    rewrite He, Hd. cbn [negb forallb].
    rewrite !(has_column_intro rs rd) by done. run. eauto.
Qed.

(** ** A conversion that fails stays local *)

Section Local.

Context {F : PyFloat} {L : PyFloatLaws F}.

(** *** Depths *)

Lemma depth_cell_offer key (r : row) i c (d : gmap string float) :
  ∃ d', depth_cell r (i, c) d = Ok d' ∧
        d' !! key = latest (cell_offer key r (i, c)) (d !! key).
Proof.
  unfold cell_offer, latest. cbn [fst snd].
  destruct (marker_key c) as [key'|] eqn:Hk;
    [|rewrite depth_cell_idle by (by left); rewrite bool_decide_false by done; eauto].
  destruct (Nat.lt_ge_cases (i + 1) (length r)) as [Hi|Hi].
  - rewrite (depth_cell_marker r i c key' d Hk Hi). unfold set_depth.
    destruct (iloc_ok r (i + 1) Hi) as (n & Hn & ->). run.
    rewrite Nat.add_1_r in Hn. rewrite Hn.
    destruct (py_float n) as [v|e]; cbn [try_except mbind mret res_bind res_ret].
    + eexists. split; [done|]. case_bool_decide as Hkey.
      * injection Hkey as ->. by rewrite lookup_insert_eq.
      * rewrite lookup_insert_ne; [done|]. intros ->. done.
    + eexists. split; [done|]. by case_bool_decide.
  - rewrite depth_cell_idle by (by right).
    rewrite (lookup_ge_None_2 r (S i)) by lia. eexists. split; [done|]. by case_bool_decide.
Qed.

Lemma for_each_latest {A} key (body : A → gmap string float → res (gmap string float))
    (offer : A → option float) (l : list A) (d : gmap string float) :
  (∀ x d, ∃ d', body x d = Ok d' ∧ d' !! key = latest (offer x) (d !! key)) →
  ∃ d', for_each body l d = Ok d' ∧ d' !! key = latest (last (omap offer l)) (d !! key).
Proof.
  intros Hbody. revert d. induction l as [|x l IH]; intros d; [by exists d|].
  cbn [for_each omap]. destruct (Hbody x d) as (d1 & -> & H1). run.
  destruct (IH d1) as (d2 & -> & H2). exists d2. split; [done|].
  rewrite H2, H1. unfold latest. cbn [list_omap].
  destruct (offer x) as [v|]; [|done]. rewrite last_cons.
  change (list_omap A float offer l) with (omap offer l).
  by destruct (last (omap offer l)).
Qed.

Lemma depth_rows_offers key (df : grid) k (d : gmap string float) :
  ∃ d', for_each depth_row (enumerate_from k df) d = Ok d' ∧
        d' !! key = latest (last (depth_offers key df)) (d !! key).
Proof.
  revert k d. induction df as [|r df IH]; intros k d; [by exists d|].
  cbn [enumerate_from for_each].
  change (depth_row (k, r) d) with (for_each (depth_cell r) (enumerate r) d).
  destruct (for_each_latest key (depth_cell r) (cell_offer key r) (enumerate r) d)
    as (d1 & -> & H1); [intros [i c] d0; apply depth_cell_offer|].
  run. destruct (IH (S k) d1) as (d2 & -> & H2). exists d2. split; [done|].
  rewrite H2, H1. unfold depth_offers, latest. cbn [map concat]. rewrite last_app.
  fold (depth_offers key df). by destruct (last (depth_offers key df)).
Qed.

(** Each depth is the last value offered to its field. *)
Lemma depths_latest (df : grid) :
  ∃ d, extract_depths df = Ok d ∧
    ∀ key, In key ["depth_24hr"; "depth_00hr"; "depth_06hr"] →
           d !! key = last (depth_offers key df).
Proof.
  unfold extract_depths, enumerate.
  destruct (for_each depth_row (enumerate_from 0 df) ∅) as [d|e] eqn:E;
    [|destruct (depth_rows_offers "depth_24hr" df 0 ∅) as (d' & E' & _); congruence].
  run.
  destruct (set_progress_spec "progress_24hr" "depth_00hr" "depth_24hr" d) as (d1 & -> & H1).
  run.
  destruct (set_progress_spec "progress_6hr" "depth_06hr" "depth_00hr" d1) as (d2 & -> & H2).
  run. exists d2. split; [done|]. intros key Hin.
  destruct (depth_rows_offers key df 0 ∅) as (d' & E' & Hd').
  rewrite E in E'. injection E' as <-.
  rewrite lookup_empty in Hd'. unfold latest in Hd'.
  assert (d !! key = last (depth_offers key df)) as <-
    by (rewrite Hd'; by destruct (last (depth_offers key df))).
  assert (key ≠ "progress_24hr" ∧ key ≠ "progress_6hr") as [K1 K2]
    by (destruct Hin as [<-|[<-|[<-|[]]]]; done).
  destruct H2 as [(x & y & _ & _ & ->)|[_ ->]];
    destruct H1 as [(x' & y' & _ & _ & ->)|[_ ->]];
    rewrite ?lookup_insert_ne by done; done.
Qed.

(** *** Formation tops *)

Lemma md_value_rejected (r : row) j x e :
  r !! j = Some x → py_float x = Raise e → md_value r j = None.
Proof.
  intros Hx Hf. unfold md_value. rewrite Hx, Hf. by destruct (notna x && digit_like (str x)).
Qed.

(** *** Detailed gas readings *)

Lemma reading_record_rejected (r : row) j c e :
  In j [0; 7; 8; 9; 10; 11; 12; 13] →
  r !! j = Some c → notna c && digit_like (str c) = true → py_float c = Raise e →
  reading_record r = None.
Proof.
  intros Hj Hc Hn Hf.
  unfold reading_record. destruct (r !! 0) as [c0|] eqn:E0; [|done].
  destruct (notna c0 && digit_like (str c0)) eqn:En0; [|done].
  destruct (py_float c0) as [d|e0] eqn:Ed; [|done].
  destruct Hj as [<-|Hj]; [congruence|].
  assert (∃ key, In (j, key) gas_columns) as [key Hkey].
  { unfold gas_columns. cbn [In] in *.
    destruct Hj as [<-|[<-|[<-|[<-|[<-|[<-|[<-|[]]]]]]]]; eauto 10. }
  destruct (for_each_raises (gas_field r) gas_columns (j, key) {["DEPTH" := VFloat d]} Hkey)
    as [e' ->]; [|done].
  intros rd. exists e. by apply (gas_field_raises r j key c).
Qed.

(** *** Gas summary *)

(** A row of the look-ahead on which [float] fails is passed over. *)
Lemma tg_row_rejected (df : grid) f j (gd : gmap string (gmap string float))
    (next_row : row) x e :
  df !! j = Some next_row → next_row !! 3 = Some x → py_float x = Raise e →
  tg_row df f j gd = Ok (Next gd).
Proof.
  intros Hj Hx Hf. unfold tg_row. rewrite (iloc_lookup _ _ _ Hj). run.
  rewrite guarded_numeric_ok, Hx. run.
  destruct (notna x && digit_like (str x)); [|done].
  rewrite (iloc_lookup _ _ _ Hx). run. by rewrite Hf.
Qed.

(** A loop keeps what each of its steps establishes, when the later steps
    preserve it. *)
Lemma for_each_all {A S} (P : S → Prop) (R : S → S → Prop) (Q : A → S → Prop)
    (body : A → S → res S) (l : list A) (s : S) :
  (∀ s, R s s) → (∀ s1 s2 s3, R s1 s2 → R s2 s3 → R s1 s3) →
  (∀ x s s', Q x s → R s s' → Q x s') →
  (∀ x s, In x l → P s → ∃ s', body x s = Ok s' ∧ P s' ∧ R s s' ∧ Q x s') →
  P s →
  ∃ s', for_each body l s = Ok s' ∧ P s' ∧ R s s' ∧ ∀ x, In x l → Q x s'.
Proof.
  intros Hrefl Htrans Hmono. revert s.
  induction l as [|x l IH]; intros s Hbody Hs.
  - exists s. repeat split; [done|apply Hrefl|by intros ? []].
  - cbn [for_each]. destruct (Hbody x s) as (s1 & -> & H1 & R1 & Q1); [by left|done|].
    run. destruct (IH s1) as (s2 & -> & H2 & R2 & Q2);
      [intros y t Hy; apply Hbody; by right|done|].
    exists s2. repeat split; [done|by apply (Htrans s s1 s2)|].
    intros y [<-|Hy]; [by apply (Hmono x s1 s2)|by apply Q2].
Qed.

Lemma keeps_formations_refl st : keeps_formations st st.
Proof. by intros k. Qed.

Lemma keeps_formations_trans st1 st2 st3 :
  keeps_formations st1 st2 → keeps_formations st2 st3 → keeps_formations st1 st3.
Proof. intros H1 H2 k Hk. by apply H2, H1. Qed.

Lemma announced_kept (r : row) c st st' :
  announced r c st → keeps_formations st st' → announced r c st'.
Proof. intros H Hk i s n ? ? ? ? ? ?. by apply Hk, (H i s n). Qed.

Lemma gas_cell_announces (df : grid) idx (r : row) (c : cell) st :
  In c r → formation_known st →
  ∃ st', gas_cell df idx r c st = Ok st' ∧ formation_known st' ∧
         keeps_formations st st' ∧ announced r c st'.
Proof.
  intros Hin Hst. unfold gas_cell.
  destruct (contains "Max. Gas Reading at:" (str c)) eqn:Em.
  - destruct (text_of_marker "Max. Gas Reading at:" c) as [s ->]; [reflexivity | done |].
    destruct (list_index_text s r Hin) as (i0 & Ei & Hi0). rewrite Ei. run.
    destruct (list_index_first s r i0 Ei) as [Hi1 Hi2].
    assert (∀ i, r !! i = Some (CStr s) →
              (∀ i' c', i' < i → r !! i' = Some c' → py_eq c' (CStr s) = false) →
              i = i0) as Huniq.
    { intros i Hi Hfirst. destruct (Nat.lt_trichotomy i i0) as [Hlt|[->|Hlt]]; [|done|].
      - specialize (Hi2 i (CStr s) Hlt Hi). by rewrite py_eq_text in Hi2.
      - specialize (Hfirst i0 (CStr s) Hlt Hi1). by rewrite py_eq_text in Hfirst. }
    unfold and_then. run. destruct (i0 + 1 <? length r) eqn:El.
    + apply Nat.ltb_lt in El. destruct (iloc_ok r (i0 + 1) El) as (n0 & Hn0 & ->). run.
      rewrite Nat.add_1_r in Hn0.
      destruct (notna n0) eqn:En.
      * eexists. split; [done|]. split; [|split].
        -- intros f [= <-]. cbn [gas_data]. rewrite lookup_insert_eq. eauto.
        -- intros k Hk. cbn [gas_data]. apply lookup_insert_is_Some.
           destruct (decide (str n0 = k)); [by left|by right].
        -- intros i s' n [= <-] _ Hi Hfirst Hn _. cbn [gas_data].
           rewrite (Huniq i Hi Hfirst), Hn0 in Hn. injection Hn as <-.
           rewrite lookup_insert_eq. eauto.
      * run. exists st. split; [done|]. split; [done|].
        split; [apply keeps_formations_refl|].
        intros i s' n [= <-] _ Hi Hfirst Hn Hna.
        rewrite (Huniq i Hi Hfirst), Hn0 in Hn. injection Hn as <-. congruence.
    + run. exists st. split; [done|]. split; [done|].
      split; [apply keeps_formations_refl|].
      intros i s' n [= <-] _ Hi Hfirst Hn _. apply Nat.ltb_ge in El.
      rewrite (Huniq i Hi Hfirst) in Hn. apply lookup_lt_Some in Hn. lia.
  - assert (announced r c st) as Hvac.
    { intros i s n -> Hs. cbn [str] in Em. congruence. }
    assert (∀ st', keeps_formations st st' → announced r c st') as Hvac'.
    { intros st' _ i s n -> Hs. cbn [str] in Em. congruence. }
    destruct (contains "T.G" (str c) && truthy (current_formation st)).
    + destruct (current_formation st) as [f|] eqn:Ef.
      * unfold tg_lookahead.
        destruct (tg_scan_total df f _ (gas_data st) (lookahead_range df idx))
          as (gd' & -> & Hkeep). run.
        eexists. split; [done|].
        assert (keeps_formations st
                  {| gas_data := gd'; current_formation := Some f |}) as Hk
          by (intros k Hk; by apply Hkeep).
        split; [|split; [done|by apply Hvac']].
        intros f' [= <-]. cbn [gas_data]. apply Hkeep, Hst. done.
      * exists st. repeat split; [done|apply keeps_formations_refl|done].
    + exists st. repeat split; [done|apply keeps_formations_refl|done].
Qed.

Lemma lookup_in_enumerate_from {A} (l : list A) n i x :
  l !! i = Some x → In (n + i, x) (enumerate_from n l).
Proof.
  revert n i. induction l as [|y l IH]; intros n i; [done|].
  destruct i as [|i]; cbn [enumerate_from].
  - intros [= ->]. left. f_equal. lia.
  - intros H. right. replace (n + S i) with (S n + i) by lia. by apply IH.
Qed.

(** Every formation that a marker cell announces is a key of the result. *)
Lemma gas_readings_announced (df : grid) :
  ∃ gd, extract_gas_readings df = Ok gd ∧
    ∀ r i s n, In r df → r !! i = Some (CStr s) →
      contains "Max. Gas Reading at:" s = true →
      (∀ i' c', i' < i → r !! i' = Some c' → py_eq c' (CStr s) = false) →
      r !! S i = Some n → notna n = true →
      is_Some (gd !! str n).
Proof.
  unfold extract_gas_readings.
  destruct (for_each_all formation_known keeps_formations
              (λ (ir : nat * row) st, ∀ c, In c ir.2 → announced ir.2 c st)
              (gas_row df) (enumerate df) gas_init)
    as (st & -> & _ & _ & Hall).
  - apply keeps_formations_refl.
  - apply keeps_formations_trans.
  - intros [idx r] st st' H Hk c Hc. apply (announced_kept r c st); [by apply H|done].
  - intros [idx r] st _ Hst. unfold gas_row. cbn [fst snd].
    destruct (for_each_all formation_known keeps_formations (announced r)
                (gas_cell df idx r) r st) as (st' & -> & H1 & H2 & H3); [..|by eauto].
    + apply keeps_formations_refl.
    + apply keeps_formations_trans.
    + apply announced_kept.
    + intros c st0 Hc Hst0. by apply gas_cell_announces.
    + done.
  - intros f Hf. discriminate.
  - run. eexists. split; [done|]. intros r i s n Hr Hi Hs Hfirst Hn Hna.
    apply list_elem_of_In, list_elem_of_lookup_1 in Hr as [idx Hidx].
    pose proof (lookup_in_enumerate_from df 0 idx r Hidx) as Hin.
    assert (announced r (CStr s) st) as Ha
      by (apply (Hall (idx, r) Hin (CStr s)); cbn [snd];
          by apply list_elem_of_In, list_elem_of_lookup_2 with i).
    by apply (Ha i s n).
Qed.

End Local.

(** C1. For every grid, of any shape and any cell contents, each of the six
    extraction functions returns a result and raises nothing, and a [float]
    that fails stays local to its cell or row: the scan goes on and keeps
    what the other cells and rows give.
    - [extract_depths]: each depth is the last of the values that [float]
      gives for the cells right of the marker cells of the field, in the
      order of the scan; a cell on which [float] fails gives none, so the
      field stays as it was, absent if nothing else sets it.
    - [extract_formation_tops]: every named row below a header row gives its
      record; a depth column on which [float] fails is absent from it.
    - [extract_gas_readings]: every formation that a marker cell announces
      is a key of the result; in the look-ahead a row on which [float] fails
      is passed over, with the data as they were.
    - [extract_detailed_gas_readings]: a row on which a [float] fails is
      skipped: the result is the one of the sheet without that row. *)
Theorem C1_extraction_never_raises {F : PyFloat} {L : PyFloatLaws F} (df : grid) :
  (∃ wi, extract_well_info df = Ok wi) ∧
  (∃ d, extract_depths df = Ok d ∧
     ∀ key, In key ["depth_24hr"; "depth_00hr"; "depth_06hr"] →
            d !! key = last (depth_offers key df)) ∧
  (∃ fs, extract_formation_tops df = Ok fs ∧
     ∀ idx r c,
       data_row_at tops_header df idx r →
       r !! 2 = Some c → notna c = true → cell_in c name_denylist = false →
       ∃ fd, In fd fs ∧ fd !! "name" = Some (VStr (str c)) ∧
         ∀ j key x e,
           In (j, key) [(7, "prognosed_md"); (9, "actual_md")] →
           r !! j = Some x → py_float x = Raise e → fd !! key = None) ∧
  (∃ gd, extract_gas_readings df = Ok gd ∧
     ∀ r i s n,
       In r df → r !! i = Some (CStr s) →
       contains "Max. Gas Reading at:" s = true →
       (∀ i' c', i' < i → r !! i' = Some c' → py_eq c' (CStr s) = false) →
       r !! S i = Some n → notna n = true →
       is_Some (gd !! str n)) ∧
  (∀ f j gd next_row x e,
     df !! j = Some next_row → next_row !! 3 = Some x → py_float x = Raise e →
     tg_row df f j gd = Ok (Next gd)) ∧
  (∃ ds, extract_lithological_description df = Ok ds) ∧
  (∃ rs, extract_detailed_gas_readings df = Ok rs ∧
     ∀ pre post r j c e,
       df = pre ++ r :: post →
       contains "DEPTH" (row_str r) && contains "TG" (row_str r)
       && contains "C1" (row_str r) = false →
       In j [0; 7; 8; 9; 10; 11; 12; 13] →
       r !! j = Some c → notna c && digit_like (str c) = true →
       py_float c = Raise e →
       extract_detailed_gas_readings (pre ++ post) = Ok rs).
Proof.
  split; [destruct (well_info_spec df) as (wi & E & _); eauto|].
  split; [apply depths_latest|].
  split.
  { eexists. split; [apply formation_tops_spec|].
    intros idx r c (Hr & Hh & Hab) Hc Hn Hd.
    destruct (top_record r) as [fd|] eqn:Hrec;
      [|unfold top_record in Hrec; by rewrite Hc, Hn, Hd in Hrec].
    destruct (top_record_fields r fd Hrec) as (c' & Hc' & _ & _ & H1 & H2 & H3 & _).
    rewrite Hc in Hc'. injection Hc' as <-.
    exists fd. split; [|split; [done|]].
    - apply in_table_records. exists idx, r. repeat split; try done. by right.
    - intros j key x e [[= <- <-]|[[= <- <-]|[]]] Hx Hf.
      + by rewrite H2, (md_value_rejected r 7 x e).
      + by rewrite H3, (md_value_rejected r 9 x e). }
  split; [apply gas_readings_announced|].
  split; [intros f j gd next_row x e; apply tg_row_rejected|].
  split; [unfold extract_lithological_description; eauto|].
  eexists. split; [apply detailed_gas_spec|].
  intros pre post r j c e -> Hh Hj Hc Hn Hf.
  rewrite detailed_gas_spec. f_equal. symmetry.
  apply table_records_skip; [done|].
  by apply (reading_record_rejected r j c e).
Qed.

Lemma C1_witness :
  (∃ d, extract_depths failed_depth_sheet = Ok d ∧
        d !! "depth_24hr" = Some (DecFloat.of_Z 1000) ∧
        d !! "depth_00hr" = Some (DecFloat.of_Z 1050)) ∧
  (∃ rs, extract_detailed_gas_readings (narrow_gas_sheet ++ dotted_row :: []) = Ok rs ∧
         extract_detailed_gas_readings (narrow_gas_sheet ++ []) = Ok rs).
Proof.
  split.
  - destruct (C1_extraction_never_raises (F := dec_float) failed_depth_sheet)
      as (_ & (d & E & Hd) & _).
    exists d. split; [exact E|].
    split; (rewrite Hd by (simpl; tauto)); vm_compute; reflexivity.
  - destruct (C1_extraction_never_raises (F := dec_float)
                (narrow_gas_sheet ++ dotted_row :: []))
      as (_ & _ & _ & _ & _ & _ & rs & E & Hskip).
    exists rs. split; [exact E|].
    apply (Hskip narrow_gas_sheet [] dotted_row 7 (CStr "1.2.3") ValueError);
      [reflexivity | vm_compute; reflexivity | simpl; tauto | reflexivity
      | vm_compute; reflexivity | vm_compute; reflexivity].
Defined.
